(** * Customer churn pipeline: a shallow embedding of [churn_library.py]
      and of its test script [churn_script_logging_and_tests.py].

    The embedding has three layers.

    - [Pandas]: the fragment of the data-frame library the pipeline calls
      (column lookup and assignment, [groupby(..).mean()], [.loc]).
    - a state-and-exception monad [M] over a [World] holding the store of
      data-frame objects (so that copying and in-place assignment can be
      told apart), the file system, the figure being drawn and the log.
    - the functions of the two source files, written statement by statement
      in that monad.

    What is abstracted:

    - numbers are exact rationals, so a mean is the exact quotient and the
      rounding of 64-bit floats is not seen;
    - a column is numeric or holds strings: integer and floating-point
      columns are one dtype, and group means are computed for numeric
      columns only;
    - a drawing call records what it was asked to draw; whether the
      plotting library accepts a drawing is a parameter of the world;
    - the permutation a seeded random generator draws is a parameter of
      the world;
    - model fitting ([train_models]) is not embedded: a fitted model is its
      vector of feature importances. *)

From Stdlib Require Import String Ascii Bool Arith ZArith QArith Qround Lia List.
From Stdlib Require Import Permutation Sorted.
Import ListNotations.

Local Open Scope nat_scope.
Local Open Scope string_scope.
Local Open Scope list_scope.

(** ** Exceptions *)

(** A cell holds a number, a string, or is null (NaN / None). *)
Inductive scalar : Type :=
| Num (q : Q)
| Str (s : string).

Definition cell : Type := option scalar.

(** The exception classes the pipeline can raise.  All of them derive from
    Python's [Exception]; signals of the interpreter itself (an interrupt
    from the keyboard, an exit) are not modelled.  [LibraryError] stands for
    a class raised inside a library, named by [cls]. *)
Inductive exn : Type :=
| KeyError (key : cell)
| FileNotFoundError (path : string)
| AssertionError
| ValueError (msg : string)
| IndexError
| UnboundLocalError (var : string)
| LibraryError (cls : string).

Inductive outcome (A : Type) : Type :=
| Ret (a : A)
| Raise (e : exn).
Arguments Ret {A} a.
Arguments Raise {A} e.

Definition obind {A B} (o : outcome A) (k : A -> outcome B) : outcome B :=
  match o with
  | Ret a => k a
  | Raise e => Raise e
  end.

(** ** The data-frame library *)

Module Pandas.

(** A column has one dtype: numeric (int64 / float64, [None] is NaN) or
    object (strings as read from a CSV file, [None] is a missing entry). *)
Inductive Series : Type :=
| Numeric (xs : list (option Q))
| Object (xs : list (option string)).

Definition cells (s : Series) : list cell :=
  match s with
  | Numeric xs => map (option_map Num) xs
  | Object xs => map (option_map Str) xs
  end.

Definition size (s : Series) : nat := length (cells s).

(** [==] on scalars, as Python evaluates it. *)
Definition scalar_eqb (a b : scalar) : bool :=
  match a, b with
  | Num p, Num q => Qeq_bool p q
  | Str s, Str t => String.eqb s t
  | _, _ => false
  end.

(** [val == key] for a cell: a null cell equals nothing. *)
Definition cell_is (key : scalar) (c : cell) : bool :=
  match c with
  | Some v => scalar_eqb v key
  | None => false
  end.

(** A data frame: its columns in order, each with its name. *)
Definition DataFrame : Type := list (string * Series).

Definition columns (df : DataFrame) : list string := map fst df.

Definition has_column (df : DataFrame) (name : string) : bool :=
  existsb (String.eqb name) (columns df).

(** [df[name]] *)
Fixpoint getitem (df : DataFrame) (name : string) : outcome Series :=
  match df with
  | [] => Raise (KeyError (Some (Str name)))
  | (n, s) :: rest => if String.eqb name n then Ret s else getitem rest name
  end.

(** [df[name] = s]: an existing column is replaced where it stands, a new
    one is appended as the last column. *)
Fixpoint setitem (df : DataFrame) (name : string) (s : Series) : DataFrame :=
  match df with
  | [] => [(name, s)]
  | (n, old) :: rest =>
      if String.eqb name n then (n, s) :: rest
      else (n, old) :: setitem rest name s
  end.

(** [df[names]] with a list of names: every name must be a column. *)
Fixpoint getitems (df : DataFrame) (names : list string) : outcome DataFrame :=
  match names with
  | [] => Ret []
  | n :: rest =>
      obind (getitem df n) (fun s =>
      obind (getitems df rest) (fun sub => Ret ((n, s) :: sub)))
  end.

(** [df.shape] *)
Definition nrows (df : DataFrame) : nat :=
  match df with
  | [] => 0
  | (_, s) :: _ => size s
  end.

Definition shape (df : DataFrame) : nat * nat := (nrows df, length df).

(** Every column has the same number of rows and names are not repeated. *)
Definition well_formed (df : DataFrame) : Prop :=
  NoDup (columns df) /\ Forall (fun c => size (snd c) = nrows df) df.

(** *** Grouping *)

(** The distinct non-null values of a column, in order of first
    appearance.  ([groupby] sorts its keys; lookups by [.loc] do not see
    the order.) *)
Fixpoint distinct_keys (cs : list cell) (seen : list scalar) : list scalar :=
  match cs with
  | [] => []
  | None :: rest => distinct_keys rest seen
  | Some v :: rest =>
      if existsb (scalar_eqb v) seen then distinct_keys rest seen
      else v :: distinct_keys rest (v :: seen)
  end.

(** The values of [vals] on the rows whose key cell equals [key]. *)
Definition group_values {A} (keycol : list cell) (vals : list A)
    (key : scalar) : list A :=
  map snd (filter (fun r => cell_is key (fst r)) (combine keycol vals)).

Definition non_null {A} (xs : list (option A)) : list A :=
  flat_map (fun x => match x with Some a => [a] | None => [] end) xs.

Definition Qsum (xs : list Q) : Q := fold_right Qplus 0%Q xs.

(** [mean()] of a group: nulls are skipped; a group without a non-null
    value has mean NaN. *)
Definition mean (xs : list (option Q)) : option Q :=
  match non_null xs with
  | [] => None
  | ys => Some (Qred (Qsum ys / inject_Z (Z.of_nat (length ys))))
  end.

(** The object [df.groupby(by)]. *)
Record GroupBy : Type := {
  gb_frame : DataFrame;
  gb_by : string;
  gb_keycol : list cell;
  gb_keys : list scalar
}.

Definition groupby (df : DataFrame) (by_ : string) : outcome GroupBy :=
  obind (getitem df by_) (fun s =>
  Ret {| gb_frame := df; gb_by := by_;
         gb_keycol := cells s;
         gb_keys := distinct_keys (cells s) [] |}).

(** A frame or series indexed by group keys. *)
Record KeyedSeries : Type := {
  ks_index : list scalar;
  ks_values : list (option Q)
}.

Definition KeyedFrame : Type := list (string * KeyedSeries).

(** The group means of one column, one per key. *)
Definition group_means (keycol : list cell) (keys : list scalar)
    (xs : list (option Q)) : KeyedSeries :=
  {| ks_index := keys;
     ks_values := map (fun k => mean (group_values keycol xs k)) keys |}.

(** [GroupBy.mean()]: one column of group means for every numeric column
    other than the grouping column.  Columns of object dtype are left out.
    The library leaves them out too, with one exception that is not
    modelled: it can keep a column of strings whose strings spell numbers.
    The properties that read the [Churn] column of the group means
    therefore take the [Churn] column of the table to be numeric or
    absent. *)
Definition mean_columns (by_ : string) (keycol : list cell) (keys : list scalar)
    (frame : DataFrame) : KeyedFrame :=
  flat_map (fun c =>
    match snd c with
    | Numeric xs =>
        if String.eqb (fst c) by_ then []
        else [(fst c, group_means keycol keys xs)]
    | Object _ => []
    end) frame.

Definition gb_mean (g : GroupBy) : KeyedFrame :=
  mean_columns (gb_by g) (gb_keycol g) (gb_keys g) (gb_frame g).

Fixpoint kf_getitem (kf : KeyedFrame) (name : string) : outcome KeyedSeries :=
  match kf with
  | [] => Raise (KeyError (Some (Str name)))
  | (n, s) :: rest => if String.eqb name n then Ret s else kf_getitem rest name
  end.

(** [series.loc[val]] on a series with distinct index labels. *)
Fixpoint loc_in (index : list scalar) (values : list (option Q)) (val : scalar)
    : outcome (option Q) :=
  match index, values with
  | k :: ks, v :: vs => if scalar_eqb val k then Ret v else loc_in ks vs val
  | _, _ => Raise (KeyError (Some val))
  end.

Definition loc (s : KeyedSeries) (val : cell) : outcome (option Q) :=
  match val with
  | None => Raise (KeyError None)
  | Some v => loc_in (ks_index s) (ks_values s) v
  end.

End Pandas.

(** ** The world the pipeline runs in *)

Import Pandas.

(** What a drawing call puts on the current figure.  The statistics behind
    a drawing ([value_counts], the kernel density, [corr]) belong to the
    plotting call and are not unfolded. *)
Inductive Artist : Type :=
| ValueCountsBar (s : Series)
| Histogram (kde : bool) (s : Series)
| Heatmap (df : DataFrame)
| Title (text : string)
| YLabel (text : string)
| Bars (x : list nat) (height : list Q)
| XTicks (ticks : list nat) (labels : list string).

Definition Figure : Type := list Artist.

Inductive Level : Type := INFO | ERROR.

Inductive LogArg : Type :=
| ArgInt (n : nat)
| ArgType (cls : string).

Record LogRecord : Type := {
  level : Level;
  message : string;
  args : list LogArg
}.

(** A reference to a data-frame object. *)
Definition ref : Type := nat.

Record World : Type := {
  heap : list DataFrame;              (* the data-frame objects, by reference *)
  csv_files : list (string * DataFrame);   (* CSV files and what they parse to *)
  images : list (string * Figure);    (* image files written by [savefig] *)
  dirs : list string;                 (* existing directories, with their final slash *)
  figure : Figure;                    (* the current figure of the plotting library *)
  log : list LogRecord;               (* records of the log file, oldest first *)
  draw_error : Artist -> option exn;  (* whether the plotting library rejects a drawing *)
  permutation : Z -> nat -> list nat  (* RandomState(seed).permutation(n) *)
}.

Definition set_heap (w : World) (h : list DataFrame) : World :=
  {| heap := h; csv_files := csv_files w; images := images w; dirs := dirs w;
     figure := figure w; log := log w; draw_error := draw_error w;
     permutation := permutation w |}.

Definition set_images (w : World) (i : list (string * Figure)) : World :=
  {| heap := heap w; csv_files := csv_files w; images := i; dirs := dirs w;
     figure := figure w; log := log w; draw_error := draw_error w;
     permutation := permutation w |}.

Definition set_figure (w : World) (f : Figure) : World :=
  {| heap := heap w; csv_files := csv_files w; images := images w; dirs := dirs w;
     figure := f; log := log w; draw_error := draw_error w;
     permutation := permutation w |}.

Definition set_log (w : World) (l : list LogRecord) : World :=
  {| heap := heap w; csv_files := csv_files w; images := images w; dirs := dirs w;
     figure := figure w; log := l; draw_error := draw_error w;
     permutation := permutation w |}.

(** ** The monad: state that survives an exception *)

Definition M (A : Type) : Type := World -> outcome A * World.

Definition ret {A} (a : A) : M A := fun w => (Ret a, w).

Definition raise {A} (e : exn) : M A := fun w => (Raise e, w).

Definition bind {A B} (m : M A) (k : A -> M B) : M B :=
  fun w =>
    match m w with
    | (Ret a, w') => k a w'
    | (Raise e, w') => (Raise e, w')
    end.

Definition lift {A} (o : outcome A) : M A := fun w => (o, w).

Declare Scope monad_scope.
Delimit Scope monad_scope with monad.
Notation "x <- c1 ;; c2" := (bind c1 (fun x => c2))
  (at level 61, c1 at next level, right associativity) : monad_scope.
Notation "c1 ;; c2" := (bind c1 (fun _ => c2))
  (at level 61, right associativity) : monad_scope.
Local Open Scope monad_scope.

(** [try: body except <classes> as err: handler err] *)
Definition try_except {A} (body : M A) (catches : exn -> bool)
    (handler : exn -> M A) : M A :=
  fun w =>
    match body w with
    | (Ret a, w') => (Ret a, w')
    | (Raise e, w') => if catches e then handler e w' else (Raise e, w')
    end.

(** [for x in xs: body x] *)
Fixpoint for_each {A} (xs : list A) (body : A -> M unit) : M unit :=
  match xs with
  | [] => ret tt
  | x :: rest => body x ;; for_each rest body
  end.

(** *** Exception classes *)

Definition class_name (e : exn) : string :=
  match e with
  | KeyError _ => "KeyError"
  | FileNotFoundError _ => "FileNotFoundError"
  | AssertionError => "AssertionError"
  | ValueError _ => "ValueError"
  | IndexError => "IndexError"
  | UnboundLocalError _ => "UnboundLocalError"
  | LibraryError cls => cls
  end.

(** [except Exception] *)
Definition Exception (e : exn) : bool := true.

(** [except FileNotFoundError] *)
Definition is_FileNotFoundError (e : exn) : bool :=
  match e with FileNotFoundError _ => true | _ => false end.

(** [except AssertionError] *)
Definition is_AssertionError (e : exn) : bool :=
  match e with AssertionError => true | _ => false end.

(** [assert b] *)
Definition assert (b : bool) : M unit :=
  if b then ret tt else raise AssertionError.

(** *** The object store *)

Fixpoint update {A} (i : nat) (x : A) (l : list A) : list A :=
  match l, i with
  | [], _ => []
  | _ :: rest, O => x :: rest
  | y :: rest, S j => y :: update j x rest
  end.

Definition deref (r : ref) : M DataFrame :=
  fun w =>
    match nth_error (heap w) r with
    | Some df => (Ret df, w)
    | None => (Raise (LibraryError "AttributeError"), w)
    end.

Definition alloc (df : DataFrame) : M ref :=
  fun w => (Ret (length (heap w)), set_heap w (heap w ++ [df])).

Definition store (r : ref) (df : DataFrame) : M unit :=
  fun w => (Ret tt, set_heap w (update r df (heap w))).

(** [r.copy(deep=True)]: a new object with the same contents. *)
Definition copy (r : ref) : M ref :=
  df <- deref r ;; alloc df.

(** [r[name]] *)
Definition df_getitem (r : ref) (name : string) : M Series :=
  df <- deref r ;; lift (getitem df name).

(** [r[name] = s]: the object [r] refers to is changed in place.  The
    lists assigned by the pipeline have one entry per row of the frame, so
    the length check of the assignment is left out. *)
Definition df_setitem (r : ref) (name : string) (s : Series) : M unit :=
  df <- deref r ;; store r (setitem df name s).

(** *** Files, figures and the log *)

Definition lookup {A} (key : string) (l : list (string * A)) : option A :=
  option_map snd (find (fun kv => String.eqb key (fst kv)) l).

(** [os.path.isfile] *)
Definition isfile (path : string) : M bool :=
  fun w =>
    (Ret (match lookup path (images w), lookup path (csv_files w) with
          | None, None => false
          | _, _ => true
          end), w).

(** The part of a path up to and including its last slash. *)
Fixpoint dir_of (path : string) : string :=
  match path with
  | EmptyString => EmptyString
  | String c rest =>
      match dir_of rest with
      | EmptyString => if Ascii.eqb c "/" then String c EmptyString else EmptyString
      | d => String c d
      end
  end.

(** [plt.figure(...)]: a new, empty current figure. *)
Definition plt_figure : M unit :=
  fun w => (Ret tt, set_figure w []).

(** A drawing call: adds to the current figure unless the library raises. *)
Definition draw (a : Artist) : M unit :=
  fun w =>
    match draw_error w a with
    | Some e => (Raise e, w)
    | None => (Ret tt, set_figure w (figure w ++ [a]))
    end.

(** [plt.savefig(fname=path)]: writes the current figure, replacing a file
    already there; the directory must exist. *)
Definition plt_savefig (path : string) : M unit :=
  fun w =>
    if existsb (String.eqb (dir_of path)) (dirs w)
    then (Ret tt, set_images w ((path, figure w) :: images w))
    else (Raise (FileNotFoundError path), w).

Definition logging (lvl : Level) (msg : string) (a : list LogArg) : M unit :=
  fun w => (Ret tt,
            set_log w (log w ++ [{| level := lvl; message := msg; args := a |}])).

Definition logging_info := logging INFO.
Definition logging_error := logging ERROR.

(** *** Strings *)

Definition lower_ascii (c : ascii) : ascii :=
  let n := nat_of_ascii c in
  if (65 <=? n)%nat && (n <=? 90)%nat then ascii_of_nat (n + 32) else c.

(** [str.lower()] on ASCII text. *)
Fixpoint lower (s : string) : string :=
  match s with
  | EmptyString => EmptyString
  | String c rest => String (lower_ascii c) (lower rest)
  end.

(** [str.replace(a, b)] for one-character [a] and [b]. *)
Fixpoint replace (a b : ascii) (s : string) : string :=
  match s with
  | EmptyString => EmptyString
  | String c rest => String (if Ascii.eqb c a then b else c) (replace a b rest)
  end.

(** ** The model-selection library: [train_test_split] *)

Module Sklearn.

Definition take_rows {A} (xs : list (option A)) (idx : list nat) : list (option A) :=
  map (fun i => nth i xs None) idx.

(** [s.iloc[idx]] *)
Definition series_take (s : Series) (idx : list nat) : Series :=
  match s with
  | Numeric xs => Numeric (take_rows xs idx)
  | Object xs => Object (take_rows xs idx)
  end.

Definition frame_take (df : DataFrame) (idx : list nat) : DataFrame :=
  map (fun c => (fst c, series_take (snd c) idx)) df.

(** [ceil(test_size * n_samples)] *)
Definition n_test_of (test_size : Q) (n_samples : nat) : nat :=
  Z.to_nat (Qceiling (test_size * inject_Z (Z.of_nat n_samples))).

(** The split for a given permutation of the row numbers: the test rows
    are its first [n_test] entries, the train rows the ones after them. *)
Definition split_by (perm : list nat) (x : DataFrame) (y : Series)
    (test_size : Q) : outcome (DataFrame * DataFrame * Series * Series) :=
  let n_samples := nrows x in
  if negb (Nat.eqb (size y) n_samples)
  then Raise (ValueError "inconsistent numbers of samples")
  else
    let n_test := n_test_of test_size n_samples in
    let n_train := n_samples - n_test in
    if Nat.eqb n_train 0
    then Raise (ValueError "the resulting train set will be empty")
    else
      let test := firstn n_test perm in
      let train := firstn n_train (skipn n_test perm) in
      Ret (frame_take x train, frame_take x test,
           series_take y train, series_take y test).

(** [train_test_split(x, y, test_size=.., random_state=..)] with a
    fractional test size and no train size: the rows are split by the
    permutation the seeded generator draws. *)
Definition train_test_split (x : DataFrame) (y : Series) (test_size : Q)
    (random_state : Z) : M (DataFrame * DataFrame * Series * Series) :=
  fun w => (split_by (permutation w random_state (nrows x)) x y test_size, w).

End Sklearn.

(** [np.argsort]: the positions of [a] in ascending order of their values
    (an insertion sort; which of two equal values comes first is not
    relied upon). *)
Fixpoint insert_by (a : list Q) (i : nat) (sorted : list nat) : list nat :=
  match sorted with
  | [] => [i]
  | j :: rest =>
      if Qle_bool (nth i a 0%Q) (nth j a 0%Q) then i :: j :: rest
      else j :: insert_by a i rest
  end.

Definition argsort (a : list Q) : list nat :=
  fold_right (insert_by a) [] (seq 0 (length a)).

(** [a[indices]] *)
Definition fancy (a : list Q) (indices : list nat) : list Q :=
  map (fun i => nth i a 0%Q) indices.

(** ** [churn_library.py] *)

Fixpoint map_outcome {A B} (f : A -> outcome B) (xs : list A) : outcome (list B) :=
  match xs with
  | [] => Ret []
  | x :: rest =>
      obind (f x) (fun y => obind (map_outcome f rest) (fun ys => Ret (y :: ys)))
  end.

(** [pd.read_csv(pth)] *)
Definition read_csv (pth : string) : M ref :=
  fun w =>
    match lookup pth (csv_files w) with
    | Some df => alloc df w
    | None =>
        match lookup pth (images w) with
        | Some _ => (Raise (LibraryError "UnicodeDecodeError"), w)
        | None => (Raise (FileNotFoundError pth), w)
        end
    end.

Definition import_data (pth : string) : M ref := read_csv pth.

(** [lambda val: 0 if val == "Existing Customer" else 1] *)
Definition churn_of (val : cell) : Q :=
  if cell_is (Str "Existing Customer") val then 0%Q else 1%Q.

(** [series.apply(f)] for an [f] that returns numbers: the results make a
    numeric column.  On a column without rows [f] is never called and the
    result is an empty column of the dtype of [s]. *)
Definition apply (f : cell -> Q) (s : Series) : Series :=
  match cells s with
  | [] => s
  | _ :: _ => Numeric (map (fun val => Some (f val)) (cells s))
  end.

Definition columns_to_plot : list string :=
  ["Churn"; "Customer_Age"; "Marital_Status"; "Total_Trans_Ct"].

(** The body of the plotting loop of [perform_eda]. *)
Definition plot_column (eda_df : ref) (column : string) : M unit :=
  plt_figure ;;
  (if String.eqb column "Marital_Status" then
     s <- df_getitem eda_df column ;; draw (ValueCountsBar s)
   else if String.eqb column "Total_Trans_Ct" then
     s <- df_getitem eda_df column ;; draw (Histogram true s)
   else
     s <- df_getitem eda_df column ;; draw (Histogram false s)) ;;
  plt_savefig ("./images/eda/" ++ replace " " "_" (lower column)
               ++ "_distribution.png").

Definition perform_eda (dataframe : ref) : M ref :=
  (* Copy DataFrame *)
  eda_df <- copy dataframe ;;
  (* Churn *)
  flag <- df_getitem eda_df "Attrition_Flag" ;;
  df_setitem eda_df "Churn" (apply churn_of flag) ;;
  (* Create plots for each column *)
  for_each columns_to_plot (plot_column eda_df) ;;
  (* Heatmap *)
  plt_figure ;;
  df <- deref eda_df ;;
  draw (Heatmap df) ;;
  plt_savefig "./images/eda/heatmap.png" ;;
  ret eda_df.

(** [if response:] a missing or empty response name is false. *)
Definition truthy (response : option string) : bool :=
  match response with
  | Some (String _ _) => true
  | _ => false
  end.

Definition response_text (response : option string) : string :=
  match response with Some r => r | None => EmptyString end.

(** The inner loop: [column_lst.append(column_groups.loc[val])]. *)
Fixpoint append_loc (column_groups : KeyedSeries) (vals : list cell)
    (column_lst : list (option Q)) : outcome (list (option Q)) :=
  match vals with
  | [] => Ret column_lst
  | val :: rest =>
      obind (loc column_groups val) (fun m =>
      append_loc column_groups rest (column_lst ++ [m]))
  end.

(** The body of the loop of [encoder_helper]. *)
Definition encoder_body (dataframe encoder_df : ref) (response : option string)
    (category : string) : M unit :=
  df <- deref dataframe ;;
  column_groups <- lift (obind (groupby df category)
                           (fun g => kf_getitem (gb_mean g) "Churn")) ;;
  col <- df_getitem dataframe category ;;
  column_lst <- lift (append_loc column_groups (cells col) []) ;;
  if truthy response then
    df_setitem encoder_df (category ++ "_" ++ response_text response)
               (Numeric column_lst)
  else
    df_setitem encoder_df category (Numeric column_lst).

Definition encoder_helper (dataframe : ref) (category_lst : list string)
    (response : option string) : M ref :=
  (* Copy DataFrame *)
  encoder_df <- copy dataframe ;;
  for_each category_lst (encoder_body dataframe encoder_df response) ;;
  ret encoder_df.

Definition cat_columns : list string :=
  ["Gender"; "Education_Level"; "Marital_Status"; "Income_Category";
   "Card_Category"].

Definition keep_cols : list string :=
  ["Customer_Age"; "Dependent_count"; "Months_on_book";
   "Total_Relationship_Count"; "Months_Inactive_12_mon";
   "Contacts_Count_12_mon"; "Credit_Limit"; "Total_Revolving_Bal";
   "Avg_Open_To_Buy"; "Total_Amt_Chng_Q4_Q1"; "Total_Trans_Amt";
   "Total_Trans_Ct"; "Total_Ct_Chng_Q4_Q1"; "Avg_Utilization_Ratio";
   "Gender_Churn"; "Education_Level_Churn"; "Marital_Status_Churn";
   "Income_Category_Churn"; "Card_Category_Churn"].

(** [x[names] = sub]: assigns the columns of [sub], in order, under [names]. *)
Fixpoint setitems (x : DataFrame) (names : list string) (sub : DataFrame)
    : DataFrame :=
  match names, sub with
  | n :: names', (_, s) :: sub' => setitems (setitem x n s) names' sub'
  | _, _ => x
  end.

Definition perform_feature_engineering (dataframe : ref)
    (response : option string) : M (DataFrame * DataFrame * Series * Series) :=
  (* feature engineering *)
  encoded_df <- encoder_helper dataframe cat_columns response ;;
  (* target feature *)
  target_feature <- df_getitem encoded_df "Churn" ;;
  (* Create dataframe *)
  let x_dataframe : DataFrame := [] in
  (* Features DataFrame *)
  encoded <- deref encoded_df ;;
  sub <- lift (getitems encoded keep_cols) ;;
  let x_dataframe := setitems x_dataframe keep_cols sub in
  (* Train and Test split *)
  Sklearn.train_test_split x_dataframe target_feature (3 # 10) 42.

(** The default value of [response]. *)
Definition default_response : option string := Some "Churn".

Record Estimator : Type := { feature_importances_ : list Q }.
Record GridSearchCV : Type := { best_estimator_ : Estimator }.

(** [features.columns[i]] *)
Definition column_at (features : DataFrame) (i : nat) : outcome string :=
  match nth_error (columns features) i with
  | Some name => Ret name
  | None => Raise IndexError
  end.

(** [plt.bar(x, height)]: the two are broadcast against each other. *)
Definition plt_bar (x : list nat) (height : list Q) : M unit :=
  if (length x =? length height)%nat then draw (Bars x height)
  else match x, height with
       | _, [h] => draw (Bars x (repeat h (length x)))
       | [x0], _ => draw (Bars (repeat x0 (length height)) height)
       | _, _ => raise (ValueError "shape mismatch")
       end.

Definition feature_importance_plot (model : GridSearchCV)
    (features : DataFrame) (output_pth : string) : M unit :=
  (* Feature importances *)
  let importances := feature_importances_ (best_estimator_ model) in
  (* Sort Feature importances in descending order *)
  let indices := rev (argsort importances) in
  (* Sorted feature importances *)
  names <- lift (map_outcome (column_at features) indices) ;;
  (* Create plot *)
  plt_figure ;;
  draw (Title "Feature Importance") ;;
  draw (YLabel "Importance") ;;
  (* Add bars *)
  plt_bar (seq 0 (snd (shape features))) (fancy importances indices) ;;
  (* x-axis labels *)
  draw (XTicks (seq 0 (snd (shape features))) names) ;;
  (* Save the image *)
  plt_savefig (output_pth ++ "feature_importances.png").

(** ** [churn_script_logging_and_tests.py] *)

Fixpoint list_eqb {A} (eqb : A -> A -> bool) (xs ys : list A) : bool :=
  match xs, ys with
  | [], [] => true
  | x :: xs', y :: ys' => eqb x y && list_eqb eqb xs' ys'
  | _, _ => false
  end.

Definition option_eqb {A} (eqb : A -> A -> bool) (x y : option A) : bool :=
  match x, y with
  | None, None => true
  | Some a, Some b => eqb a b
  | _, _ => false
  end.

(** [Series.equals]: same dtype, same values, nulls in the same places.
    (Integer and floating-point columns are one dtype here.) *)
Definition series_equals (s t : Series) : bool :=
  match s, t with
  | Numeric xs, Numeric ys => list_eqb (option_eqb Qeq_bool) xs ys
  | Object xs, Object ys => list_eqb (option_eqb String.eqb) xs ys
  | _, _ => false
  end.

(** [a.columns.equals(b.columns)] *)
Definition columns_equals (a b : DataFrame) : bool :=
  list_eqb String.eqb (columns a) (columns b).

(** [a.equals(b)] *)
Definition frame_equals (a b : DataFrame) : bool :=
  list_eqb (fun c d => String.eqb (fst c) (fst d) && series_equals (snd c) (snd d))
           a b.

Definition data_path : string := "./data/bank_data.csv".

(** The horizontal tab, which Python writes as a backslash and a [t] inside
    a string literal. *)
Definition tab : string := String "009"%char EmptyString.

Definition test_import : M unit :=
  (* Test if the CSV file is available *)
  dataframe <- try_except
    (dataframe <- import_data data_path ;;
     logging_info "Testing import_data: SUCCESS" [] ;;
     ret dataframe)
    is_FileNotFoundError
    (fun err =>
       logging_error "Testing import_data: The file was not found" [] ;;
       raise err) ;;
  (* Test the structure of the dataframe *)
  try_except
    (df <- deref dataframe ;;
     assert (Nat.ltb 0 (fst (shape df))) ;;
     assert (Nat.ltb 0 (snd (shape df))) ;;
     logging_info ("Rows: %d" ++ tab ++ "Columns: %d")%string
                  [ArgInt (fst (shape df)); ArgInt (snd (shape df))])
    is_AssertionError
    (fun err =>
       logging_error
         "Testing import_data: The file does not appear to have rows and columns" [] ;;
       raise err).

Definition image_files : list string :=
  ["churn_distribution.png"; "customer_age_distribution.png";
   "marital_status_distribution.png"; "total_trans_ct_distribution.png";
   "heatmap.png"].

(** The loop of [test_eda] that checks the image files. *)
Definition assert_image_files : M unit :=
  for_each image_files (fun image_file =>
    let file_path := ("./images/eda/" ++ image_file)%string in
    b <- isfile file_path ;;
    assert (Bool.eqb b true)).

Definition test_eda : M unit :=
  bank_df <- import_data data_path ;;
  try_except
    ((* Perform Exploratory Data Analysis (EDA) *)
     eda_df <- perform_eda bank_df ;;
     logging_info "Testing perform_eda: SUCCESS" [])
    Exception
    (fun err =>
       logging_error "Testing perform_eda failed - Error type: %s"
                     [ArgType (class_name err)]) ;;
  assert_image_files.

Definition test_encoder_helper : M unit :=
  (* Load DataFrame *)
  dataframe <- import_data data_path ;;
  (* Create `Churn` feature: the loaded frame itself is changed *)
  flag <- df_getitem dataframe "Attrition_Flag" ;;
  df_setitem dataframe "Churn" (apply churn_of flag) ;;
  try_except
    (encoded_df <- encoder_helper dataframe [] None ;;
     (* Data should remain the same *)
     e <- deref encoded_df ;;
     d <- deref dataframe ;;
     assert (Bool.eqb (frame_equals e d) true) ;;
     logging_info "Testing encoder_helper(data_frame, category_lst=[]): SUCCESS" [])
    is_AssertionError
    (fun err =>
       logging_error "Testing encoder_helper(data_frame, category_lst=[]): ERROR" [] ;;
       raise err) ;;
  try_except
    (encoded_df <- encoder_helper dataframe cat_columns None ;;
     e <- deref encoded_df ;;
     d <- deref dataframe ;;
     (* Column names should remain the same *)
     assert (Bool.eqb (columns_equals e d) true) ;;
     (* Data should be different *)
     assert (Bool.eqb (frame_equals e d) false) ;;
     logging_info "Testing encoder_helper: SUCCESS" [])
    is_AssertionError
    (fun err =>
       logging_error "Testing encoder_helper: ERROR" [] ;;
       raise err) ;;
  try_except
    (encoded_df <- encoder_helper dataframe cat_columns (Some "Churn") ;;
     e <- deref encoded_df ;;
     d <- deref dataframe ;;
     (* Columns names should be different *)
     assert (Bool.eqb (columns_equals e d) false) ;;
     (* Data should be different *)
     assert (Bool.eqb (frame_equals e d) false) ;;
     (* Number of columns in encoded_df should be the sum of columns in
        dataframe and the newly created columns from cat_columns *)
     assert (Nat.eqb (length (columns e))
                     (length (columns d) + length cat_columns)) ;;
     logging_info "Testing encoder_helper with response='Churn': SUCCESS" [])
    is_AssertionError
    (fun err =>
       logging_error "Testing encoder_helper with response='Churn': ERROR" [] ;;
       raise err).

Definition two_test_level : bool := false.

Definition test_perform_feature_engineering : M unit :=
  (* the names bound inside [try] are unbound after a failure *)
  split <- try_except
    (dataframe <- import_data data_path ;;
     r <- perform_feature_engineering dataframe default_response ;;
     logging_info "Testing perform_feature_engineering: SUCCESS" [] ;;
     ret (Some r))
    Exception
    (fun err =>
       logging_error "Testing perform_feature_engineering failed - Error type: %s"
                     [ArgType (class_name err)] ;;
       ret None) ;;
  if two_test_level then
    try_except
      (match split with
       | None => raise (UnboundLocalError "x_train")
       | Some (x_train, x_test, y_train, y_test) =>
           assert (Nat.ltb 0 (fst (shape x_train))) ;;
           assert (Nat.ltb 0 (snd (shape x_train))) ;;
           assert (Nat.ltb 0 (fst (shape x_test))) ;;
           assert (Nat.ltb 0 (snd (shape x_test))) ;;
           assert (Nat.ltb 0 (size y_train)) ;;
           assert (Nat.ltb 0 (size y_test)) ;;
           logging_info
             "perform_feature_engineering returned Train and Test sets of shape %s %s"
             [ArgInt (fst (shape x_train)); ArgInt (snd (shape x_train));
              ArgInt (fst (shape x_test)); ArgInt (snd (shape x_test))]
       end)
      is_AssertionError
      (fun _ =>
         logging_error "The returned train datasets do not have rows and columns" [])
  else ret tt.

(** * Vocabulary of the properties *)

(** ** The stages taken apart

    Parts of the stages and the pure computations inside them, named so
    that lemmas can speak about them.  Each is tied to the stage it comes
    from by a lemma. *)

(** Computations that leave the object store alone. *)
Definition heap_const {A} (m : M A) : Prop :=
  forall w, heap (snd (m w)) = heap w.

(** The file a column's plot is saved to. *)
Definition plot_path (column : string) : string :=
  "./images/eda/" ++ replace " " "_" (lower column) ++ "_distribution.png".

(** What is drawn for a column. *)
Definition plot_artist (column : string) (s : Series) : Artist :=
  if String.eqb column "Marital_Status" then ValueCountsBar s
  else if String.eqb column "Total_Trans_Ct" then Histogram true s
  else Histogram false s.

(** The drawing part of [perform_eda], from the first figure on. *)
Definition eda_plots (eda_df : ref) : M ref :=
  for_each columns_to_plot (plot_column eda_df) ;;
  plt_figure ;;
  df <- deref eda_df ;;
  draw (Heatmap df) ;;
  plt_savefig "./images/eda/heatmap.png" ;;
  ret eda_df.

(** The table with its derived [Churn] column. *)
Definition with_churn (df : DataFrame) (flag : Series) : DataFrame :=
  setitem df "Churn" (apply churn_of flag).

(** The columns [perform_eda] plots besides [Churn]. *)
Definition plotted_columns : list string :=
  ["Customer_Age"; "Marital_Status"; "Total_Trans_Ct"].

(** The plotting library accepts every drawing and the directory of the
    EDA images exists. *)
Definition plotting_succeeds (w : World) : Prop :=
  (forall a, draw_error w a = None) /\
  existsb (String.eqb "./images/eda/") (dirs w) = true.

(** The name of the column an encoding is written to. *)
Definition target (response : option string) (category : string) : string :=
  if truthy response then category ++ "_" ++ response_text response
  else category.

(** The list of values one pass of the loop computes for a category, as a
    function of the input table alone. *)
Definition encode_column (df : DataFrame) (category : string)
    : outcome (list (option Q)) :=
  obind (obind (groupby df category) (fun g => kf_getitem (gb_mean g) "Churn"))
    (fun column_groups =>
  obind (getitem df category) (fun col =>
  append_loc column_groups (cells col) [])).

(** The table the loop builds from [e], reading [df]. *)
Fixpoint encode_all (df : DataFrame) (response : option string)
    (cats : list string) (e : DataFrame) : outcome DataFrame :=
  match cats with
  | [] => Ret e
  | c :: rest =>
      obind (encode_column df c) (fun lst =>
      encode_all df response rest (setitem e (target response c) (Numeric lst)))
  end.

(** The fourteen raw numeric columns of the feature matrix. *)
Definition numeric_cols : list string := firstn 14 keep_cols.

(** The feature matrix and the label vector taken from the encoded table. *)
Definition select_features (encoded : DataFrame) : outcome (DataFrame * Series) :=
  obind (getitem encoded "Churn") (fun target_feature =>
  obind (getitems encoded keep_cols) (fun sub =>
  Ret (setitems [] keep_cols sub, target_feature))).

(** The result of [perform_feature_engineering] as a function of the
    contents of its argument and of the seeded permutation. *)
Definition feature_engineering (perm : Z -> nat -> list nat) (df : DataFrame)
    (response : option string)
    : outcome (DataFrame * DataFrame * Series * Series) :=
  obind (encode_all df response cat_columns df) (fun encoded =>
  obind (select_features encoded) (fun xy =>
  Sklearn.split_by (perm 42%Z (nrows (fst xy))) (fst xy) (snd xy) (3 # 10))).

(** ** Notions used in the statements *)

(** [a == b] for two cells: a null equals nothing. *)
Definition cell_eqb (a b : cell) : bool :=
  match b with
  | Some k => cell_is k a
  | None => false
  end.

(** The rows whose category value equals that of row [i]. *)
Definition rows_sharing (category : list cell) (i : nat) : list nat :=
  filter (fun j => cell_eqb (nth j category None) (nth i category None))
         (seq 0 (length category)).

(** The mean of [Churn] over a list of rows (nulls skipped, null when no
    row has a value). *)
Definition mean_churn_over (churn : list (option Q)) (rows : list nat)
    : option Q :=
  mean (map (fun j => nth j churn None) rows).

(** Position [i] of [a] holds a value no larger than position [j]. *)
Definition le_at (a : list Q) (i j : nat) : Prop :=
  (nth i a 0 <= nth j a 0)%Q.

(** Later entries are never larger than earlier ones. *)
Definition non_increasing (l : list Q) : Prop :=
  forall i j x y,
    i < j -> nth_error l i = Some x -> nth_error l j = Some y -> (y <= x)%Q.

(** The record written when [perform_eda] fails in [test_eda]. *)
Definition eda_failure (err : exn) : LogRecord :=
  {| level := ERROR;
     message := "Testing perform_eda failed - Error type: %s";
     args := [ArgType (class_name err)] |}.

(** The record written when the [try] block of
    [test_perform_feature_engineering] fails. *)
Definition feature_engineering_failure (err : exn) : LogRecord :=
  {| level := ERROR;
     message := "Testing perform_feature_engineering failed - Error type: %s";
     args := [ArgType (class_name err)] |}.

(** The record written when the data file is missing in [test_import]. *)
Definition import_failure : LogRecord :=
  {| level := ERROR;
     message := "Testing import_data: The file was not found";
     args := [] |}.

(** ** Boolean checks, to discharge side conditions on concrete tables *)

Fixpoint distinctb (l : list string) : bool :=
  match l with
  | [] => true
  | x :: rest => negb (existsb (String.eqb x) rest) && distinctb rest
  end.

Definition well_formedb (df : DataFrame) : bool :=
  distinctb (columns df)
  && forallb (fun c => Nat.eqb (size (snd c)) (nrows df)) df.

Definition no_nullb (s : Series) : bool :=
  forallb (fun c => match c with Some _ => true | None => false end) (cells s).

(** ** Sample data *)

Definition four (a b c d : string) : Series :=
  Object [Some a; Some b; Some c; Some d].

Definition one_to_four : Series :=
  Numeric [Some 1%Q; Some 2%Q; Some 3%Q; Some 4%Q].

(** A table as loaded from the CSV file: four customers. *)
Definition sample_raw : DataFrame :=
  ("Attrition_Flag",
   four "Existing Customer" "Attrited Customer" "Existing Customer"
        "Attrited Customer")
  :: ("Gender", four "M" "F" "M" "M")
  :: ("Education_Level", four "Graduate" "Graduate" "Unknown" "High School")
  :: ("Marital_Status", four "Married" "Single" "Married" "Single")
  :: ("Income_Category", four "Unknown" "Unknown" "Unknown" "Unknown")
  :: ("Card_Category", four "Blue" "Blue" "Gold" "Blue")
  :: map (fun n => (n, one_to_four)) (firstn 14 keep_cols).

(** The same table after the [Churn] column has been derived. *)
Definition sample_eda : DataFrame :=
  setitem sample_raw "Churn"
          (Numeric [Some 0%Q; Some 1%Q; Some 0%Q; Some 1%Q]).

(** A table that already carries the five encoded columns. *)
Definition sample_encoded : DataFrame :=
  sample_eda ++ map (fun c => ((c ++ "_Churn")%string, one_to_four)) cat_columns.

(** The sample table with the second customer's flag missing. *)
Definition null_flag_table : DataFrame :=
  setitem sample_raw "Attrition_Flag"
          (Object [Some "Existing Customer"; None; Some "Existing Customer";
                   Some "Attrited Customer"]).

(** A table that already has a column named [Gender_Churn]. *)
Definition collision_table : DataFrame :=
  [("Gender", Object [Some "M"; Some "F"]);
   ("Churn", Numeric [Some 0%Q; Some 1%Q]);
   ("Gender_Churn", Numeric [Some 5%Q; Some 5%Q])].


Definition sample_features : DataFrame :=
  [("Customer_Age", one_to_four); ("Credit_Limit", one_to_four);
   ("Total_Trans_Ct", one_to_four)].

(** A forest fitted on three features. *)
Definition sample_model : GridSearchCV :=
  {| best_estimator_ :=
       {| feature_importances_ := [(3 # 10)%Q; (1 # 2)%Q; (1 # 5)%Q] |} |}.

(** A world in which the data file and the image directories exist, the
    plotting library accepts every drawing, and the seeded permutation is
    the identity. *)
Definition sample_world (objects : list DataFrame) : World :=
  {| heap := objects;
     csv_files := [(data_path, sample_raw)];
     images := [];
     dirs := ["./images/eda/"; "./images/results/"];
     figure := [];
     log := [];
     draw_error := fun _ => None;
     permutation := fun _ n => seq 0 n |}.

(** A world in which the plotting library rejects the heat map and a heat
    map saved by an earlier run is still on disk. *)
Definition world_heatmap_rejected : World :=
  {| heap := [];
     csv_files := [(data_path, sample_raw)];
     images := [("./images/eda/heatmap.png", [])];
     dirs := ["./images/eda/"; "./images/results/"];
     figure := [];
     log := [];
     draw_error := fun a =>
       match a with
       | Heatmap _ => Some (ValueError "could not convert string to float")
       | _ => None
       end;
     permutation := fun _ n => seq 0 n |}.

(** The sample data file with its header line only: every column is there,
    empty and of object dtype. *)
Definition header_only_table : DataFrame :=
  map (fun c => (fst c, Object [])) sample_raw.

Definition world_header_only : World :=
  {| heap := [];
     csv_files := [(data_path, header_only_table)];
     images := [];
     dirs := ["./images/eda/"; "./images/results/"];
     figure := [];
     log := [];
     draw_error := fun _ => None;
     permutation := fun _ n => seq 0 n |}.

(** A world without the data file. *)
Definition world_without_data : World :=
  {| heap := [];
     csv_files := [];
     images := [];
     dirs := ["./images/eda/"; "./images/results/"];
     figure := [];
     log := [];
     draw_error := fun _ => None;
     permutation := fun _ n => seq 0 n |}.

(** ** Notions used in the further properties *)

(** The column of a table, or an empty column where there is none. *)
Definition column_of (df : DataFrame) (name : string) : Series :=
  match getitem df name with
  | Ret s => s
  | Raise _ => Object []
  end.

(** The world after a figure holding the drawing [a] alone has been saved
    to [path]. *)
Definition after_plot (w : World) (path : string) (a : Artist) : World :=
  set_images (set_figure w [a]) ((path, [a]) :: images w).

(** The world after the drawing part of [perform_eda] has run through on
    the table [eda]. *)
Definition eda_world (eda : DataFrame) (w : World) : World :=
  after_plot
    (fold_left
       (fun w c => after_plot w (plot_path c) (plot_artist c (column_of eda c)))
       columns_to_plot w)
    "./images/eda/heatmap.png" (Heatmap eda).

(** What [os.path.isfile] answers in a world. *)
Definition file_exists (w : World) (path : string) : bool :=
  match lookup path (images w), lookup path (csv_files w) with
  | None, None => false
  | _, _ => true
  end.

(** All the image files [test_eda] looks for exist. *)
Definition eda_images_exist (w : World) : bool :=
  forallb (fun f => file_exists w ("./images/eda/" ++ f)) image_files.

(** A category the encoder can encode: a column of the table other than
    [Churn], without nulls, in a table whose [Churn] column is numeric. *)
Definition encodable (df : DataFrame) (c : string) : Prop :=
  c <> "Churn" /\
  (exists churn, getitem df "Churn" = Ret (Numeric churn)) /\
  (exists col, getitem df c = Ret col /\ ~ In None (cells col)).


(** A value that is present and lies between 0 and 1. *)
Definition in_unit_interval (v : option Q) : Prop :=
  exists q, v = Some q /\ (0 <= q)%Q /\ (q <= 1)%Q.

(** The rows [train_test_split] puts in the test partition and in the
    train partition of a table of [n] rows, for the permutation [perm]. *)
Definition test_rows (perm : list nat) (n : nat) : list nat :=
  firstn (Sklearn.n_test_of (3 # 10) n) perm.

Definition train_rows (perm : list nat) (n : nat) : list nat :=
  firstn (n - Sklearn.n_test_of (3 # 10) n)
         (skipn (Sklearn.n_test_of (3 # 10) n) perm).

(** The encoded values of a category column: for each row the mean of
    [Churn] over the rows of the whole table that share its value. *)
Definition target_encoding (category : list cell) (churn : list (option Q))
    : list (option Q) :=
  map (fun i => mean_churn_over churn (rows_sharing category i))
      (seq 0 (length category)).

(** The sample table reduced to its first customer. *)
Definition single_customer : DataFrame := Sklearn.frame_take sample_eda [0].

(** The main block of [churn_library.py] up to the split: the data file is
    loaded, analysed and split; the call of [train_models] on the result is
    left out. *)
Definition main_until_split : M (DataFrame * DataFrame * Series * Series) :=
  (* Import data *)
  BANK_DF <- import_data "./data/bank_data.csv" ;;
  (* Perform EDA *)
  EDA_DF <- perform_eda BANK_DF ;;
  (* Feature engineering *)
  perform_feature_engineering EDA_DF (Some "Churn").

(** * Properties *)

#[local] Arguments String.eqb : simpl never.

(** ** Running the monad *)

Lemma bind_ret_eq {A B} (m : M A) (k : A -> M B) (w w' : World) (a : A) :
  m w = (Ret a, w') -> bind m k w = k a w'.
Proof. intros E. unfold bind. now rewrite E. Qed.

Lemma bind_raise_eq {A B} (m : M A) (k : A -> M B) (w w' : World) (e : exn) :
  m w = (Raise e, w') -> bind m k w = (Raise e, w').
Proof. intros E. unfold bind. now rewrite E. Qed.

(** ** The object store *)

Lemma nth_error_app_last {A} (h : list A) (x : A) :
  nth_error (h ++ [x]) (length h) = Some x.
Proof. rewrite nth_error_app2, Nat.sub_diag by lia. reflexivity. Qed.

Lemma nth_error_app_old {A} (h : list A) (x y : A) (l : nat) :
  nth_error h l = Some y -> nth_error (h ++ [x]) l = Some y.
Proof.
  intros E. rewrite nth_error_app1; [exact E |].
  apply nth_error_Some. congruence.
Qed.

Lemma update_app_last {A} (h : list A) (x y : A) :
  update (length h) y (h ++ [x]) = h ++ [y].
Proof. induction h as [| a h IH]; simpl; [reflexivity | now rewrite IH]. Qed.

Lemma copy_eq (w : World) (r : ref) (df : DataFrame) :
  nth_error (heap w) r = Some df ->
  copy r w = (Ret (length (heap w)), set_heap w (heap w ++ [df])).
Proof. intros E. unfold copy, bind, deref, alloc. now rewrite E. Qed.

Lemma deref_eq (w : World) (r : ref) (df : DataFrame) :
  nth_error (heap w) r = Some df -> deref r w = (Ret df, w).
Proof. intros E. unfold deref. now rewrite E. Qed.

Lemma df_getitem_eq (w : World) (r : ref) (df : DataFrame) (name : string) :
  nth_error (heap w) r = Some df ->
  df_getitem r name w = (getitem df name, w).
Proof. intros E. unfold df_getitem, bind, deref, lift. rewrite E. now destruct getitem. Qed.

Lemma df_setitem_eq (w : World) (r : ref) (df : DataFrame) (name : string)
    (s : Series) :
  nth_error (heap w) r = Some df ->
  df_setitem r name s w
  = (Ret tt, set_heap w (update r (setitem df name s) (heap w))).
Proof. intros E. unfold df_setitem, bind, deref, store. now rewrite E. Qed.

Lemma heap_const_ret {A} (a : A) : heap_const (ret a).
Proof. intros w. reflexivity. Qed.

Lemma heap_const_raise {A} (e : exn) : heap_const (@raise A e).
Proof. intros w. reflexivity. Qed.

Lemma heap_const_lift {A} (o : outcome A) : heap_const (lift o).
Proof. intros w. reflexivity. Qed.

Lemma heap_const_bind {A B} (m : M A) (k : A -> M B) :
  heap_const m -> (forall a, heap_const (k a)) -> heap_const (bind m k).
Proof.
  intros Hm Hk w. unfold bind. specialize (Hm w).
  destruct (m w) as [[a | e] w']; simpl in *; [| exact Hm].
  now rewrite Hk.
Qed.

Lemma heap_const_for_each {A} (xs : list A) (body : A -> M unit) :
  (forall x, heap_const (body x)) -> heap_const (for_each xs body).
Proof.
  intros Hb. induction xs as [| x xs IH]; simpl.
  - apply heap_const_ret.
  - apply heap_const_bind; auto.
Qed.

Lemma heap_const_deref (r : ref) : heap_const (deref r).
Proof. intros w. unfold deref. now destruct nth_error. Qed.

Lemma heap_const_df_getitem (r : ref) (name : string) :
  heap_const (df_getitem r name).
Proof.
  apply heap_const_bind; [apply heap_const_deref | intros; apply heap_const_lift].
Qed.

Lemma heap_const_plt_figure : heap_const plt_figure.
Proof. intros w. reflexivity. Qed.

Lemma heap_const_draw (a : Artist) : heap_const (draw a).
Proof. intros w. unfold draw. now destruct draw_error. Qed.

Lemma heap_const_plt_savefig (path : string) : heap_const (plt_savefig path).
Proof. intros w. unfold plt_savefig. now destruct existsb. Qed.

Lemma heap_const_logging (lvl : Level) (msg : string) (a : list LogArg) :
  heap_const (logging lvl msg a).
Proof. intros w. reflexivity. Qed.

Create HintDb heap_const.
#[local] Hint Resolve heap_const_ret heap_const_raise heap_const_lift
  heap_const_deref heap_const_df_getitem heap_const_plt_figure heap_const_draw
  heap_const_plt_savefig heap_const_logging : heap_const.

Ltac heap_const :=
  repeat first
    [ apply heap_const_bind; [| intros ?]
    | apply heap_const_for_each; intros ?
    | match goal with |- heap_const (if ?b then _ else _) => destruct b end
    | solve [auto with heap_const] ].

(** ** [perform_eda] *)

Lemma perform_eda_unfold (dataframe : ref) :
  perform_eda dataframe =
  (eda_df <- copy dataframe ;;
   flag <- df_getitem eda_df "Attrition_Flag" ;;
   df_setitem eda_df "Churn" (apply churn_of flag) ;;
   eda_plots eda_df).
Proof. reflexivity. Qed.

Lemma heap_const_eda_plots (eda_df : ref) : heap_const (eda_plots eda_df).
Proof. unfold eda_plots, plot_column. heap_const. Qed.

(** What [perform_eda] does to the store: the argument is copied, the copy
    gets the [Churn] column, and drawing changes no data frame. *)
Lemma perform_eda_run (w : World) (l : ref) (df : DataFrame) (flag : Series) :
  nth_error (heap w) l = Some df ->
  getitem df "Attrition_Flag" = Ret flag ->
  perform_eda l w
  = eda_plots (length (heap w)) (set_heap w (heap w ++ [with_churn df flag])).
Proof.
  intros Hl Hflag. rewrite perform_eda_unfold.
  erewrite bind_ret_eq by (apply copy_eq; eassumption).
  erewrite bind_ret_eq.
  2:{ erewrite df_getitem_eq by (simpl; apply nth_error_app_last).
      rewrite Hflag. reflexivity. }
  erewrite bind_ret_eq.
  2:{ apply df_setitem_eq. simpl. apply nth_error_app_last. }
  simpl. rewrite update_app_last. reflexivity.
Qed.

Lemma perform_eda_no_flag (w : World) (l : ref) (df : DataFrame) (e : exn) :
  nth_error (heap w) l = Some df ->
  getitem df "Attrition_Flag" = Raise e ->
  perform_eda l w = (Raise e, set_heap w (heap w ++ [df])).
Proof.
  intros Hl Hflag. rewrite perform_eda_unfold.
  erewrite bind_ret_eq by (apply copy_eq; eassumption).
  erewrite bind_raise_eq; [reflexivity |].
  erewrite df_getitem_eq by (simpl; apply nth_error_app_last).
  now rewrite Hflag.
Qed.

Lemma plt_figure_eq (w : World) : plt_figure w = (Ret tt, set_figure w []).
Proof. reflexivity. Qed.

Lemma draw_eq (w : World) (a : Artist) :
  draw_error w a = None ->
  draw a w = (Ret tt, set_figure w (figure w ++ [a])).
Proof. intros E. unfold draw. now rewrite E. Qed.

Lemma plt_savefig_eq (w : World) (path : string) :
  existsb (String.eqb (dir_of path)) (dirs w) = true ->
  plt_savefig path w = (Ret tt, set_images w ((path, figure w) :: images w)).
Proof. intros E. unfold plt_savefig. now rewrite E. Qed.

Lemma plot_column_ok (w : World) (r : ref) (eda : DataFrame) (column : string)
    (s : Series) :
  nth_error (heap w) r = Some eda ->
  getitem eda column = Ret s ->
  draw_error w (plot_artist column s) = None ->
  existsb (String.eqb (dir_of (plot_path column))) (dirs w) = true ->
  plot_column r column w
  = (Ret tt,
     set_images (set_figure w [plot_artist column s])
                ((plot_path column, [plot_artist column s]) :: images w)).
Proof.
  intros Hr Hs Hdraw Hdir. unfold plot_column, plot_artist in *.
  revert Hdraw.
  destruct (String.eqb column "Marital_Status");
    [| destruct (String.eqb column "Total_Trans_Ct")]; intros Hdraw;
    (erewrite bind_ret_eq by apply plt_figure_eq;
     erewrite bind_ret_eq; cycle 1;
     [ erewrite bind_ret_eq; cycle 1;
       [ erewrite df_getitem_eq by exact Hr; rewrite Hs; reflexivity
       | apply draw_eq; exact Hdraw ]
     | rewrite plt_savefig_eq by exact Hdir; reflexivity ]).
Qed.

Lemma plot_loop_ok (r : ref) (eda : DataFrame) (cols : list string) :
  forall w,
    nth_error (heap w) r = Some eda ->
    (forall c, In c cols -> exists s, getitem eda c = Ret s) ->
    (forall a, draw_error w a = None) ->
    (forall c, In c cols ->
       existsb (String.eqb (dir_of (plot_path c))) (dirs w) = true) ->
    exists w',
      for_each cols (plot_column r) w = (Ret tt, w') /\
      heap w' = heap w /\ draw_error w' = draw_error w /\ dirs w' = dirs w /\
      log w' = log w /\
      map fst (images w') = rev (map plot_path cols) ++ map fst (images w).
Proof.
  induction cols as [| c cols IH]; intros w Hr Hcols Hdraw Hdir.
  - exists w. simpl. repeat split; reflexivity.
  - destruct (Hcols c) as [s Hs]; [now left |].
    simpl for_each.
    erewrite bind_ret_eq.
    2:{ eapply plot_column_ok; eauto. apply Hdir. now left. }
    match goal with |- context [for_each cols _ ?w1] =>
      destruct (IH w1) as (w' & E & Hh & Hd & Hdi & Hlog & Hi) end.
    + exact Hr.
    + intros c' Hc'. apply Hcols. now right.
    + exact Hdraw.
    + intros c' Hc'. apply Hdir. now right.
    + exists w'. rewrite E, Hh, Hd, Hdi, Hlog, Hi. simpl.
      repeat split; try reflexivity.
      now rewrite <- app_assoc.
Qed.

(** The drawing part returns when the plotted columns exist, the image
    directory exists and the plotting library accepts every drawing. *)
Lemma eda_plots_returns (w : World) (r : ref) (eda : DataFrame) :
  nth_error (heap w) r = Some eda ->
  (forall c, In c columns_to_plot -> exists s, getitem eda c = Ret s) ->
  (forall a, draw_error w a = None) ->
  existsb (String.eqb "./images/eda/") (dirs w) = true ->
  fst (eda_plots r w) = Ret r /\
  heap (snd (eda_plots r w)) = heap w /\
  log (snd (eda_plots r w)) = log w /\
  map fst (images (snd (eda_plots r w)))
  = ["./images/eda/heatmap.png";
     "./images/eda/total_trans_ct_distribution.png";
     "./images/eda/marital_status_distribution.png";
     "./images/eda/customer_age_distribution.png";
     "./images/eda/churn_distribution.png"] ++ map fst (images w).
Proof.
  intros Hr Hcols Hdraw Hdir.
  destruct (plot_loop_ok r eda columns_to_plot w Hr Hcols Hdraw)
    as (w1 & E & Hh & Hd & Hdi & Hlog & Hi).
  { intros c [<- | [<- | [<- | [<- | []]]]]; exact Hdir. }
  unfold eda_plots.
  erewrite bind_ret_eq by exact E.
  erewrite bind_ret_eq by apply plt_figure_eq.
  erewrite bind_ret_eq by (apply deref_eq; simpl; rewrite Hh; exact Hr).
  erewrite bind_ret_eq by (apply draw_eq; simpl; rewrite Hd; apply Hdraw).
  erewrite bind_ret_eq by (apply plt_savefig_eq; simpl; rewrite Hdi; exact Hdir).
  simpl. rewrite Hh, Hlog, Hi. repeat split; reflexivity.
Qed.

(** ** [encoder_helper] *)

Lemma encoder_helper_unfold (dataframe : ref) (category_lst : list string)
    (response : option string) :
  encoder_helper dataframe category_lst response =
  (encoder_df <- copy dataframe ;;
   for_each category_lst (encoder_body dataframe encoder_df response) ;;
   ret encoder_df).
Proof. reflexivity. Qed.

Lemma encoder_body_run (w : World) (h : list DataFrame) (l : ref)
    (df e : DataFrame) (response : option string) (c : string) :
  heap w = h ++ [e] ->
  nth_error h l = Some df ->
  encoder_body l (length h) response c w
  = match encode_column df c with
    | Ret lst =>
        (Ret tt,
         set_heap w (h ++ [setitem e (target response c) (Numeric lst)]))
    | Raise ex => (Raise ex, w)
    end.
Proof.
  intros Hw Hl.
  assert (Hl' : nth_error (heap w) l = Some df)
    by (rewrite Hw; now apply nth_error_app_old).
  assert (He : nth_error (heap w) (length h) = Some e)
    by (rewrite Hw; apply nth_error_app_last).
  unfold encoder_body, encode_column.
  erewrite bind_ret_eq by (apply deref_eq; exact Hl').
  destruct (obind (groupby df c) _) as [cg | ex]; simpl obind.
  2:{ erewrite bind_raise_eq; reflexivity. }
  erewrite bind_ret_eq by reflexivity.
  destruct (getitem df c) as [col | ex] eqn:Hcol; simpl obind.
  - erewrite bind_ret_eq
      by (erewrite df_getitem_eq by exact Hl'; rewrite Hcol; reflexivity).
    destruct (append_loc cg (cells col) []) as [lst | ex].
    + erewrite bind_ret_eq by reflexivity.
      unfold target. destruct (truthy response);
        rewrite df_setitem_eq with (df := e) by exact He;
        rewrite Hw, update_app_last; reflexivity.
    + erewrite bind_raise_eq; reflexivity.
  - erewrite bind_raise_eq; [reflexivity |].
    erewrite df_getitem_eq by exact Hl'. now rewrite Hcol.
Qed.

Lemma encoder_loop_run (l : ref) (df : DataFrame) (response : option string)
    (h : list DataFrame) (cats : list string) :
  nth_error h l = Some df ->
  forall (e : DataFrame) (w : World),
    heap w = h ++ [e] ->
    exists e',
      snd (for_each cats (encoder_body l (length h) response) w)
      = set_heap w (h ++ [e']) /\
      match encode_all df response cats e with
      | Ret e2 =>
          fst (for_each cats (encoder_body l (length h) response) w) = Ret tt
          /\ e' = e2
      | Raise ex =>
          fst (for_each cats (encoder_body l (length h) response) w) = Raise ex
      end.
Proof.
  intros Hl. induction cats as [| c cats IH]; intros e w Hw.
  - exists e. simpl. split; [| now split].
    rewrite <- Hw. now destruct w.
  - simpl for_each. simpl encode_all. unfold bind.
    rewrite (encoder_body_run w h l df e response c Hw Hl).
    destruct (encode_column df c) as [lst | ex]; simpl obind.
    + match goal with |- context [for_each cats _ ?w1] =>
        destruct (IH (setitem e (target response c) (Numeric lst)) w1)
          as (e' & Hsnd & Hres) end; [reflexivity |].
      exists e'. split; [rewrite Hsnd; reflexivity | exact Hres].
    + exists e. simpl. split; [| reflexivity].
      rewrite <- Hw. now destruct w.
Qed.

(** What [encoder_helper] does: the argument is copied, and the copy is
    the only object the loop writes to. *)
Lemma encoder_helper_run (w : World) (l : ref) (df : DataFrame)
    (cats : list string) (response : option string) :
  nth_error (heap w) l = Some df ->
  exists e',
    snd (encoder_helper l cats response w) = set_heap w (heap w ++ [e']) /\
    match encode_all df response cats df with
    | Ret e =>
        fst (encoder_helper l cats response w) = Ret (length (heap w)) /\ e' = e
    | Raise ex => fst (encoder_helper l cats response w) = Raise ex
    end.
Proof.
  intros Hl. rewrite encoder_helper_unfold.
  erewrite bind_ret_eq by (apply copy_eq; exact Hl).
  destruct (encoder_loop_run l df response (heap w) cats Hl df
              (set_heap w (heap w ++ [df])) eq_refl) as (e' & Hsnd & Hres).
  exists e'. unfold bind.
  destruct (for_each cats _ _) as [[[] | ex] w1] eqn:E; simpl in *.
  - split; [exact Hsnd |].
    destruct (encode_all df response cats df); [| discriminate Hres].
    split; [reflexivity | apply Hres].
  - split; [exact Hsnd |].
    destruct (encode_all df response cats df) as [e2 | ex2];
      [destruct Hres; discriminate | now injection Hres as ->].
Qed.

(** ** Facts about the data-frame library *)

Lemma getitem_setitem_same (df : DataFrame) (n : string) (s : Series) :
  getitem (setitem df n s) n = Ret s.
Proof.
  induction df as [| [m old] df IH]; simpl.
  - now rewrite String.eqb_refl.
  - destruct (String.eqb n m) eqn:E; simpl; rewrite E; [reflexivity | exact IH].
Qed.

Lemma getitem_setitem_other (df : DataFrame) (n m : string) (s : Series) :
  n <> m -> getitem (setitem df n s) m = getitem df m.
Proof.
  intros Hnm. induction df as [| [k old] df IH]; simpl.
  - apply String.eqb_neq in Hnm. rewrite String.eqb_sym in Hnm. now rewrite Hnm.
  - destruct (String.eqb n k) eqn:E; simpl.
    + apply String.eqb_eq in E. subst k.
      assert (F : String.eqb m n = false)
        by (apply String.eqb_neq; congruence).
      now rewrite F.
    + now rewrite IH.
Qed.

Lemma getitem_In (df : DataFrame) (n : string) (s : Series) :
  getitem df n = Ret s -> In n (columns df).
Proof.
  induction df as [| [m old] df IH]; simpl; [discriminate |].
  destruct (String.eqb n m) eqn:E; intros H.
  - left. symmetry. now apply String.eqb_eq.
  - right. now apply IH.
Qed.

Lemma In_getitem (df : DataFrame) (n : string) :
  In n (columns df) -> exists s, getitem df n = Ret s.
Proof.
  induction df as [| [m old] df IH]; simpl; [tauto |].
  intros H. destruct (String.eqb n m) eqn:E; [now exists old |].
  destruct H as [-> | H]; [now rewrite String.eqb_refl in E | now apply IH].
Qed.

Lemma getitem_not_In (df : DataFrame) (n : string) :
  ~ In n (columns df) -> getitem df n = Raise (KeyError (Some (Str n))).
Proof.
  induction df as [| [m old] df IH]; simpl; [reflexivity |].
  intros H. destruct (String.eqb n m) eqn:E.
  - apply String.eqb_eq in E. subst m. tauto.
  - apply IH. tauto.
Qed.

Lemma has_column_In (df : DataFrame) (n : string) :
  has_column df n = true <-> In n (columns df).
Proof.
  unfold has_column. rewrite existsb_exists. split.
  - intros (m & Hm & E). apply String.eqb_eq in E. now subst m.
  - intros H. exists n. split; [exact H | apply String.eqb_refl].
Qed.

Lemma columns_setitem_In (df : DataFrame) (n : string) (s : Series) :
  In n (columns df) -> columns (setitem df n s) = columns df.
Proof.
  induction df as [| [m old] df IH]; simpl; [tauto |].
  intros H. destruct (String.eqb n m) eqn:E; simpl; [reflexivity |].
  f_equal. apply IH. destruct H as [-> | H]; [| exact H].
  now rewrite String.eqb_refl in E.
Qed.

Lemma columns_setitem_new (df : DataFrame) (n : string) (s : Series) :
  ~ In n (columns df) -> columns (setitem df n s) = columns df ++ [n].
Proof.
  induction df as [| [m old] df IH]; simpl; [reflexivity |].
  intros H. destruct (String.eqb n m) eqn:E.
  - apply String.eqb_eq in E. subst m. tauto.
  - simpl. f_equal. apply IH. tauto.
Qed.

Lemma well_formed_size (df : DataFrame) (n : string) (s : Series) :
  well_formed df -> getitem df n = Ret s -> size s = nrows df.
Proof.
  intros [_ Hall]. revert Hall. generalize (nrows df) as k.
  induction df as [| [m old] df IH]; simpl; intros k Hall; [discriminate |].
  inversion Hall as [| ? ? Hhd Htl]; subst.
  destruct (String.eqb n m); intros H.
  - now injection H as <-.
  - now apply IH.
Qed.

(** *** Equality of scalars *)

Lemma scalar_eqb_refl (a : scalar) : scalar_eqb a a = true.
Proof.
  destruct a as [q | s]; simpl.
  - apply Qeq_bool_iff. reflexivity.
  - apply String.eqb_refl.
Qed.

Lemma scalar_eqb_sym (a b : scalar) : scalar_eqb a b = scalar_eqb b a.
Proof.
  destruct a as [p | s], b as [q | t]; simpl; try reflexivity.
  - destruct (Qeq_bool p q) eqn:E, (Qeq_bool q p) eqn:F; try reflexivity.
    + apply Qeq_bool_iff in E. symmetry in E. apply Qeq_bool_iff in E. congruence.
    + apply Qeq_bool_iff in F. symmetry in F. apply Qeq_bool_iff in F. congruence.
  - apply String.eqb_sym.
Qed.

Lemma scalar_eqb_trans (a b c : scalar) :
  scalar_eqb a b = true -> scalar_eqb b c = true -> scalar_eqb a c = true.
Proof.
  destruct a as [p | s], b as [q | t], c as [r | u]; simpl; try discriminate.
  - rewrite !Qeq_bool_iff. intros H1 H2. now rewrite H1.
  - rewrite !String.eqb_eq. congruence.
Qed.

(** Two equal keys select the same rows. *)
Lemma cell_is_eqb (a b : scalar) (c : cell) :
  scalar_eqb a b = true -> cell_is a c = cell_is b c.
Proof.
  intros E. destruct c as [v |]; simpl; [| reflexivity].
  destruct (scalar_eqb v a) eqn:Ea, (scalar_eqb v b) eqn:Eb; try reflexivity.
  - rewrite (scalar_eqb_trans v a b Ea E) in Eb. discriminate.
  - rewrite scalar_eqb_sym in E.
    rewrite (scalar_eqb_trans v b a Eb E) in Ea. discriminate.
Qed.

Lemma group_values_eqb {A} (keycol : list cell) (vals : list A) (a b : scalar) :
  scalar_eqb a b = true -> group_values keycol vals a = group_values keycol vals b.
Proof.
  intros E. unfold group_values. f_equal. apply filter_ext.
  intros r. now apply cell_is_eqb.
Qed.

(** *** Looking a value up in the table of group means *)

Lemma loc_in_distinct_keys (f : scalar -> option Q) (v : scalar) :
  forall (cs : list cell) (seen : list scalar),
    In (Some v) cs ->
    existsb (scalar_eqb v) seen = false ->
    exists k,
      scalar_eqb v k = true /\
      loc_in (distinct_keys cs seen) (map f (distinct_keys cs seen)) v
      = Ret (f k).
Proof.
  induction cs as [| c cs IH]; intros seen Hin Hseen; [destruct Hin |].
  destruct c as [u |]; simpl.
  2:{ destruct Hin as [Hin | Hin]; [discriminate | now apply IH]. }
  destruct (existsb (scalar_eqb u) seen) eqn:Eu.
  - destruct Hin as [Hin | Hin]; [| now apply IH].
    injection Hin as ->. congruence.
  - simpl. destruct (scalar_eqb v u) eqn:Evu.
    + now exists u.
    + apply IH.
      * destruct Hin as [Hin | Hin]; [| exact Hin].
        injection Hin as ->. now rewrite scalar_eqb_refl in Evu.
      * simpl. now rewrite Evu.
Qed.

Lemma kf_getitem_mean_columns (by_ : string) (keycol : list cell)
    (keys : list scalar) (frame : DataFrame) (churn : list (option Q)) :
  getitem frame "Churn" = Ret (Numeric churn) ->
  by_ <> "Churn" ->
  kf_getitem (mean_columns by_ keycol keys frame) "Churn"
  = Ret (group_means keycol keys churn).
Proof.
  intros Hget Hby. induction frame as [| [n s] frame IH]; simpl in *;
    [discriminate |].
  destruct (String.eqb "Churn" n) eqn:E.
  - injection Hget as ->. apply String.eqb_eq in E. subst n.
    assert (F : String.eqb "Churn" by_ = false)
      by (apply String.eqb_neq; congruence).
    rewrite F. simpl. reflexivity.
  - destruct s as [xs | xs]; simpl; [| now apply IH].
    destruct (String.eqb n by_); simpl; [now apply IH |].
    rewrite E. now apply IH.
Qed.

(** *** The values one pass of the encoder computes *)

Lemma append_loc_map (cg : KeyedSeries) (vals : list cell) :
  forall acc,
    append_loc cg vals acc
    = obind (map_outcome (loc cg) vals) (fun l => Ret (acc ++ l)).
Proof.
  induction vals as [| v vals IH]; intros acc; simpl.
  - now rewrite app_nil_r.
  - destruct (loc cg v) as [m | e]; simpl; [| reflexivity].
    rewrite IH. destruct (map_outcome (loc cg) vals); simpl; [| reflexivity].
    now rewrite <- app_assoc.
Qed.

Lemma map_outcome_loc (cs : list cell) (churn : list (option Q)) :
  forall ks,
    (forall k, In k ks -> In (Some k) cs) ->
    map_outcome (loc (group_means cs (distinct_keys cs []) churn)) (map Some ks)
    = Ret (map (fun k => mean (group_values cs churn k)) ks).
Proof.
  induction ks as [| k ks IH]; intros Hin; simpl; [reflexivity |].
  destruct (loc_in_distinct_keys
              (fun k => mean (group_values cs churn k)) k cs [])
    as (k0 & Ek & Hloc); [apply Hin; now left | reflexivity |].
  rewrite Hloc. simpl. rewrite IH by (intros; apply Hin; now right). simpl.
  now rewrite (group_values_eqb cs churn k k0 Ek).
Qed.

(** For a category column without nulls, in a table whose [Churn] column
    is numeric, a pass of the loop returns the group mean of every row. *)
Lemma encode_column_eq (df : DataFrame) (c : string) (col : Series)
    (ks : list scalar) (churn : list (option Q)) :
  getitem df "Churn" = Ret (Numeric churn) ->
  c <> "Churn" ->
  getitem df c = Ret col ->
  cells col = map Some ks ->
  encode_column df c
  = Ret (map (fun k => mean (group_values (cells col) churn k)) ks).
Proof.
  intros Hchurn Hc Hcol Hks. unfold encode_column, groupby, gb_mean.
  rewrite Hcol. simpl.
  rewrite (kf_getitem_mean_columns c _ _ df churn Hchurn Hc). simpl.
  rewrite append_loc_map. rewrite Hks at 3.
  rewrite map_outcome_loc; [reflexivity |].
  intros k Hk. rewrite Hks. now apply in_map.
Qed.

(** A null in the category column makes the pass fail. *)
Lemma encode_column_null (df : DataFrame) (c : string) (col : Series)
    (churn : list (option Q)) :
  getitem df "Churn" = Ret (Numeric churn) ->
  c <> "Churn" ->
  getitem df c = Ret col ->
  In None (cells col) ->
  exists e, encode_column df c = Raise e.
Proof.
  intros Hchurn Hc Hcol Hnull. unfold encode_column, groupby, gb_mean.
  rewrite Hcol. simpl.
  rewrite (kf_getitem_mean_columns c _ _ df churn Hchurn Hc). simpl.
  rewrite append_loc_map.
  generalize (group_means (cells col) (distinct_keys (cells col) []) churn).
  intros cg. induction (cells col) as [| v vs IH]; [destruct Hnull |].
  simpl. destruct Hnull as [-> | Hnull].
  - simpl. eauto.
  - destruct (loc cg v); simpl; [| eauto].
    destruct (IH Hnull) as [e He].
    destruct (map_outcome (loc cg) vs); simpl in *; [discriminate | eauto].
Qed.

(** *** The table the encoder builds *)

Lemma length_append (a b : string) :
  String.length (a ++ b) = String.length a + String.length b.
Proof. induction a as [| x a IH]; simpl; [reflexivity | now rewrite IH]. Qed.

Lemma append_cancel_r (a b s : string) :
  (a ++ s)%string = (b ++ s)%string -> a = b.
Proof.
  revert b. induction a as [| x a IH]; intros [| y b] H; simpl in H.
  - reflexivity.
  - exfalso. apply (f_equal String.length) in H. simpl in H.
    rewrite length_append in H. lia.
  - exfalso. apply (f_equal String.length) in H. simpl in H.
    rewrite length_append in H. lia.
  - injection H as -> H. f_equal. now apply IH.
Qed.

Lemma target_inj (response : option string) (a b : string) :
  target response a = target response b -> a = b.
Proof.
  unfold target. destruct (truthy response); [| trivial].
  apply append_cancel_r.
Qed.

Lemma encode_all_other (df : DataFrame) (response : option string)
    (cats : list string) (n : string) :
  ~ In n (map (target response) cats) ->
  forall e e',
    encode_all df response cats e = Ret e' -> getitem e' n = getitem e n.
Proof.
  induction cats as [| c cats IH]; simpl; intros Hn e e' H.
  - now injection H as <-.
  - destruct (encode_column df c) as [lst | ex]; simpl in H; [| discriminate].
    rewrite (IH (fun F => Hn (or_intror F)) _ _ H).
    apply getitem_setitem_other. tauto.
Qed.

Lemma encode_all_written (df : DataFrame) (response : option string)
    (cats : list string) :
  forall e e',
    encode_all df response cats e = Ret e' ->
    forall c, In c cats ->
      exists lst,
        encode_column df c = Ret lst /\
        getitem e' (target response c) = Ret (Numeric lst).
Proof.
  induction cats as [| c0 cats IH]; simpl; intros e e' H c Hc; [destruct Hc |].
  destruct (encode_column df c0) as [lst0 | ex] eqn:E0; simpl in H;
    [| discriminate].
  destruct (in_dec string_dec c cats) as [Hin | Hout].
  - exact (IH _ _ H c Hin).
  - destruct Hc as [-> | Hc]; [| contradiction].
    exists lst0. split; [exact E0 |].
    rewrite (encode_all_other df response cats (target response c)) with (e := setitem e (target response c) (Numeric lst0)) (e' := e');
      [apply getitem_setitem_same | | exact H].
    intros F. apply in_map_iff in F. destruct F as (c' & Ec' & Hc').
    apply target_inj in Ec'. now subst c'.
Qed.

Lemma encode_all_columns_new (df : DataFrame) (response : option string)
    (cats : list string) :
  NoDup cats ->
  forall e e',
    (forall c, In c cats -> ~ In (target response c) (columns e)) ->
    encode_all df response cats e = Ret e' ->
    columns e' = columns e ++ map (target response) cats.
Proof.
  induction 1 as [| c cats Hc Hnd IH]; simpl; intros e e' Hnew H.
  - injection H as <-. now rewrite app_nil_r.
  - destruct (encode_column df c) as [lst | ex]; simpl in H; [| discriminate].
    rewrite (IH _ _) with (2 := H).
    + rewrite columns_setitem_new by (apply Hnew; now left).
      now rewrite <- app_assoc.
    + intros c' Hc'. rewrite columns_setitem_new by (apply Hnew; now left).
      rewrite in_app_iff. intros [F | [F | []]].
      * now apply (Hnew c' (or_intror Hc')).
      * apply target_inj in F. now subst c'.
Qed.

Lemma encode_all_columns_same (df : DataFrame) (response : option string)
    (cats : list string) :
  forall e e',
    (forall c, In c cats -> In (target response c) (columns e)) ->
    encode_all df response cats e = Ret e' ->
    columns e' = columns e.
Proof.
  induction cats as [| c cats IH]; simpl; intros e e' Hold H.
  - now injection H as <-.
  - destruct (encode_column df c) as [lst | ex]; simpl in H; [| discriminate].
    rewrite (IH _ _) with (2 := H);
      rewrite columns_setitem_In by (apply Hold; now left); auto.
Qed.

Lemma encode_all_returns (df : DataFrame) (response : option string)
    (cats : list string) :
  (forall c, In c cats -> exists lst, encode_column df c = Ret lst) ->
  forall e, exists e', encode_all df response cats e = Ret e'.
Proof.
  induction cats as [| c cats IH]; simpl; intros Hok e; [eauto |].
  destruct (Hok c) as [lst E]; [now left |]. rewrite E. simpl.
  apply IH. intros c' Hc'. apply Hok. now right.
Qed.

Lemma encode_all_raises (df : DataFrame) (response : option string)
    (cats : list string) (c : string) :
  In c cats ->
  (exists ex, encode_column df c = Raise ex) ->
  forall e, exists ex, encode_all df response cats e = Raise ex.
Proof.
  induction cats as [| c0 cats IH]; simpl; intros Hc Hex e; [destruct Hc |].
  destruct (encode_column df c0) as [lst | ex] eqn:E; simpl; [| eauto].
  destruct Hc as [-> | Hc]; [destruct Hex; congruence |].
  now apply IH.
Qed.

(** A null entry in a category column makes [encoder_helper] raise: the
    key is not in the table of group means. *)
Lemma encoder_helper_null_category (w : World) (l : ref) (df : DataFrame)
    (cats : list string) (response : option string) (c : string) (col : Series)
    (churn : list (option Q)) :
  nth_error (heap w) l = Some df ->
  getitem df "Churn" = Ret (Numeric churn) ->
  In c cats -> c <> "Churn" ->
  getitem df c = Ret col -> In None (cells col) ->
  exists ex, fst (encoder_helper l cats response w) = Raise ex.
Proof.
  intros Hl Hchurn Hc Hne Hcol Hnull.
  destruct (encode_all_raises df response cats c Hc
              (encode_column_null df c col churn Hchurn Hne Hcol Hnull) df)
    as [ex Hex].
  destruct (encoder_helper_run w l df cats response Hl) as (e' & _ & Hres).
  rewrite Hex in Hres. eauto.
Qed.

(** ** The encoder with an empty category list *)

Lemma list_eqb_refl {A} (eqb : A -> A -> bool) (xs : list A) :
  (forall x, eqb x x = true) -> list_eqb eqb xs xs = true.
Proof.
  intros H. induction xs as [| x xs IH]; simpl; [reflexivity |].
  now rewrite H, IH.
Qed.

Lemma series_equals_refl (s : Series) : series_equals s s = true.
Proof.
  destruct s as [xs | xs]; simpl; apply list_eqb_refl; intros [x |]; simpl;
    try reflexivity.
  - apply Qeq_bool_iff. reflexivity.
  - apply String.eqb_refl.
Qed.

Lemma frame_equals_refl (df : DataFrame) : frame_equals df df = true.
Proof.
  apply list_eqb_refl. intros [n s]. simpl.
  now rewrite String.eqb_refl, series_equals_refl.
Qed.

Lemma list_eqb_length {A} (eqb : A -> A -> bool) (xs ys : list A) :
  list_eqb eqb xs ys = true -> length xs = length ys.
Proof.
  revert ys. induction xs as [| x xs IH]; intros [| y ys]; simpl;
    try discriminate; [reflexivity |].
  intros H. apply andb_true_iff in H. f_equal. now apply IH.
Qed.

Lemma columns_equals_length (a b : DataFrame) :
  length (columns a) <> length (columns b) -> columns_equals a b = false.
Proof.
  intros H. destruct (columns_equals a b) eqn:E; [| reflexivity].
  now apply list_eqb_length in E.
Qed.

Lemma frame_equals_length (a b : DataFrame) :
  length (columns a) <> length (columns b) -> frame_equals a b = false.
Proof.
  intros H. destruct (frame_equals a b) eqn:E; [| reflexivity].
  apply list_eqb_length in E. unfold columns in H.
  now rewrite !length_map in H.
Qed.

Lemma frame_equals_getitem (a b : DataFrame) (n : string) (s : Series) :
  frame_equals a b = true -> getitem a n = Ret s ->
  exists t, getitem b n = Ret t /\ series_equals s t = true.
Proof.
  revert b. induction a as [| [m x] a IH]; intros [| [m' y] b]; simpl;
    try discriminate.
  unfold frame_equals. simpl. intros H.
  apply andb_true_iff in H. destruct H as [H Hrest].
  apply andb_true_iff in H. destruct H as [Hname Hser].
  apply String.eqb_eq in Hname. subst m'.
  destruct (String.eqb n m).
  - intros E. injection E as <-. eauto.
  - now apply IH.
Qed.


(** C3. For every input table, [encoder_helper] applied with an empty
    category list returns a table identical to its input: the result is a
    new object whose contents are those of the argument. *)
Theorem encoder_helper_empty_category_list (w : World) (l : ref)
    (df : DataFrame) (response : option string) :
  nth_error (heap w) l = Some df ->
  exists r e,
    fst (encoder_helper l [] response w) = Ret r /\
    nth_error (heap (snd (encoder_helper l [] response w))) r = Some e /\
    e = df /\ frame_equals e df = true.
Proof.
  intros Hl.
  destruct (encoder_helper_run w l df [] response Hl) as (e' & Hsnd & Hres).
  simpl in Hres. destruct Hres as [Hfst ->].
  exists (length (heap w)), df. rewrite Hfst, Hsnd. simpl.
  repeat split; [apply nth_error_app_last | apply frame_equals_refl].
Qed.

Lemma encoder_helper_empty_category_list_witness :
  nth_error (heap (sample_world [sample_eda])) 0 = Some sample_eda /\
  exists r e,
    fst (encoder_helper 0 [] None (sample_world [sample_eda])) = Ret r /\
    nth_error (heap (snd (encoder_helper 0 [] None (sample_world [sample_eda]))))
              r = Some e /\
    e = sample_eda /\ frame_equals e sample_eda = true.
Proof.
  split; [reflexivity |].
  apply (encoder_helper_empty_category_list
           (sample_world [sample_eda]) 0 sample_eda None).
  reflexivity.
Defined.

(** ** Stages work on a copy *)

(** C7. [perform_eda] and [encoder_helper] leave their input table
    unchanged: after the call, whether it returned or raised, the argument
    (and every other object that existed before) holds the same columns
    and rows as before. *)
Theorem stages_leave_input_unchanged (w : World) (l : ref) (df : DataFrame) :
  nth_error (heap w) l = Some df ->
  (forall l' d, nth_error (heap w) l' = Some d ->
     nth_error (heap (snd (perform_eda l w))) l' = Some d) /\
  (forall cats response l' d, nth_error (heap w) l' = Some d ->
     nth_error (heap (snd (encoder_helper l cats response w))) l' = Some d).
Proof.
  intros Hl. split.
  - intros l' d Hd.
    destruct (getitem df "Attrition_Flag") as [flag | e] eqn:Hflag.
    + rewrite (perform_eda_run w l df flag Hl Hflag).
      rewrite heap_const_eda_plots. simpl. now apply nth_error_app_old.
    + rewrite (perform_eda_no_flag w l df e Hl Hflag). simpl.
      now apply nth_error_app_old.
  - intros cats response l' d Hd.
    destruct (encoder_helper_run w l df cats response Hl) as (e' & Hsnd & _).
    rewrite Hsnd. simpl. now apply nth_error_app_old.
Qed.

Lemma stages_leave_input_unchanged_witness :
  nth_error (heap (sample_world [sample_eda])) 0 = Some sample_eda /\
  nth_error (heap (snd (perform_eda 0 (sample_world [sample_eda])))) 0
  = Some sample_eda /\
  nth_error
    (heap (snd (encoder_helper 0 cat_columns None (sample_world [sample_eda]))))
    0 = Some sample_eda.
Proof.
  destruct (stages_leave_input_unchanged (sample_world [sample_eda]) 0
              sample_eda eq_refl) as [Heda Henc].
  split; [reflexivity |]. split.
  - apply Heda. reflexivity.
  - apply Henc. reflexivity.
Defined.

(** ** The encoder with a response name *)

Lemma filter_map_comm {A B} (f : B -> bool) (g : A -> B) (l : list A) :
  filter f (map g l) = map g (filter (fun x => f (g x)) l).
Proof.
  induction l as [| x l IH]; simpl; [reflexivity |].
  destruct (f (g x)); simpl; now rewrite IH.
Qed.

Lemma group_values_rows {A} (d : A) (k : scalar) (keycol : list cell) :
  forall vals : list A,
    length keycol = length vals ->
    group_values keycol vals k
    = map (fun j => nth j vals d)
          (filter (fun j => cell_is k (nth j keycol None))
                  (seq 0 (length keycol))).
Proof.
  unfold group_values.
  induction keycol as [| c cs IH]; intros [| v vs] Hlen; simpl in Hlen;
    try discriminate; [reflexivity |].
  injection Hlen as Hlen. cbn [combine filter fst length seq nth].
  rewrite <- seq_shift.
  destruct (cell_is k c); cbn [map snd]; rewrite filter_map_comm, map_map;
    now rewrite IH.
Qed.

Lemma no_null_keys (cs : list cell) :
  ~ In None cs -> exists ks, cs = map Some ks.
Proof.
  induction cs as [| [k |] cs IH]; simpl; intros H.
  - now exists [].
  - destruct IH as [ks ->]; [tauto |]. now exists (k :: ks).
  - tauto.
Qed.

Lemma truthy_nonempty (resp : string) :
  resp <> EmptyString -> truthy (Some resp) = true.
Proof. destruct resp; [congruence | reflexivity]. Qed.

(** The values of the encoded column, row by row. *)
Lemma encoded_rows (col : list cell) (ks : list scalar)
    (churn : list (option Q)) (i : nat) :
  col = map Some ks ->
  length churn = length col ->
  i < length col ->
  nth_error (map (fun k => mean (group_values col churn k)) ks) i
  = Some (mean_churn_over churn (rows_sharing col i)).
Proof.
  intros Hks Hlen Hi.
  assert (Hi' : i < length ks) by (rewrite Hks, length_map in Hi; exact Hi).
  destruct (nth_error ks i) as [k |] eqn:Ek;
    [| apply nth_error_None in Ek; lia].
  rewrite (map_nth_error _ _ _ Ek). f_equal. f_equal.
  unfold mean_churn_over, rows_sharing.
  rewrite (group_values_rows None k col churn) by congruence.
  assert (Hk : nth i col None = Some k).
  { rewrite Hks. apply nth_error_nth.
    now rewrite nth_error_map, Ek. }
  rewrite Hk. reflexivity.
Qed.

Lemma target_response (resp c : string) :
  resp <> EmptyString -> target (Some resp) c = (c ++ "_" ++ resp)%string.
Proof. intros H. unfold target. now rewrite truthy_nonempty. Qed.

(** C1, as stated, fails: on a table that contains [Churn] and already has
    a column [Gender_Churn], encoding [Gender] with response [Churn]
    overwrites that column, and the result has as many columns as the
    input, not one more. *)
Lemma encoder_helper_response_counterexample :
  has_column collision_table "Churn" = true /\
  fst (encoder_helper 0 ["Gender"] (Some "Churn") (sample_world [collision_table]))
  = Ret 1 /\
  nth_error
    (heap (snd (encoder_helper 0 ["Gender"] (Some "Churn")
                  (sample_world [collision_table])))) 1
  = Some [("Gender", Object [Some "M"; Some "F"]);
          ("Churn", Numeric [Some 0%Q; Some 1%Q]);
          ("Gender_Churn", Numeric [Some 0%Q; Some 1%Q])] /\
  length (columns collision_table) + length ["Gender"] = 4.
Proof. repeat split. Qed.

(** C1 (amended). For a well-formed table with a numeric [Churn] column, a
    non-empty response name and a list of distinct categories, each of them
    a column other than [Churn], without nulls, whose name
    [<category>_<response>] is not yet a column: [encoder_helper] returns a
    new table whose columns are those of the input followed by one column
    [<category>_<response>] per category, so that the column count grows by
    the number of categories; the input's columns are kept; and in every
    row the new column holds the mean of [Churn] over the input rows that
    share the row's category value. *)
Theorem encoder_helper_response (w : World) (l : ref) (df : DataFrame)
    (cats : list string) (resp : string) (churn : list (option Q)) :
  nth_error (heap w) l = Some df ->
  well_formed df ->
  getitem df "Churn" = Ret (Numeric churn) ->
  resp <> EmptyString ->
  NoDup cats ->
  (forall c, In c cats ->
     c <> "Churn" /\
     ~ In (c ++ "_" ++ resp)%string (columns df) /\
     exists col, getitem df c = Ret col /\ ~ In None (cells col)) ->
  exists e,
    fst (encoder_helper l cats (Some resp) w) = Ret (length (heap w)) /\
    nth_error (heap (snd (encoder_helper l cats (Some resp) w)))
              (length (heap w)) = Some e /\
    columns e = columns df ++ map (fun c => (c ++ "_" ++ resp)%string) cats /\
    length (columns e) = length (columns df) + length cats /\
    (forall n, In n (columns df) -> getitem e n = getitem df n) /\
    (forall c col, In c cats -> getitem df c = Ret col ->
       exists new,
         getitem e (c ++ "_" ++ resp)%string = Ret (Numeric new) /\
         length new = nrows df /\
         forall i, i < nrows df ->
           nth_error new i
           = Some (mean_churn_over churn (rows_sharing (cells col) i))).
Proof.
  intros Hl Hwf Hchurn Hresp Hnd Hcats.
  assert (Henc : forall c col, In c cats -> getitem df c = Ret col ->
            exists ks, cells col = map Some ks /\
              encode_column df c
              = Ret (map (fun k => mean (group_values (cells col) churn k)) ks)).
  { intros c col Hc Hcol.
    destruct (Hcats c Hc) as (Hne & _ & col' & Hcol' & Hnn).
    assert (col' = col) by congruence. subst col'.
    destruct (no_null_keys _ Hnn) as [ks Hks]. exists ks. split; [exact Hks |].
    now apply encode_column_eq. }
  destruct (encode_all_returns df (Some resp) cats) with (e := df) as [e He].
  { intros c Hc. destruct (Hcats c Hc) as (_ & _ & col & Hcol & _).
    destruct (Henc c col Hc Hcol) as (ks & _ & E). eauto. }
  destruct (encoder_helper_run w l df cats (Some resp) Hl) as (e' & Hsnd & Hres).
  rewrite He in Hres. destruct Hres as [Hfst ->].
  assert (Hcols : columns e
                  = columns df ++ map (fun c => (c ++ "_" ++ resp)%string) cats).
  { rewrite (encode_all_columns_new df (Some resp) cats Hnd df e).
    - f_equal. apply map_ext. intros c. now apply target_response.
    - intros c Hc. rewrite target_response by exact Hresp.
      now destruct (Hcats c Hc) as (_ & Hnew & _).
    - exact He. }
  exists e. rewrite Hfst, Hsnd. simpl.
  split; [reflexivity |]. split; [apply nth_error_app_last |].
  split; [exact Hcols |].
  split; [rewrite Hcols, length_app, length_map; reflexivity |].
  split.
  - intros n Hn. apply (encode_all_other df (Some resp) cats n) with (2 := He).
    intros F. apply in_map_iff in F. destruct F as (c & <- & Hc).
    rewrite target_response in Hn by exact Hresp.
    now destruct (Hcats c Hc) as (_ & Hnew & _).
  - intros c col Hc Hcol.
    destruct (encode_all_written df (Some resp) cats df e He c Hc)
      as (lst & Elst & Hget).
    destruct (Henc c col Hc Hcol) as (ks & Hks & E).
    rewrite E in Elst. injection Elst as <-.
    rewrite target_response in Hget by exact Hresp.
    assert (Hsize : length (cells col) = nrows df)
      by exact (well_formed_size df c col Hwf Hcol).
    assert (Hlen : length churn = length (cells col)).
    { rewrite Hsize. rewrite <- (well_formed_size df "Churn" _ Hwf Hchurn).
      unfold size. simpl. now rewrite length_map. }
    eexists. split; [exact Hget |]. split.
    + rewrite length_map. rewrite <- Hsize, Hks. now rewrite length_map.
    + intros i Hi. apply encoded_rows; [exact Hks | exact Hlen | lia].
Qed.

Lemma distinctb_NoDup (l : list string) : distinctb l = true -> NoDup l.
Proof.
  induction l as [| x l IH]; simpl; intros H; constructor;
    apply andb_prop in H; destruct H as [Hx Hl].
  - intros F. apply negb_true_iff in Hx.
    assert (T : existsb (String.eqb x) l = true).
    { apply existsb_exists. exists x. split; [exact F | apply String.eqb_refl]. }
    congruence.
  - now apply IH.
Qed.

Lemma well_formedb_sound (df : DataFrame) :
  well_formedb df = true -> well_formed df.
Proof.
  unfold well_formedb, well_formed. intros H.
  apply andb_prop in H. destruct H as [Hd Hs]. split.
  - now apply distinctb_NoDup.
  - apply Forall_forall. intros c Hc.
    rewrite forallb_forall in Hs. apply Nat.eqb_eq. now apply Hs.
Qed.

Lemma no_nullb_sound (s : Series) : no_nullb s = true -> ~ In None (cells s).
Proof.
  unfold no_nullb. rewrite forallb_forall. intros H F.
  specialize (H None F). discriminate.
Qed.

Lemma has_column_false (df : DataFrame) (n : string) :
  has_column df n = false -> ~ In n (columns df).
Proof. intros H F. apply has_column_In in F. congruence. Qed.

Lemma encoder_helper_response_witness :
  exists e,
    fst (encoder_helper 0 cat_columns (Some "Churn") (sample_world [sample_eda]))
    = Ret 1 /\
    nth_error
      (heap (snd (encoder_helper 0 cat_columns (Some "Churn")
                    (sample_world [sample_eda])))) 1 = Some e /\
    columns e
    = columns sample_eda ++ map (fun c => (c ++ "_" ++ "Churn")%string) cat_columns /\
    length (columns e) = length (columns sample_eda) + length cat_columns /\
    (forall n, In n (columns sample_eda) -> getitem e n = getitem sample_eda n) /\
    (forall c col, In c cat_columns -> getitem sample_eda c = Ret col ->
       exists new,
         getitem e (c ++ "_" ++ "Churn")%string = Ret (Numeric new) /\
         length new = nrows sample_eda /\
         forall i, i < nrows sample_eda ->
           nth_error new i
           = Some (mean_churn_over [Some 0%Q; Some 1%Q; Some 0%Q; Some 1%Q]
                                   (rows_sharing (cells col) i))).
Proof.
  apply (encoder_helper_response (sample_world [sample_eda]) 0 sample_eda
           cat_columns "Churn" [Some 0%Q; Some 1%Q; Some 0%Q; Some 1%Q]).
  - reflexivity.
  - apply well_formedb_sound. reflexivity.
  - reflexivity.
  - discriminate.
  - apply distinctb_NoDup. reflexivity.
  - intros c [<- | [<- | [<- | [<- | [<- | []]]]]];
      (split; [discriminate |]);
      (split; [apply has_column_false; reflexivity |]);
      eexists; (split; [reflexivity | apply no_nullb_sound; reflexivity]).
Defined.

(** ** The encoder without a response name *)


Lemma target_no_response (response : option string) (c : string) :
  truthy response = false -> target response c = c.
Proof. intros H. unfold target. now rewrite H. Qed.



(** ** The churn derivation *)

Lemma bind_ret_inv {A B} (m : M A) (k : A -> M B) (w : World) (b : B) :
  fst (bind m k w) = Ret b ->
  exists a w', m w = (Ret a, w') /\ fst (k a w') = Ret b.
Proof.
  unfold bind. destruct (m w) as [[a | e] w']; simpl; intros H;
    [eauto | discriminate].
Qed.

Lemma eda_plots_ret (w : World) (r r' : ref) :
  fst (eda_plots r w) = Ret r' -> r' = r.
Proof.
  unfold eda_plots. intros H.
  repeat (apply bind_ret_inv in H; destruct H as (? & ? & _ & H)).
  simpl in H. congruence.
Qed.

Lemma perform_eda_spec (w : World) (l : ref) (df : DataFrame) (flag : Series) :
  nth_error (heap w) l = Some df ->
  getitem df "Attrition_Flag" = Ret flag ->
  nth_error (heap (snd (perform_eda l w))) (length (heap w))
  = Some (with_churn df flag) /\
  (forall r, fst (perform_eda l w) = Ret r -> r = length (heap w)) /\
  ((forall c, In c plotted_columns -> In c (columns df)) ->
   plotting_succeeds w ->
   fst (perform_eda l w) = Ret (length (heap w))).
Proof.
  intros Hl Hflag. rewrite (perform_eda_run w l df flag Hl Hflag).
  split; [| split].
  - rewrite heap_const_eda_plots. simpl. apply nth_error_app_last.
  - intros r. apply eda_plots_ret.
  - intros Hcols [Hdraw Hdir].
    apply (eda_plots_returns _ _ (with_churn df flag)).
    + simpl. apply nth_error_app_last.
    + intros c [<- | Hc].
      * exists (apply churn_of flag). apply getitem_setitem_same.
      * unfold with_churn. rewrite getitem_setitem_other.
        -- apply In_getitem. apply Hcols. exact Hc.
        -- destruct Hc as [<- | [<- | [<- | []]]]; discriminate.
    + exact Hdraw.
    + exact Hdir.
Qed.

Lemma churn_of_existing (val : cell) :
  val = Some (Str "Existing Customer") -> churn_of val = 0%Q.
Proof. intros ->. reflexivity. Qed.

Lemma churn_of_other (val : cell) :
  val <> Some (Str "Existing Customer") -> churn_of val = 1%Q.
Proof.
  intros H. unfold churn_of.
  destruct val as [[q | s] |]; simpl; try reflexivity.
  destruct (String.eqb s "Existing Customer") eqn:E; [| reflexivity].
  apply String.eqb_eq in E. congruence.
Qed.

Lemma apply_rows (f : cell -> Q) (s : Series) :
  0 < size s -> apply f s = Numeric (map (fun val => Some (f val)) (cells s)).
Proof.
  unfold size, apply. destruct (cells s); simpl; [lia | reflexivity].
Qed.

Lemma size_apply (f : cell -> Q) (s : Series) : size (apply f s) = size s.
Proof.
  unfold apply. destruct (cells s) as [| c cs] eqn:E; [reflexivity |].
  unfold size. rewrite E. simpl. now rewrite !length_map.
Qed.

Lemma cells_apply (f : cell -> Q) (s : Series) :
  cells (apply f s) = map (fun val => Some (Num (f val))) (cells s).
Proof.
  unfold apply. destruct (cells s) as [| c cs] eqn:E; [exact E |].
  simpl. now rewrite map_map.
Qed.

Lemma with_churn_column (df : DataFrame) (flag : Series) :
  0 < size flag ->
  getitem (with_churn df flag) "Churn"
  = Ret (Numeric (map (fun val => Some (churn_of val)) (cells flag))).
Proof.
  intros Hrows. unfold with_churn. rewrite getitem_setitem_same.
  now rewrite apply_rows.
Qed.

(** C2. For every row of the input table, the derived [Churn] value is 0
    when the row's [Attrition_Flag] equals "Existing Customer" and 1 for
    any other value.  The derivation is made on the copy [perform_eda]
    returns; [perform_eda] returns whenever the plotted columns exist and
    plotting succeeds.  The [Churn] column has one value per row and is
    numeric as soon as the table has a row. *)
Theorem churn_derivation (w : World) (l : ref) (df : DataFrame) (flag : Series) :
  nth_error (heap w) l = Some df ->
  getitem df "Attrition_Flag" = Ret flag ->
  exists eda churn,
    nth_error (heap (snd (perform_eda l w))) (length (heap w)) = Some eda /\
    (forall r, fst (perform_eda l w) = Ret r -> r = length (heap w)) /\
    ((forall c, In c plotted_columns -> In c (columns df)) ->
     plotting_succeeds w ->
     fst (perform_eda l w) = Ret (length (heap w))) /\
    getitem eda "Churn" = Ret churn /\
    size churn = size flag /\
    (0 < size flag -> exists xs, churn = Numeric xs) /\
    forall i val,
      nth_error (cells flag) i = Some val ->
      (val = Some (Str "Existing Customer") ->
       nth_error (cells churn) i = Some (Some (Num 0%Q))) /\
      (val <> Some (Str "Existing Customer") ->
       nth_error (cells churn) i = Some (Some (Num 1%Q))).
Proof.
  intros Hl Hflag.
  destruct (perform_eda_spec w l df flag Hl Hflag) as (Hheap & Hret & Hok).
  exists (with_churn df flag), (apply churn_of flag).
  split; [exact Hheap |]. split; [exact Hret |]. split; [exact Hok |].
  split; [apply getitem_setitem_same |]. split; [apply size_apply |].
  split; [intros Hrows; rewrite apply_rows by exact Hrows; eauto |].
  intros i val Hval. rewrite cells_apply, nth_error_map, Hval. simpl.
  split; intros H.
  - now rewrite churn_of_existing.
  - now rewrite churn_of_other.
Qed.

Lemma churn_derivation_witness :
  exists eda churn,
    nth_error (heap (snd (perform_eda 0 (sample_world [sample_raw])))) 1
    = Some eda /\
    (forall r, fst (perform_eda 0 (sample_world [sample_raw])) = Ret r -> r = 1) /\
    ((forall c, In c plotted_columns -> In c (columns sample_raw)) ->
     plotting_succeeds (sample_world [sample_raw]) ->
     fst (perform_eda 0 (sample_world [sample_raw])) = Ret 1) /\
    getitem eda "Churn" = Ret churn /\
    size churn = 4 /\
    (0 < 4 -> exists xs, churn = Numeric xs) /\
    forall i val,
      nth_error (cells (four "Existing Customer" "Attrited Customer"
                             "Existing Customer" "Attrited Customer")) i
      = Some val ->
      (val = Some (Str "Existing Customer") ->
       nth_error (cells churn) i = Some (Some (Num 0%Q))) /\
      (val <> Some (Str "Existing Customer") ->
       nth_error (cells churn) i = Some (Some (Num 1%Q))).
Proof.
  apply (churn_derivation (sample_world [sample_raw]) 0 sample_raw
           (four "Existing Customer" "Attrited Customer" "Existing Customer"
                 "Attrited Customer")).
  - reflexivity.
  - reflexivity.
Defined.

(** ** A null attrition flag *)

(** C4, as stated, fails: on a table whose second row has a null
    [Attrition_Flag], [perform_eda] returns, and the table it returns has a
    [Churn] value for that row, namely 1. *)
Lemma null_flag_counterexample :
  getitem null_flag_table "Attrition_Flag"
  = Ret (Object [Some "Existing Customer"; None; Some "Existing Customer";
                 Some "Attrited Customer"]) /\
  fst (perform_eda 0 (sample_world [null_flag_table])) = Ret 1 /\
  obind (match nth_error
                 (heap (snd (perform_eda 0 (sample_world [null_flag_table])))) 1
         with
         | Some eda => Ret eda
         | None => Raise IndexError
         end)
        (fun eda => getitem eda "Churn")
  = Ret (Numeric [Some 0%Q; Some 1%Q; Some 0%Q; Some 1%Q]).
Proof. repeat split. Qed.

(** C4 (amended). A null [Attrition_Flag] does not make the derivation
    fail: for every table with an [Attrition_Flag] column, when the plotted
    columns exist and plotting succeeds, [perform_eda] returns a table in
    which every row with a null flag has [Churn] equal to 1. *)
Theorem null_flag_gives_churn_one (w : World) (l : ref) (df : DataFrame)
    (flag : Series) :
  nth_error (heap w) l = Some df ->
  getitem df "Attrition_Flag" = Ret flag ->
  (forall c, In c plotted_columns -> In c (columns df)) ->
  plotting_succeeds w ->
  exists eda churn,
    fst (perform_eda l w) = Ret (length (heap w)) /\
    nth_error (heap (snd (perform_eda l w))) (length (heap w)) = Some eda /\
    getitem eda "Churn" = Ret churn /\
    (0 < size flag -> exists xs, churn = Numeric xs) /\
    forall i, nth_error (cells flag) i = Some None ->
              nth_error (cells churn) i = Some (Some (Num 1%Q)).
Proof.
  intros Hl Hflag Hcols Hplot.
  destruct (perform_eda_spec w l df flag Hl Hflag) as (Hheap & _ & Hok).
  exists (with_churn df flag), (apply churn_of flag).
  split; [now apply Hok |]. split; [exact Hheap |].
  split; [apply getitem_setitem_same |].
  split; [intros Hrows; rewrite apply_rows by exact Hrows; eauto |].
  intros i Hi. now rewrite cells_apply, nth_error_map, Hi.
Qed.

Lemma sample_plotting_succeeds (objects : list DataFrame) :
  plotting_succeeds (sample_world objects).
Proof. split; [intros a |]; reflexivity. Qed.

Lemma null_flag_gives_churn_one_witness :
  exists eda churn,
    fst (perform_eda 0 (sample_world [null_flag_table])) = Ret 1 /\
    nth_error (heap (snd (perform_eda 0 (sample_world [null_flag_table])))) 1
    = Some eda /\
    getitem eda "Churn" = Ret churn /\
    (0 < 4 -> exists xs, churn = Numeric xs) /\
    forall i,
      nth_error (cells (Object [Some "Existing Customer"; None;
                                Some "Existing Customer";
                                Some "Attrited Customer"])) i = Some None ->
      nth_error (cells churn) i = Some (Some (Num 1%Q)).
Proof.
  apply (null_flag_gives_churn_one (sample_world [null_flag_table]) 0
           null_flag_table
           (Object [Some "Existing Customer"; None; Some "Existing Customer";
                    Some "Attrited Customer"])).
  - reflexivity.
  - reflexivity.
  - intros c Hc. apply has_column_In.
    destruct Hc as [<- | [<- | [<- | []]]]; reflexivity.
  - apply sample_plotting_succeeds.
Defined.

(** ** The feature-importance plot *)

Section Argsort.

Variable a : list Q.

Lemma le_at_trans (i j k : nat) : le_at a i j -> le_at a j k -> le_at a i k.
Proof. unfold le_at. apply Qle_trans. Qed.

Lemma insert_by_HdRel (x i : nat) (l : list nat) :
  le_at a x i -> HdRel (le_at a) x l -> HdRel (le_at a) x (insert_by a i l).
Proof.
  intros Hxi Hl. destruct l as [| j l]; simpl.
  - now constructor.
  - destruct (Qle_bool _ _); constructor;
      [exact Hxi | now inversion Hl].
Qed.

Lemma insert_by_Sorted (i : nat) (l : list nat) :
  Sorted (le_at a) l -> Sorted (le_at a) (insert_by a i l).
Proof.
  induction l as [| j l IH]; intros Hs; simpl.
  - repeat constructor.
  - destruct (Qle_bool _ _) eqn:E.
    + constructor; [exact Hs |]. constructor. now apply Qle_bool_iff.
    + inversion Hs as [| ? ? Hl Hhd]; subst. constructor.
      * now apply IH.
      * apply insert_by_HdRel; [| exact Hhd].
        unfold le_at. apply Qlt_le_weak. apply Qnot_le_lt.
        intros F. apply Qle_bool_iff in F. congruence.
Qed.

Lemma insert_by_Permutation (i : nat) (l : list nat) :
  Permutation (insert_by a i l) (i :: l).
Proof.
  induction l as [| j l IH]; simpl; [reflexivity |].
  destruct (Qle_bool _ _); [reflexivity |].
  rewrite IH. apply perm_swap.
Qed.

Lemma argsort_Sorted : Sorted (le_at a) (argsort a).
Proof.
  unfold argsort. induction (seq 0 (length a)) as [| i l IH]; simpl.
  - constructor.
  - now apply insert_by_Sorted.
Qed.

Lemma argsort_Permutation : Permutation (argsort a) (seq 0 (length a)).
Proof.
  unfold argsort. induction (seq 0 (length a)) as [| i l IH]; simpl.
  - reflexivity.
  - rewrite insert_by_Permutation. now constructor.
Qed.

Lemma argsort_StronglySorted : StronglySorted (le_at a) (argsort a).
Proof.
  apply Sorted_StronglySorted; [| apply argsort_Sorted].
  intros i j k. apply le_at_trans.
Qed.

End Argsort.

Lemma StronglySorted_snoc {A} (R : A -> A -> Prop) (l : list A) (x : A) :
  StronglySorted R l -> Forall (fun y => R y x) l ->
  StronglySorted R (l ++ [x]).
Proof.
  induction 1 as [| y l Hl IH Hy]; intros Hall; simpl.
  - repeat constructor.
  - inversion Hall; subst. constructor; [now apply IH |].
    apply Forall_app. split; [exact Hy | now constructor].
Qed.

Lemma StronglySorted_rev {A} (R : A -> A -> Prop) (l : list A) :
  StronglySorted R l -> StronglySorted (fun x y => R y x) (rev l).
Proof.
  induction 1 as [| y l Hl IH Hy]; simpl; [constructor |].
  apply StronglySorted_snoc; [exact IH |].
  apply Forall_rev. exact Hy.
Qed.

Lemma StronglySorted_map {A B} (R : B -> B -> Prop) (f : A -> B) (l : list A) :
  StronglySorted (fun x y => R (f x) (f y)) l -> StronglySorted R (map f l).
Proof.
  induction 1 as [| y l Hl IH Hy]; simpl; constructor; [exact IH |].
  apply Forall_map. exact Hy.
Qed.

Lemma StronglySorted_non_increasing (l : list Q) :
  StronglySorted (fun x y => (y <= x)%Q) l -> non_increasing l.
Proof.
  induction 1 as [| h l Hl IH Hh]; intros i j x y Hij Hi Hj.
  - destruct i; discriminate.
  - destruct j as [| j]; [lia |]. simpl in Hj. destruct i as [| i]; simpl in Hi.
    + injection Hi as <-. rewrite Forall_forall in Hh.
      apply Hh. eapply nth_error_In. exact Hj.
    + apply (IH i j); [lia | exact Hi | exact Hj].
Qed.

(** The bar heights [importances[indices]] are sorted in descending order. *)
Lemma sorted_importances_non_increasing (importances : list Q) :
  non_increasing (fancy importances (rev (argsort importances))).
Proof.
  apply StronglySorted_non_increasing. unfold fancy.
  apply StronglySorted_map.
  apply (StronglySorted_rev (le_at importances)).
  apply argsort_StronglySorted.
Qed.

Lemma repeat_non_increasing (h : Q) (n : nat) : non_increasing (repeat h n).
Proof.
  intros i j x y _ Hi Hj.
  apply nth_error_In, repeat_spec in Hi. apply nth_error_In, repeat_spec in Hj.
  subst. apply Qle_refl.
Qed.

Lemma bind_inv {A B} (m : M A) (k : A -> M B) (w w'' : World) (b : B) :
  bind m k w = (Ret b, w'') ->
  exists a w', m w = (Ret a, w') /\ k a w' = (Ret b, w'').
Proof.
  unfold bind. destruct (m w) as [[a | e] w']; intros H;
    [eauto | discriminate].
Qed.

Lemma draw_inv (a : Artist) (w w' : World) (u : unit) :
  draw a w = (Ret u, w') -> w' = set_figure w (figure w ++ [a]).
Proof.
  unfold draw. destruct (draw_error w a); intros H; [discriminate |].
  now injection H as _ <-.
Qed.

Lemma plt_savefig_inv (path : string) (w w' : World) (u : unit) :
  plt_savefig path w = (Ret u, w') ->
  w' = set_images w ((path, figure w) :: images w).
Proof.
  unfold plt_savefig. destruct existsb; intros H; [| discriminate].
  now injection H as _ <-.
Qed.

Lemma plt_bar_inv (x : list nat) (h : list Q) (w w' : World) (u : unit) :
  plt_bar x h w = (Ret u, w') ->
  exists x' h',
    w' = set_figure w (figure w ++ [Bars x' h']) /\
    length x' = length h' /\
    (x' = x \/ exists x0, x = [x0] /\ x' = repeat x0 (length h')) /\
    (non_increasing h -> non_increasing h') /\
    (length x = length h -> x' = x /\ h' = h).
Proof.
  unfold plt_bar. destruct (Nat.eqb (length x) (length h)) eqn:E; intros H.
  - apply draw_inv in H. apply Nat.eqb_eq in E. exists x, h. auto 6.
  - apply Nat.eqb_neq in E.
    destruct h as [| h0 [| h1 h]].
    + destruct x as [| x0 [| x1 x]]; try discriminate H.
      apply draw_inv in H. simpl in H. exists [], [].
      split; [exact H |]. split; [reflexivity |].
      split; [right; exists x0; split; reflexivity |].
      split; [trivial | intros F; contradiction].
    + assert (H' : draw (Bars x (repeat h0 (length x))) w = (Ret u, w'))
        by (destruct x as [| x0 [| x1 x]]; exact H).
      apply draw_inv in H'. exists x, (repeat h0 (length x)).
      split; [exact H' |]. split; [now rewrite repeat_length |].
      split; [now left |].
      split; [intros _; apply repeat_non_increasing |].
      intros F; contradiction.
    + destruct x as [| x0 [| x1 x]]; try discriminate H.
      apply draw_inv in H. eexists _, _. split; [exact H |].
      split; [now rewrite repeat_length |].
      split; [right; exists x0; split; reflexivity |].
      split; [trivial | intros F; contradiction].
Qed.

Lemma map_outcome_column_at (features : DataFrame) (indices : list nat) :
  forall names,
    map_outcome (column_at features) indices = Ret names ->
    map Some names = map (nth_error (columns features)) indices.
Proof.
  induction indices as [| i indices IH]; simpl; intros names H.
  - now injection H as <-.
  - unfold column_at at 1 in H.
    destruct (nth_error (columns features) i) as [n |]; simpl in H;
      [| discriminate].
    destruct (map_outcome (column_at features) indices) as [ns | e]; simpl in H;
      [| discriminate].
    injection H as <-. simpl. f_equal. now apply IH.
Qed.

Lemma map_outcome_column_at_returns (features : DataFrame) (indices : list nat) :
  (forall i, In i indices -> i < length (columns features)) ->
  exists names, map_outcome (column_at features) indices = Ret names.
Proof.
  induction indices as [| i indices IH]; simpl; intros Hin; [eauto |].
  unfold column_at at 1.
  destruct (nth_error (columns features) i) as [n |] eqn:E.
  - destruct IH as [ns Hns]; [auto |]. rewrite Hns. simpl. eauto.
  - apply nth_error_None in E. specialize (Hin i (or_introl eq_refl)). lia.
Qed.

(** C9. The feature-importance plot presents the features in an order in
    which the importance values are non-increasing.  When the model has one
    importance per feature column and plotting succeeds, the function
    returns.  Whenever it returns, the image it saved holds the title, the
    axis label, the bars and the ticks at [0 .. n-1], [n] being the number
    of feature columns; the heights of the bars are non-increasing in the
    order drawn.  With one importance per feature column the bars stand at
    [0 .. n-1] from left to right, and some permutation of the feature
    positions gives, for every position [k] of the plot, the feature whose
    importance is the height of bar [k] and whose name is the label of
    tick [k]. *)
Theorem feature_importance_plot_descending (w : World) (model : GridSearchCV)
    (features : DataFrame) (output_pth : string) :
  (length (feature_importances_ (best_estimator_ model))
   = length (columns features) ->
   (forall a, draw_error w a = None) ->
   existsb (String.eqb (dir_of (output_pth ++ "feature_importances.png")))
           (dirs w) = true ->
   fst (feature_importance_plot model features output_pth w) = Ret tt) /\
  (forall w',
     feature_importance_plot model features output_pth w = (Ret tt, w') ->
     exists x heights names,
       images w'
       = ((output_pth ++ "feature_importances.png")%string,
          [Title "Feature Importance"; YLabel "Importance"; Bars x heights;
           XTicks (seq 0 (length (columns features))) names]) :: images w /\
       length x = length heights /\
       (x = seq 0 (length (columns features)) \/
        length (columns features) = 1 /\ x = repeat 0 (length heights)) /\
       non_increasing heights /\
       (length (feature_importances_ (best_estimator_ model))
        = length (columns features) ->
        x = seq 0 (length (columns features)) /\
        exists indices,
          Permutation indices (seq 0 (length (columns features))) /\
          length heights = length (columns features) /\
          length names = length (columns features) /\
          forall k i,
            nth_error indices k = Some i ->
            nth_error heights k
            = nth_error (feature_importances_ (best_estimator_ model)) i /\
            nth_error names k = nth_error (columns features) i)).
Proof.
  set (importances := feature_importances_ (best_estimator_ model)).
  assert (Hperm : Permutation (rev (argsort importances))
                              (seq 0 (length importances))).
  { rewrite <- Permutation_rev. apply argsort_Permutation. }
  assert (Hshape : snd (shape features) = length (columns features)).
  { unfold shape, columns. cbn [snd]. now rewrite length_map. }
  split.
  - intros Hlen Hdraw Hdir. unfold feature_importance_plot.
    fold importances.
    destruct (map_outcome_column_at_returns features (rev (argsort importances)))
      as [names Hnames].
    { intros i Hi. rewrite <- Hlen.
      apply (Permutation_in _ Hperm) in Hi. apply in_seq in Hi. lia. }
    erewrite bind_ret_eq by (unfold lift; rewrite Hnames; reflexivity).
    erewrite bind_ret_eq by apply plt_figure_eq.
    erewrite bind_ret_eq by (apply draw_eq; apply Hdraw).
    erewrite bind_ret_eq by (apply draw_eq; apply Hdraw).
    erewrite bind_ret_eq.
    2:{ unfold plt_bar, fancy. rewrite Hshape.
        rewrite length_seq, length_map, (Permutation_length Hperm), length_seq.
        rewrite <- Hlen, Nat.eqb_refl.
        apply draw_eq. apply Hdraw. }
    erewrite bind_ret_eq by (apply draw_eq; apply Hdraw).
    rewrite plt_savefig_eq by exact Hdir. reflexivity.
  - intros w' H. unfold feature_importance_plot in H. fold importances in H.
    rewrite Hshape in H.
    apply bind_inv in H. destruct H as (names & w1 & Hnames & H).
    unfold lift in Hnames. injection Hnames as Hnames <-.
    apply bind_inv in H. destruct H as ([] & w2 & H2 & H).
    rewrite plt_figure_eq in H2. injection H2 as <-.
    apply bind_inv in H. destruct H as ([] & w3 & H3 & H).
    apply draw_inv in H3. subst w3.
    apply bind_inv in H. destruct H as ([] & w4 & H4 & H).
    apply draw_inv in H4. subst w4.
    apply bind_inv in H. destruct H as ([] & w5 & H5 & H).
    apply plt_bar_inv in H5.
    destruct H5 as (x & heights & -> & Hxlen & Hx & Hsorted & Heq).
    apply bind_inv in H. destruct H as ([] & w6 & H6 & H).
    apply draw_inv in H6. subst w6.
    apply plt_savefig_inv in H. subst w'.
    exists x, heights, names. simpl.
    split; [reflexivity |]. split; [exact Hxlen |]. split; [| split].
    + destruct Hx as [-> | (x0 & Hseq & ->)]; [now left |]. right.
      destruct (length (columns features)) as [| [| n]]; try discriminate Hseq.
      injection Hseq as <-. split; reflexivity.
    + apply Hsorted. apply sorted_importances_non_increasing.
    + intros Hlen.
      assert (Hmatch : length (seq 0 (length (columns features)))
                       = length (fancy importances (rev (argsort importances)))).
      { unfold fancy.
        rewrite length_seq, length_map, (Permutation_length Hperm), length_seq.
        now rewrite Hlen. }
      destruct (Heq Hmatch) as [-> ->]. split; [reflexivity |].
      exists (rev (argsort importances)).
      pose proof (map_outcome_column_at _ _ _ Hnames) as Hmap.
      split; [rewrite <- Hlen; exact Hperm |].
      split; [rewrite <- Hmatch; apply length_seq |].
      split.
      * apply (f_equal (@length _)) in Hmap. rewrite !length_map in Hmap.
        rewrite Hmap, (Permutation_length Hperm), length_seq. exact Hlen.
      * intros k i Hk. split.
        -- unfold fancy. rewrite nth_error_map, Hk. simpl.
           symmetry. apply nth_error_nth'.
           apply nth_error_In in Hk.
           apply (Permutation_in _ Hperm) in Hk. apply in_seq in Hk. lia.
        -- apply (f_equal (fun l => nth_error l k)) in Hmap.
           rewrite !nth_error_map, Hk in Hmap. simpl in Hmap.
           destruct (nth_error names k) as [nm |]; simpl in Hmap;
             [now injection Hmap | discriminate].
Qed.

Lemma feature_importance_plot_descending_witness :
  fst (feature_importance_plot sample_model sample_features "./images/results/"
         (sample_world [])) = Ret tt /\
  exists x heights names,
    images (snd (feature_importance_plot sample_model sample_features
                   "./images/results/" (sample_world [])))
    = ("./images/results/feature_importances.png",
       [Title "Feature Importance"; YLabel "Importance"; Bars x heights;
        XTicks (seq 0 3) names]) :: [] /\
    length x = length heights /\
    (x = seq 0 3 \/ 3 = 1 /\ x = repeat 0 (length heights)) /\
    non_increasing heights /\
    (3 = 3 ->
     x = seq 0 3 /\
     exists indices,
       Permutation indices (seq 0 3) /\
       length heights = 3 /\
       length names = 3 /\
       forall k i,
         nth_error indices k = Some i ->
         nth_error heights k
         = nth_error [(3 # 10)%Q; (1 # 2)%Q; (1 # 5)%Q] i /\
         nth_error names k = nth_error (columns sample_features) i).
Proof.
  destruct (feature_importance_plot_descending (sample_world []) sample_model
              sample_features "./images/results/") as [Hret Hfig].
  split.
  - apply Hret; [reflexivity | intros a; reflexivity | vm_compute; reflexivity].
  - apply (Hfig (snd (feature_importance_plot sample_model sample_features
                        "./images/results/" (sample_world [])))).
    vm_compute. reflexivity.
Defined.

(** ** [perform_feature_engineering] *)

Lemma train_test_split_eq (x : DataFrame) (y : Series) (test_size : Q)
    (random_state : Z) (w : World) :
  Sklearn.train_test_split x y test_size random_state w
  = (Sklearn.split_by (permutation w random_state (nrows x)) x y test_size, w).
Proof. reflexivity. Qed.

Lemma perform_feature_engineering_run (w : World) (l : ref) (df : DataFrame)
    (response : option string) :
  nth_error (heap w) l = Some df ->
  exists e',
    perform_feature_engineering l response w
    = (feature_engineering (permutation w) df response,
       set_heap w (heap w ++ [e'])).
Proof.
  intros Hl.
  destruct (encoder_helper_run w l df cat_columns response Hl)
    as (e' & Hsnd & Hres).
  exists e'.
  unfold perform_feature_engineering, feature_engineering, select_features.
  generalize keep_cols as kc. intros kc.
  destruct (encode_all df response cat_columns df) as [e | ex]; simpl obind.
  - destruct Hres as [Hfst ->].
    assert (Hlast : nth_error (heap (set_heap w (heap w ++ [e])))
                              (length (heap w)) = Some e)
      by (simpl; apply nth_error_app_last).
    erewrite bind_ret_eq
      by (rewrite (surjective_pairing (encoder_helper _ _ _ _)), Hfst, Hsnd;
          reflexivity).
    destruct (getitem e "Churn") as [target_feature | ex] eqn:Ht; simpl obind.
    2:{ erewrite bind_raise_eq; [reflexivity |].
        erewrite df_getitem_eq by exact Hlast. now rewrite Ht. }
    erewrite bind_ret_eq
      by (erewrite df_getitem_eq by exact Hlast; rewrite Ht; reflexivity).
    erewrite bind_ret_eq by (apply deref_eq; exact Hlast).
    destruct (getitems e kc) as [sub | ex]; simpl obind.
    2:{ erewrite bind_raise_eq; reflexivity. }
    erewrite bind_ret_eq by reflexivity.
    rewrite train_test_split_eq. reflexivity.
  - erewrite bind_raise_eq; [reflexivity |].
    rewrite (surjective_pairing (encoder_helper _ _ _ _)), Hres, Hsnd.
    reflexivity.
Qed.

Lemma getitems_raises (df : DataFrame) (names : list string) (n : string)
    (e : exn) :
  In n names -> getitem df n = Raise e ->
  exists e', getitems df names = Raise e'.
Proof.
  induction names as [| m names IH]; simpl; intros Hn He; [destruct Hn |].
  destruct (getitem df m) as [s |] eqn:Em; simpl; [| eauto].
  destruct Hn as [-> | Hn]; [congruence |].
  destruct (IH Hn He) as [e' ->]. simpl. eauto.
Qed.

Lemma getitems_returns (P : Series -> Prop) (df : DataFrame)
    (names : list string) :
  (forall n, In n names -> exists s, getitem df n = Ret s /\ P s) ->
  exists sub,
    getitems df names = Ret sub /\ columns sub = names /\
    Forall (fun c => P (snd c)) sub.
Proof.
  induction names as [| n names IH]; simpl; intros H.
  - exists []. repeat split. constructor.
  - destruct (H n) as (s & Es & Ps); [now left |].
    destruct IH as (sub & Esub & Hcols & Hall); [auto |].
    rewrite Es, Esub. simpl. exists ((n, s) :: sub).
    repeat split; [simpl; now rewrite Hcols | now constructor].
Qed.

Lemma setitem_new (x : DataFrame) (n : string) (s : Series) :
  ~ In n (columns x) -> setitem x n s = x ++ [(n, s)].
Proof.
  induction x as [| [m old] x IH]; simpl; intros H; [reflexivity |].
  destruct (String.eqb n m) eqn:E.
  - apply String.eqb_eq in E. subst m. tauto.
  - f_equal. apply IH. tauto.
Qed.

Lemma setitems_fresh (sub : DataFrame) :
  forall x, NoDup (columns x ++ columns sub) ->
            setitems x (columns sub) sub = x ++ sub.
Proof.
  induction sub as [| [n s] sub IH]; simpl; intros x Hnd.
  - now rewrite app_nil_r.
  - assert (Hn : ~ In n (columns x)).
    { apply NoDup_remove_2 in Hnd. intros F. apply Hnd.
      apply in_app_iff. now left. }
    rewrite setitem_new by exact Hn. rewrite IH.
    + now rewrite <- app_assoc.
    + unfold columns in *. rewrite map_app, <- app_assoc. exact Hnd.
Qed.

Lemma n_test_bounds (n : nat) :
  3 * n <= 10 * Sklearn.n_test_of (3 # 10) n < 3 * n + 10.
Proof.
  unfold Sklearn.n_test_of.
  assert (E : Qceiling ((3 # 10) * inject_Z (Z.of_nat n))
              = (- ((- (3 * Z.of_nat n)) / 10))%Z).
  { unfold Qceiling, Qfloor, Qopp, Qmult, inject_Z. cbn [Qnum Qden].
    reflexivity. }
  rewrite E.
  assert (H := Z.div_mod (- (3 * Z.of_nat n)) 10 ltac:(lia)).
  assert (H2 := Z.mod_pos_bound (- (3 * Z.of_nat n)) 10 ltac:(lia)).
  lia.
Qed.

Lemma size_series_take (s : Series) (idx : list nat) :
  size (Sklearn.series_take s idx) = length idx.
Proof.
  destruct s; unfold size, Sklearn.series_take, Sklearn.take_rows; simpl;
    now rewrite !length_map.
Qed.

Lemma columns_frame_take (x : DataFrame) (idx : list nat) :
  columns (Sklearn.frame_take x idx) = columns x.
Proof. unfold columns, Sklearn.frame_take. rewrite map_map. reflexivity. Qed.

Lemma nrows_frame_take (x : DataFrame) (idx : list nat) :
  x <> [] -> nrows (Sklearn.frame_take x idx) = length idx.
Proof.
  destruct x as [| [n s] x]; [congruence | intros _].
  simpl. apply size_series_take.
Qed.

(** The five encoded names are produced only for the response [Churn]. *)
Lemma encoded_name_needs_churn (response : option string) (c : string) :
  response <> Some "Churn" ->
  In c cat_columns ->
  ~ In (c ++ "_Churn")%string (map (target response) cat_columns).
Proof.
  intros Hresp Hc Hin. unfold target in Hin.
  destruct response as [[| a r] |]; cbn [truthy response_text] in Hin.
  - simpl in Hc, Hin.
    repeat (destruct Hc as [<- | Hc]; [simpl in Hin; intuition discriminate |]).
    exact Hc.
  - simpl in Hc, Hin.
    repeat (destruct Hc as [<- | Hc];
            [simpl in Hin; intuition (try discriminate; congruence) |]).
    exact Hc.
  - simpl in Hc, Hin.
    repeat (destruct Hc as [<- | Hc]; [simpl in Hin; intuition discriminate |]).
    exact Hc.
Qed.

(** ** A response name other than [Churn] *)

(** C10, as stated, fails: on a table that already has the five [_Churn]
    columns, [perform_feature_engineering] returns for a missing response
    name and for the response name [Age]. *)
Lemma other_response_counterexample :
  (exists split,
     fst (perform_feature_engineering 0 None (sample_world [sample_encoded]))
     = Ret split) /\
  (exists split,
     fst (perform_feature_engineering 0 (Some "Age")
            (sample_world [sample_encoded]))
     = Ret split).
Proof. split; eexists; vm_compute; reflexivity. Qed.

(** C10 (amended). For every input table that lacks at least one of the
    five columns [<category>_Churn], and every response name different from
    [Churn] (including none), [perform_feature_engineering] fails: the
    encoder does not create that column, and the fixed column list selects
    it. *)
Theorem other_response_fails (w : World) (l : ref) (df : DataFrame)
    (response : option string) (c : string) :
  nth_error (heap w) l = Some df ->
  response <> Some "Churn" ->
  In c cat_columns ->
  ~ In (c ++ "_Churn")%string (columns df) ->
  exists e, fst (perform_feature_engineering l response w) = Raise e.
Proof.
  intros Hl Hresp Hc Hmissing.
  destruct (perform_feature_engineering_run w l df response Hl) as [e' ->].
  cbn [fst]. unfold feature_engineering.
  destruct (encode_all df response cat_columns df) as [e | ex] eqn:He;
    cbn [obind]; [| eauto].
  assert (Hget : getitem e (c ++ "_Churn")
                 = Raise (KeyError (Some (Str (c ++ "_Churn"))))).
  { rewrite (encode_all_other df response cat_columns (c ++ "_Churn"))
      with (e := df) (e' := e).
    - now apply getitem_not_In.
    - now apply encoded_name_needs_churn.
    - exact He. }
  unfold select_features.
  destruct (getitem e "Churn") as [t | ex]; cbn [obind]; [| eauto].
  destruct (fun H => getitems_raises e keep_cols (c ++ "_Churn") _ H Hget)
    as [ex Hex].
  { simpl in Hc. simpl.
    repeat (destruct Hc as [<- | Hc]; [tauto |]). destruct Hc. }
  rewrite Hex. cbn [obind]. eauto.
Qed.

Lemma other_response_fails_witness :
  exists e,
    fst (perform_feature_engineering 0 None (sample_world [sample_eda]))
    = Raise e.
Proof.
  apply (other_response_fails (sample_world [sample_eda]) 0 sample_eda None
           "Gender").
  - reflexivity.
  - discriminate.
  - simpl. tauto.
  - apply has_column_false. reflexivity.
Defined.

(** ** The feature matrix and the split *)

(** C5, as stated, fails: the table as loaded has an [Attrition_Flag]
    column but no [Churn] column, and [perform_feature_engineering] raises
    a [KeyError] on it instead of selecting columns. *)
Lemma feature_engineering_counterexample :
  has_column sample_raw "Attrition_Flag" = true /\
  fst (perform_feature_engineering 0 default_response (sample_world [sample_raw]))
  = Raise (KeyError (Some (Str "Churn"))).
Proof. split; vm_compute; reflexivity. Qed.

Lemma numeric_cols_not_encoded (n : string) :
  In n numeric_cols -> ~ In n (map (target default_response) cat_columns).
Proof.
  intros Hn Ht. simpl in Hn, Ht.
  repeat (destruct Hn as [<- | Hn]; [intuition discriminate |]).
  exact Hn.
Qed.

Lemma cat_columns_not_churn (c : string) : In c cat_columns -> c <> "Churn".
Proof.
  intros Hc. simpl in Hc.
  repeat (destruct Hc as [<- | Hc]; [discriminate |]). destruct Hc.
Qed.

(** When it returns, the split is made of the nineteen selected columns
    and of [ceil(0.3 n)] test rows. *)
Lemma split_by_shape (perm : list nat) (x : DataFrame) (y : Series) (n : nat) :
  x <> [] -> nrows x = n -> size y = n -> 2 <= n -> length perm = n ->
  exists x_train x_test y_train y_test,
    Sklearn.split_by perm x y (3 # 10)
    = Ret (x_train, x_test, y_train, y_test) /\
    columns x_train = columns x /\ columns x_test = columns x /\
    nrows x_test = size y_test /\ nrows x_train = size y_train /\
    nrows x_train + nrows x_test = n /\
    3 * n <= 10 * nrows x_test < 3 * n + 10.
Proof.
  intros Hx Hn Hy Hn2 Hperm. unfold Sklearn.split_by.
  rewrite Hn, Hy, Nat.eqb_refl.
  cbn [negb]. pose proof (n_test_bounds n) as Hb.
  set (t := Sklearn.n_test_of (3 # 10) n) in *.
  destruct (Nat.eqb (n - t) 0) eqn:E; [apply Nat.eqb_eq in E; lia |].
  eexists _, _, _, _. split; [reflexivity |].
  rewrite !columns_frame_take, !nrows_frame_take, !size_series_take by exact Hx.
  rewrite !length_firstn, length_skipn, Hperm.
  repeat split; lia.
Qed.

(** On an EDA-augmented table the selection succeeds: the feature matrix
    is made of the nineteen columns, each with one entry per row. *)
Lemma select_features_returns (df : DataFrame) (churn : list (option Q)) :
  well_formed df ->
  getitem df "Churn" = Ret (Numeric churn) ->
  (forall c, In c cat_columns ->
     exists col, getitem df c = Ret col /\ ~ In None (cells col)) ->
  (forall c, In c numeric_cols -> In c (columns df)) ->
  exists e x,
    encode_all df default_response cat_columns df = Ret e /\
    select_features e = Ret (x, Numeric churn) /\
    columns x = keep_cols /\ nrows x = nrows df /\
    size (Numeric churn) = nrows df.
Proof.
  intros Hwf Hchurn Hcats Hnum.
  assert (Henc : forall c col, In c cat_columns -> getitem df c = Ret col ->
            exists ks, cells col = map Some ks /\
              encode_column df c
              = Ret (map (fun k => mean (group_values (cells col) churn k)) ks)).
  { intros c col Hc Hcol.
    destruct (Hcats c Hc) as (col' & Hcol' & Hnn).
    assert (col' = col) by congruence. subst col'.
    destruct (no_null_keys _ Hnn) as [ks Hks]. exists ks. split; [exact Hks |].
    apply encode_column_eq; try assumption. now apply cat_columns_not_churn. }
  destruct (encode_all_returns df default_response cat_columns) with (e := df)
    as [e He].
  { intros c Hc. destruct (Hcats c Hc) as (col & Hcol & _).
    destruct (Henc c col Hc Hcol) as (ks & _ & E). eauto. }
  assert (Hchurn_e : getitem e "Churn" = Ret (Numeric churn)).
  { rewrite (encode_all_other df default_response cat_columns "Churn")
      with (e := df) (e' := e); [exact Hchurn | | exact He].
    simpl. intuition discriminate. }
  assert (Hkeep : forall n, In n keep_cols ->
            exists s, getitem e n = Ret s /\ size s = nrows df).
  { intros n Hn.
    change keep_cols
      with (numeric_cols ++ map (target default_response) cat_columns) in Hn.
    apply in_app_iff in Hn. destruct Hn as [Hn | Hn].
    - rewrite (encode_all_other df default_response cat_columns n)
        with (e := df) (e' := e);
        [| now apply numeric_cols_not_encoded | exact He].
      destruct (In_getitem df n (Hnum n Hn)) as [s Hs]. exists s.
      split; [exact Hs | exact (well_formed_size df n s Hwf Hs)].
    - apply in_map_iff in Hn. destruct Hn as (c & <- & Hc).
      destruct (encode_all_written df default_response cat_columns df e He c Hc)
        as (lst & Elst & Hget).
      destruct (Hcats c Hc) as (col & Hcol & _).
      destruct (Henc c col Hc Hcol) as (ks & Hks & E).
      rewrite E in Elst. injection Elst as <-.
      eexists. split; [exact Hget |].
      rewrite <- (well_formed_size df c col Hwf Hcol).
      unfold size. rewrite Hks. simpl. now rewrite !length_map. }
  destruct (getitems_returns (fun s => size s = nrows df) e keep_cols Hkeep)
    as (sub & Hsub & Hcols & Hall).
  exists e, sub. split; [exact He |].
  assert (Hx : setitems [] keep_cols sub = sub).
  { rewrite <- Hcols. rewrite setitems_fresh; [reflexivity |].
    simpl. rewrite Hcols. apply distinctb_NoDup. reflexivity. }
  split; [| split; [exact Hcols | split]].
  - unfold select_features. rewrite Hchurn_e. cbn [obind].
    rewrite Hsub. cbn [obind]. now rewrite Hx.
  - destruct sub as [| [n s] sub]; [discriminate Hcols |].
    inversion Hall; subst. assumption.
  - exact (well_formed_size df "Churn" _ Hwf Hchurn).
Qed.

(** C5 (amended). For every well-formed table with a numeric [Churn]
    column, the five categorical columns without nulls, the fourteen raw
    numeric columns and at least two rows, [perform_feature_engineering]
    with the default response returns; the train and test feature matrices
    have exactly the nineteen selected columns (fourteen raw numeric, then
    the five encoded ones); the test partition has [ceil(0.3 n)] of the [n]
    rows, so that its share is at least 0.3 and less than 0.3 + 1/n; and
    the result is determined by the table's contents and the permutation
    drawn for seed 42: a second run, on the same object or on another with
    the same contents, returns the same partitions. *)
Theorem feature_engineering_split (w : World) (l : ref) (df : DataFrame)
    (churn : list (option Q)) :
  nth_error (heap w) l = Some df ->
  well_formed df ->
  getitem df "Churn" = Ret (Numeric churn) ->
  (forall c, In c cat_columns ->
     exists col, getitem df c = Ret col /\ ~ In None (cells col)) ->
  (forall c, In c numeric_cols -> In c (columns df)) ->
  2 <= nrows df ->
  Permutation (permutation w 42%Z (nrows df)) (seq 0 (nrows df)) ->
  exists x_train x_test y_train y_test,
    fst (perform_feature_engineering l default_response w)
    = Ret (x_train, x_test, y_train, y_test) /\
    columns x_train = keep_cols /\ columns x_test = keep_cols /\
    length keep_cols = 19 /\
    keep_cols
    = numeric_cols ++ map (fun c => (c ++ "_Churn")%string) cat_columns /\
    nrows x_test = size y_test /\ nrows x_train = size y_train /\
    nrows x_train + nrows x_test = nrows df /\
    3 * nrows df <= 10 * nrows x_test < 3 * nrows df + 10 /\
    fst (perform_feature_engineering l default_response
           (snd (perform_feature_engineering l default_response w)))
    = fst (perform_feature_engineering l default_response w) /\
    (forall w2 l2,
       nth_error (heap w2) l2 = Some df ->
       permutation w2 42%Z (nrows df) = permutation w 42%Z (nrows df) ->
       fst (perform_feature_engineering l2 default_response w2)
       = fst (perform_feature_engineering l default_response w)).
Proof.
  intros Hl Hwf Hchurn Hcats Hnum Hrows Hperm.
  destruct (select_features_returns df churn Hwf Hchurn Hcats Hnum)
    as (e & x & He & Hsel & Hcols & Hnrows & Hsize).
  assert (Hrun : forall w2 l2,
            nth_error (heap w2) l2 = Some df ->
            fst (perform_feature_engineering l2 default_response w2)
            = Sklearn.split_by (permutation w2 42%Z (nrows df)) x (Numeric churn)
                               (3 # 10)).
  { intros w2 l2 Hl2.
    destruct (perform_feature_engineering_run w2 l2 df default_response Hl2)
      as [e2 ->].
    cbn [fst]. unfold feature_engineering. rewrite He. cbn [obind].
    rewrite Hsel. cbn [obind fst snd]. now rewrite Hnrows. }
  destruct (split_by_shape (permutation w 42%Z (nrows df)) x (Numeric churn)
              (nrows df))
    as (x_train & x_test & y_train & y_test & Hsplit & Hc1 & Hc2 & Ht & Htr
        & Hsum & Hbound);
    [ intros ->; discriminate Hcols | exact Hnrows | exact Hsize | exact Hrows
    | rewrite (Permutation_length Hperm); apply length_seq | ].
  exists x_train, x_test, y_train, y_test.
  rewrite (Hrun w l Hl), Hsplit, Hc1, Hc2, Hcols.
  repeat split; try assumption; try lia.
  - destruct (perform_feature_engineering_run w l df default_response Hl)
      as [e1 E1].
    rewrite Hrun; [rewrite E1; exact Hsplit |].
    rewrite E1. simpl. now apply nth_error_app_old.
  - intros w2 l2 Hl2 Hp. rewrite (Hrun w2 l2 Hl2), Hp. exact Hsplit.
Qed.

Lemma feature_engineering_split_witness :
  exists x_train x_test y_train y_test,
    fst (perform_feature_engineering 0 default_response
           (sample_world [sample_eda]))
    = Ret (x_train, x_test, y_train, y_test) /\
    columns x_train = keep_cols /\ columns x_test = keep_cols /\
    length keep_cols = 19 /\
    keep_cols
    = numeric_cols ++ map (fun c => (c ++ "_Churn")%string) cat_columns /\
    nrows x_test = size y_test /\ nrows x_train = size y_train /\
    nrows x_train + nrows x_test = nrows sample_eda /\
    3 * nrows sample_eda <= 10 * nrows x_test < 3 * nrows sample_eda + 10 /\
    fst (perform_feature_engineering 0 default_response
           (snd (perform_feature_engineering 0 default_response
                   (sample_world [sample_eda]))))
    = fst (perform_feature_engineering 0 default_response
             (sample_world [sample_eda])) /\
    (forall w2 l2,
       nth_error (heap w2) l2 = Some sample_eda ->
       permutation w2 42%Z (nrows sample_eda)
       = permutation (sample_world [sample_eda]) 42%Z (nrows sample_eda) ->
       fst (perform_feature_engineering l2 default_response w2)
       = fst (perform_feature_engineering 0 default_response
                (sample_world [sample_eda]))).
Proof.
  apply (feature_engineering_split (sample_world [sample_eda]) 0 sample_eda
           [Some 0%Q; Some 1%Q; Some 0%Q; Some 1%Q]).
  - reflexivity.
  - apply well_formedb_sound. reflexivity.
  - reflexivity.
  - intros c [<- | [<- | [<- | [<- | [<- | []]]]]];
      eexists; (split; [reflexivity | apply no_nullb_sound; reflexivity]).
  - intros c Hc. apply has_column_In. simpl in Hc.
    repeat (destruct Hc as [<- | Hc]; [reflexivity |]). destruct Hc.
  - vm_compute. lia.
  - apply Permutation_refl.
Defined.

(** ** The test harness *)

Lemma try_except_raise {A} (body : M A) (catches : exn -> bool)
    (handler : exn -> M A) (w w' : World) (e : exn) :
  body w = (Raise e, w') -> catches e = true ->
  try_except body catches handler w = handler e w'.
Proof. intros Hb Hc. unfold try_except. now rewrite Hb, Hc. Qed.

(** C8. An exception raised by [perform_eda] in [test_eda] is caught and
    logged, not raised again: [test_eda] goes on to check the image files.
    An exception raised in the [try] block of
    [test_perform_feature_engineering], by [perform_feature_engineering] or
    by the loading before it, is caught and logged, and the test returns
    normally.  A [FileNotFoundError] from [import_data] in [test_import] is
    logged and raised again. *)
Theorem harness_exception_handling (w : World) :
  (forall bank_df w1 e w2,
     import_data data_path w = (Ret bank_df, w1) ->
     perform_eda bank_df w1 = (Raise e, w2) ->
     test_eda w = assert_image_files (set_log w2 (log w2 ++ [eda_failure e]))) /\
  (forall dataframe w1 e w2,
     import_data data_path w = (Ret dataframe, w1) ->
     perform_feature_engineering dataframe default_response w1 = (Raise e, w2) ->
     test_perform_feature_engineering w
     = (Ret tt, set_log w2 (log w2 ++ [feature_engineering_failure e]))) /\
  (forall e w1,
     import_data data_path w = (Raise e, w1) ->
     test_perform_feature_engineering w
     = (Ret tt, set_log w1 (log w1 ++ [feature_engineering_failure e]))) /\
  fst (test_perform_feature_engineering w) = Ret tt /\
  (forall p w1,
     import_data data_path w = (Raise (FileNotFoundError p), w1) ->
     test_import w
     = (Raise (FileNotFoundError p), set_log w1 (log w1 ++ [import_failure]))).
Proof.
  split; [| split; [| split; [| split]]].
  - intros bank_df w1 e w2 Himport Heda. unfold test_eda.
    erewrite bind_ret_eq by exact Himport.
    erewrite bind_ret_eq; [reflexivity |].
    erewrite try_except_raise; [reflexivity | | reflexivity].
    erewrite bind_raise_eq by exact Heda. reflexivity.
  - intros dataframe w1 e w2 Himport Hfe.
    unfold test_perform_feature_engineering.
    erewrite bind_ret_eq; [reflexivity |].
    erewrite try_except_raise; [reflexivity | | reflexivity].
    erewrite bind_ret_eq by exact Himport.
    erewrite bind_raise_eq by exact Hfe. reflexivity.
  - intros e w1 Himport. unfold test_perform_feature_engineering.
    erewrite bind_ret_eq; [reflexivity |].
    erewrite try_except_raise; [reflexivity | | reflexivity].
    erewrite bind_raise_eq by exact Himport. reflexivity.
  - unfold test_perform_feature_engineering, bind, try_except.
    destruct (import_data data_path w) as [[dataframe | e] w1];
      [| reflexivity].
    destruct (perform_feature_engineering dataframe default_response w1)
      as [[r | e] w2]; reflexivity.
  - intros p w1 Himport. unfold test_import.
    erewrite bind_raise_eq; [reflexivity |].
    erewrite try_except_raise; [reflexivity | | reflexivity].
    erewrite bind_raise_eq by exact Himport. reflexivity.
Qed.

Lemma harness_exception_handling_witness :
  (fst (test_eda world_heatmap_rejected) = Ret tt /\
   log (snd (test_eda world_heatmap_rejected))
   = [eda_failure (ValueError "could not convert string to float")]) /\
  (fst (test_perform_feature_engineering (sample_world [])) = Ret tt /\
   log (snd (test_perform_feature_engineering (sample_world [])))
   = [feature_engineering_failure (KeyError (Some (Str "Churn")))]) /\
  (fst (test_import world_without_data) = Raise (FileNotFoundError data_path) /\
   log (snd (test_import world_without_data)) = [import_failure]).
Proof.
  split; [| split].
  - destruct (harness_exception_handling world_heatmap_rejected)
      as (Heda & _).
    rewrite (Heda 0 (snd (import_data data_path world_heatmap_rejected))
               (ValueError "could not convert string to float")
               (snd (perform_eda 0
                       (snd (import_data data_path world_heatmap_rejected)))));
      [| vm_compute; reflexivity | vm_compute; reflexivity].
    split; vm_compute; reflexivity.
  - destruct (harness_exception_handling (sample_world []))
      as (_ & Hfe & _).
    rewrite (Hfe 0 (snd (import_data data_path (sample_world [])))
               (KeyError (Some (Str "Churn")))
               (snd (perform_feature_engineering 0 default_response
                       (snd (import_data data_path (sample_world []))))));
      [| vm_compute; reflexivity | vm_compute; reflexivity].
    split; vm_compute; reflexivity.
  - destruct (harness_exception_handling world_without_data)
      as (_ & _ & _ & _ & Himport).
    rewrite (Himport data_path world_without_data);
      [| vm_compute; reflexivity].
    split; reflexivity.
Defined.

(** ** The harness on the sample data *)

Example test_import_passes :
  fst (test_import (sample_world [])) = Ret tt.
Proof. vm_compute. reflexivity. Qed.

Example test_eda_passes :
  fst (test_eda (sample_world [])) = Ret tt /\
  map fst (images (snd (test_eda (sample_world []))))
  = map (fun f => ("./images/eda/" ++ f)%string)
        ["heatmap.png"; "total_trans_ct_distribution.png";
         "marital_status_distribution.png"; "customer_age_distribution.png";
         "churn_distribution.png"].
Proof. split; vm_compute; reflexivity. Qed.

Example test_encoder_helper_passes :
  fst (test_encoder_helper (sample_world [])) = Ret tt /\
  map message (log (snd (test_encoder_helper (sample_world []))))
  = ["Testing encoder_helper(data_frame, category_lst=[]): SUCCESS";
     "Testing encoder_helper: SUCCESS";
     "Testing encoder_helper with response='Churn': SUCCESS"].
Proof. split; vm_compute; reflexivity. Qed.

(** The loaded table has no [Churn] column, so the call made by
    [test_perform_feature_engineering] raises; the test logs it and
    returns. *)
Example test_perform_feature_engineering_logs :
  test_perform_feature_engineering (sample_world [])
  = (Ret tt,
     set_log (set_heap (sample_world []) [sample_raw; sample_raw])
             [feature_engineering_failure (KeyError (Some (Str "Churn")))]).
Proof. vm_compute. reflexivity. Qed.

(** * Further properties *)

(** ** [perform_eda]: the table it builds *)

Lemma setitem_setitem_same (df : DataFrame) (n : string) (s t : Series) :
  setitem (setitem df n s) n t = setitem df n t.
Proof.
  induction df as [| [m old] df IH]; simpl.
  - now rewrite String.eqb_refl.
  - destruct (String.eqb n m) eqn:E; simpl; rewrite E; [reflexivity |].
    now rewrite IH.
Qed.

Lemma columns_with_churn (df : DataFrame) (flag : Series) :
  columns (with_churn df flag)
  = if has_column df "Churn" then columns df else columns df ++ ["Churn"].
Proof.
  unfold with_churn. destruct (has_column df "Churn") eqn:E.
  - apply columns_setitem_In. now apply has_column_In.
  - apply columns_setitem_new. now apply has_column_false.
Qed.

(** X1. The table [perform_eda] works on differs from its argument in the
    [Churn] column only: a [Churn] column already there is replaced where
    it stands, otherwise [Churn] becomes the last column, and every other
    column is the argument's. *)
Theorem perform_eda_changes_churn_only (w : World) (l : ref) (df : DataFrame)
    (flag : Series) :
  nth_error (heap w) l = Some df ->
  getitem df "Attrition_Flag" = Ret flag ->
  exists eda,
    nth_error (heap (snd (perform_eda l w))) (length (heap w)) = Some eda /\
    columns eda
    = (if has_column df "Churn" then columns df else columns df ++ ["Churn"]) /\
    forall n, n <> "Churn" -> getitem eda n = getitem df n.
Proof.
  intros Hl Hflag.
  destruct (perform_eda_spec w l df flag Hl Hflag) as (Hheap & _).
  exists (with_churn df flag). split; [exact Hheap |].
  split; [apply columns_with_churn |].
  intros n Hn. unfold with_churn. apply getitem_setitem_other. congruence.
Qed.

Lemma perform_eda_changes_churn_only_witness :
  exists eda,
    nth_error (heap (snd (perform_eda 0 (sample_world [sample_eda])))) 1
    = Some eda /\
    columns eda
    = (if has_column sample_eda "Churn" then columns sample_eda
       else columns sample_eda ++ ["Churn"]) /\
    forall n, n <> "Churn" -> getitem eda n = getitem sample_eda n.
Proof.
  apply (perform_eda_changes_churn_only (sample_world [sample_eda]) 0 sample_eda
           (four "Existing Customer" "Attrited Customer" "Existing Customer"
                 "Attrited Customer")); reflexivity.
Defined.

(** X2. Without an [Attrition_Flag] column [perform_eda] raises a
    [KeyError] for that name before anything is drawn: no image is written,
    the current figure and the log are as before, and the only trace is the
    copy it had made. *)
Theorem perform_eda_without_flag (w : World) (l : ref) (df : DataFrame) :
  nth_error (heap w) l = Some df ->
  has_column df "Attrition_Flag" = false ->
  perform_eda l w
  = (Raise (KeyError (Some (Str "Attrition_Flag"))),
     set_heap w (heap w ++ [df])).
Proof.
  intros Hl Hno. apply (perform_eda_no_flag w l df _ Hl).
  apply getitem_not_In. now apply has_column_false.
Qed.

Lemma perform_eda_without_flag_witness :
  perform_eda 0 (sample_world [sample_features])
  = (Raise (KeyError (Some (Str "Attrition_Flag"))),
     set_heap (sample_world [sample_features])
              (heap (sample_world [sample_features]) ++ [sample_features])).
Proof.
  apply (perform_eda_without_flag (sample_world [sample_features]) 0
           sample_features); reflexivity.
Defined.

(** X3. Running [perform_eda] on the table it returned gives a table with
    the same contents: the flags are unchanged, so the same [Churn] column
    is derived again. *)
Theorem perform_eda_twice (w : World) (l : ref) (df : DataFrame) (flag : Series) :
  nth_error (heap w) l = Some df ->
  getitem df "Attrition_Flag" = Ret flag ->
  let w1 := snd (perform_eda l w) in
  nth_error (heap (snd (perform_eda (length (heap w)) w1))) (length (heap w1))
  = nth_error (heap w1) (length (heap w)).
Proof.
  intros Hl Hflag w1.
  destruct (perform_eda_spec w l df flag Hl Hflag) as (Hheap & _).
  fold w1 in Hheap. rewrite Hheap.
  assert (Hflag1 : getitem (with_churn df flag) "Attrition_Flag" = Ret flag).
  { unfold with_churn. rewrite getitem_setitem_other; [exact Hflag | discriminate]. }
  destruct (perform_eda_spec w1 (length (heap w)) (with_churn df flag) flag
              Hheap Hflag1) as (Hheap2 & _).
  rewrite Hheap2. unfold with_churn. now rewrite setitem_setitem_same.
Qed.

Lemma perform_eda_twice_witness :
  nth_error
    (heap (snd (perform_eda 1 (snd (perform_eda 0 (sample_world [sample_raw]))))))
    (length (heap (snd (perform_eda 0 (sample_world [sample_raw])))))
  = nth_error (heap (snd (perform_eda 0 (sample_world [sample_raw])))) 1.
Proof.
  apply (perform_eda_twice (sample_world [sample_raw]) 0 sample_raw
           (four "Existing Customer" "Attrited Customer" "Existing Customer"
                 "Attrited Customer")); reflexivity.
Defined.

(** ** [perform_eda]: the files it writes *)

Lemma plot_column_run (w : World) (r : ref) (eda : DataFrame) (column : string) :
  nth_error (heap w) r = Some eda ->
  In column (columns eda) ->
  (forall a, draw_error w a = None) ->
  existsb (String.eqb (dir_of (plot_path column))) (dirs w) = true ->
  plot_column r column w
  = (Ret tt,
     after_plot w (plot_path column)
                (plot_artist column (column_of eda column))).
Proof.
  intros Hr Hin Hdraw Hdir.
  destruct (In_getitem eda column Hin) as [s Hs].
  unfold column_of. rewrite Hs.
  apply (plot_column_ok w r eda column s Hr Hs (Hdraw _) Hdir).
Qed.

Lemma plot_loop_run (r : ref) (eda : DataFrame) (cols : list string) :
  forall w,
    nth_error (heap w) r = Some eda ->
    (forall c, In c cols -> In c (columns eda)) ->
    (forall a, draw_error w a = None) ->
    (forall c, In c cols ->
       existsb (String.eqb (dir_of (plot_path c))) (dirs w) = true) ->
    for_each cols (plot_column r) w
    = (Ret tt,
       fold_left
         (fun w c => after_plot w (plot_path c)
                                (plot_artist c (column_of eda c)))
         cols w).
Proof.
  induction cols as [| c cols IH]; intros w Hr Hcols Hdraw Hdir;
    [reflexivity |].
  simpl for_each. simpl fold_left.
  erewrite bind_ret_eq.
  2:{ apply (plot_column_run w r eda c Hr); [apply Hcols | exact Hdraw | apply Hdir];
      now left. }
  apply IH.
  - exact Hr.
  - intros c' Hc'. apply Hcols. now right.
  - exact Hdraw.
  - intros c' Hc'. apply Hdir. now right.
Qed.

Lemma fold_after_plot_frame (eda : DataFrame) (cols : list string) :
  forall w,
    let w' := fold_left
                (fun w c => after_plot w (plot_path c)
                                       (plot_artist c (column_of eda c)))
                cols w in
    heap w' = heap w /\ draw_error w' = draw_error w /\ dirs w' = dirs w.
Proof.
  induction cols as [| c cols IH]; intros w; simpl; [auto |].
  destruct (IH (after_plot w (plot_path c) (plot_artist c (column_of eda c))))
    as (Hh & Hd & Hdi).
  rewrite Hh, Hd, Hdi. auto.
Qed.

Lemma eda_plots_run (w : World) (r : ref) (eda : DataFrame) :
  nth_error (heap w) r = Some eda ->
  (forall c, In c columns_to_plot -> In c (columns eda)) ->
  plotting_succeeds w ->
  eda_plots r w = (Ret r, eda_world eda w).
Proof.
  intros Hr Hcols [Hdraw Hdir]. unfold eda_plots, eda_world.
  destruct (fold_after_plot_frame eda columns_to_plot w) as (Hh & Hd & Hdi).
  erewrite bind_ret_eq.
  2:{ apply (plot_loop_run r eda columns_to_plot w Hr Hcols Hdraw).
      intros c [<- | [<- | [<- | [<- | []]]]]; exact Hdir. }
  erewrite bind_ret_eq by apply plt_figure_eq.
  erewrite bind_ret_eq by (apply deref_eq; cbn [heap set_figure]; rewrite Hh; exact Hr).
  erewrite bind_ret_eq by (apply draw_eq; cbn [draw_error set_figure]; rewrite Hd; apply Hdraw).
  erewrite bind_ret_eq by (apply plt_savefig_eq; cbn [dirs set_figure]; rewrite Hdi; exact Hdir).
  reflexivity.
Qed.

Lemma perform_eda_success (w : World) (l : ref) (df : DataFrame) (flag : Series) :
  nth_error (heap w) l = Some df ->
  getitem df "Attrition_Flag" = Ret flag ->
  (forall c, In c plotted_columns -> In c (columns df)) ->
  plotting_succeeds w ->
  perform_eda l w
  = (Ret (length (heap w)),
     eda_world (with_churn df flag)
               (set_heap w (heap w ++ [with_churn df flag]))).
Proof.
  intros Hl Hflag Hcols Hplot.
  rewrite (perform_eda_run w l df flag Hl Hflag).
  apply eda_plots_run.
  - simpl. apply nth_error_app_last.
  - intros c [<- | Hc].
    + eapply getitem_In. apply getitem_setitem_same.
    + apply (getitem_In _ _ (column_of df c)). unfold with_churn.
      rewrite getitem_setitem_other.
      * destruct (In_getitem df c (Hcols c Hc)) as [s Hs].
        unfold column_of. now rewrite Hs.
      * destruct Hc as [<- | [<- | [<- | []]]]; discriminate.
  - exact Hplot.
Qed.

(** X4. When the plotted columns exist and plotting succeeds, [perform_eda]
    writes exactly five image files, each holding one drawing: the
    histogram of the derived [Churn], the histogram of [Customer_Age], the
    bar chart of the [Marital_Status] shares, the histogram with density
    of [Total_Trans_Ct], and the heat map of the whole table.  Files already
    there are kept, and nothing is logged. *)
Theorem perform_eda_images (w : World) (l : ref) (df : DataFrame)
    (flag age marital trans : Series) :
  nth_error (heap w) l = Some df ->
  getitem df "Attrition_Flag" = Ret flag ->
  getitem df "Customer_Age" = Ret age ->
  getitem df "Marital_Status" = Ret marital ->
  getitem df "Total_Trans_Ct" = Ret trans ->
  plotting_succeeds w ->
  fst (perform_eda l w) = Ret (length (heap w)) /\
  images (snd (perform_eda l w))
  = [("./images/eda/heatmap.png", [Heatmap (with_churn df flag)]);
     ("./images/eda/total_trans_ct_distribution.png", [Histogram true trans]);
     ("./images/eda/marital_status_distribution.png", [ValueCountsBar marital]);
     ("./images/eda/customer_age_distribution.png", [Histogram false age]);
     ("./images/eda/churn_distribution.png",
      [Histogram false (apply churn_of flag)])] ++ images w /\
  log (snd (perform_eda l w)) = log w.
Proof.
  intros Hl Hflag Hage Hmar Htrans Hplot.
  rewrite (perform_eda_success w l df flag Hl Hflag); [| | exact Hplot].
  2:{ intros c [<- | [<- | [<- | []]]]; eapply getitem_In; eassumption. }
  split; [reflexivity |]. split; [| reflexivity].
  unfold eda_world, after_plot, columns_to_plot, column_of, with_churn.
  cbn [fold_left images set_images set_figure app].
  rewrite getitem_setitem_same.
  rewrite !getitem_setitem_other by discriminate.
  rewrite Hage, Hmar, Htrans. reflexivity.
Qed.

Lemma perform_eda_images_witness :
  fst (perform_eda 0 (sample_world [sample_raw])) = Ret 1 /\
  images (snd (perform_eda 0 (sample_world [sample_raw])))
  = [("./images/eda/heatmap.png",
      [Heatmap (with_churn sample_raw
                  (four "Existing Customer" "Attrited Customer"
                        "Existing Customer" "Attrited Customer"))]);
     ("./images/eda/total_trans_ct_distribution.png",
      [Histogram true one_to_four]);
     ("./images/eda/marital_status_distribution.png",
      [ValueCountsBar (four "Married" "Single" "Married" "Single")]);
     ("./images/eda/customer_age_distribution.png",
      [Histogram false one_to_four]);
     ("./images/eda/churn_distribution.png",
      [Histogram false
         (apply churn_of (four "Existing Customer" "Attrited Customer"
                               "Existing Customer" "Attrited Customer"))])]
    ++ [] /\
  log (snd (perform_eda 0 (sample_world [sample_raw]))) = [].
Proof.
  apply (perform_eda_images (sample_world [sample_raw]) 0 sample_raw);
    try reflexivity.
  apply sample_plotting_succeeds.
Defined.

(** ** [test_import] and [test_eda] *)

Lemma try_except_ret {A} (body : M A) (catches : exn -> bool)
    (handler : exn -> M A) (w w' : World) (a : A) :
  body w = (Ret a, w') ->
  try_except body catches handler w = (Ret a, w').
Proof. intros Hb. unfold try_except. now rewrite Hb. Qed.

Lemma import_data_found (w : World) (pth : string) (df : DataFrame) :
  lookup pth (csv_files w) = Some df ->
  import_data pth w = (Ret (length (heap w)), set_heap w (heap w ++ [df])).
Proof. intros H. unfold import_data, read_csv. now rewrite H. Qed.

Lemma import_data_missing (w : World) (pth : string) :
  file_exists w pth = false ->
  import_data pth w = (Raise (FileNotFoundError pth), w).
Proof.
  unfold file_exists, import_data, read_csv.
  destruct (lookup pth (images w)), (lookup pth (csv_files w));
    (discriminate || reflexivity).
Qed.

Lemma isfile_eq (w : World) (path : string) :
  isfile path w = (Ret (file_exists w path), w).
Proof. reflexivity. Qed.

Lemma assert_image_files_run (w : World) :
  assert_image_files w
  = (if eda_images_exist w then Ret tt else Raise AssertionError, w).
Proof.
  unfold assert_image_files, eda_images_exist.
  induction image_files as [| f files IH]; [reflexivity |].
  cbn [for_each forallb]. unfold bind at 1 2. rewrite isfile_eq.
  destruct (file_exists w ("./images/eda/" ++ f)); cbn; [exact IH | reflexivity].
Qed.

(** X5. [test_import] returns exactly when the loaded table has at least
    one row and one column, logging SUCCESS and the shape; on a table
    without rows or without columns it logs SUCCESS for the load, then an
    ERROR, and raises the [AssertionError] again. *)
Theorem test_import_verdict (w : World) (df : DataFrame) :
  lookup data_path (csv_files w) = Some df ->
  let loaded := set_heap w (heap w ++ [df]) in
  let success := {| level := INFO; message := "Testing import_data: SUCCESS";
                    args := [] |} in
  test_import w
  = if Nat.ltb 0 (nrows df) && Nat.ltb 0 (length df)
    then (Ret tt,
          set_log loaded
            (log w ++ [success;
                       {| level := INFO;
                          message := ("Rows: %d" ++ tab ++ "Columns: %d")%string;
                          args := [ArgInt (nrows df); ArgInt (length df)] |}]))
    else (Raise AssertionError,
          set_log loaded
            (log w ++ [success;
                       {| level := ERROR;
                          message := "Testing import_data: The file does not appear to have rows and columns";
                          args := [] |}])).
Proof.
  intros Hcsv loaded success. unfold test_import.
  erewrite bind_ret_eq.
  2:{ erewrite try_except_ret; [reflexivity |].
      erewrite bind_ret_eq by (apply import_data_found; exact Hcsv).
      reflexivity. }
  cbn beta.
  assert (Hd : forall l0, nth_error (heap (set_log loaded l0)) (length (heap w))
                          = Some df)
    by (intros; simpl; apply nth_error_app_last).
  unfold try_except, bind at 1.
  rewrite (deref_eq _ _ df) by apply Hd.
  unfold shape, assert, bind. cbn [fst snd].
  destruct (Nat.ltb 0 (nrows df)); [destruct (Nat.ltb 0 (length df)) |];
    cbn; rewrite <- ?app_assoc; reflexivity.
Qed.

Lemma test_import_verdict_witness :
  test_import (sample_world [])
  = (Ret tt,
     set_log (set_heap (sample_world []) [sample_raw])
       [{| level := INFO; message := "Testing import_data: SUCCESS";
           args := [] |};
        {| level := INFO;
           message := ("Rows: %d" ++ tab ++ "Columns: %d")%string;
           args := [ArgInt 4; ArgInt 20] |}]).
Proof.
  apply (test_import_verdict (sample_world []) sample_raw). reflexivity.
Defined.

Lemma lookup_In {A} (key : string) (l : list (string * A)) :
  In key (map fst l) -> lookup key l <> None.
Proof.
  unfold lookup. induction l as [| [k v] l IH]; simpl; [tauto |].
  intros [-> | H].
  - now rewrite String.eqb_refl.
  - destruct (String.eqb key k); [discriminate | now apply IH].
Qed.

Lemma file_exists_image (w : World) (path : string) :
  In path (map fst (images w)) -> file_exists w path = true.
Proof.
  intros H. apply lookup_In in H. unfold file_exists.
  destruct (lookup path (images w)); [reflexivity | contradiction].
Qed.

Lemma eda_world_image_names (eda : DataFrame) (w : World) :
  map fst (images (eda_world eda w))
  = ["./images/eda/heatmap.png";
     "./images/eda/total_trans_ct_distribution.png";
     "./images/eda/marital_status_distribution.png";
     "./images/eda/customer_age_distribution.png";
     "./images/eda/churn_distribution.png"] ++ map fst (images w).
Proof. reflexivity. Qed.

Lemma eda_world_log (eda : DataFrame) (w : World) :
  log (eda_world eda w) = log w.
Proof. reflexivity. Qed.

Lemma eda_world_images_exist (eda : DataFrame) (w : World) (l : list LogRecord) :
  eda_images_exist (set_log (eda_world eda w) l) = true.
Proof.
  unfold eda_images_exist. apply forallb_forall. intros f Hf.
  apply file_exists_image.
  change (images (set_log (eda_world eda w) l)) with (images (eda_world eda w)).
  rewrite eda_world_image_names.
  simpl in Hf. simpl.
  repeat (destruct Hf as [<- | Hf]; [tauto |]). destruct Hf.
Qed.

(** X6. The names [perform_eda] saves its images under are the names
    [test_eda] looks for: whenever the data file has the flag and the
    plotted columns and plotting succeeds, [test_eda] returns normally and
    logs one record, SUCCESS. *)
Theorem test_eda_passes_when_eda_succeeds (w : World) (df : DataFrame)
    (flag : Series) :
  lookup data_path (csv_files w) = Some df ->
  getitem df "Attrition_Flag" = Ret flag ->
  (forall c, In c plotted_columns -> In c (columns df)) ->
  plotting_succeeds w ->
  fst (test_eda w) = Ret tt /\
  log (snd (test_eda w))
  = log w ++ [{| level := INFO; message := "Testing perform_eda: SUCCESS";
                 args := [] |}].
Proof.
  intros Hcsv Hflag Hcols Hplot. unfold test_eda.
  erewrite bind_ret_eq by (apply import_data_found; exact Hcsv).
  erewrite bind_ret_eq.
  2:{ erewrite try_except_ret; [reflexivity |].
      erewrite bind_ret_eq.
      2:{ apply (perform_eda_success _ _ df flag);
            [simpl; apply nth_error_app_last | exact Hflag | exact Hcols
            | exact Hplot]. }
      reflexivity. }
  rewrite assert_image_files_run.
  rewrite eda_world_images_exist. split; reflexivity.
Qed.

Lemma test_eda_passes_when_eda_succeeds_witness :
  fst (test_eda (sample_world [])) = Ret tt /\
  log (snd (test_eda (sample_world [])))
  = [] ++ [{| level := INFO; message := "Testing perform_eda: SUCCESS";
              args := [] |}].
Proof.
  apply (test_eda_passes_when_eda_succeeds (sample_world []) sample_raw
           (four "Existing Customer" "Attrited Customer" "Existing Customer"
                 "Attrited Customer")).
  - reflexivity.
  - reflexivity.
  - intros c Hc. apply has_column_In.
    destruct Hc as [<- | [<- | [<- | []]]]; reflexivity.
  - apply sample_plotting_succeeds.
Defined.

(** X7. The verdict of [test_eda] depends only on the files on disk after
    [perform_eda] has run, not on whether it succeeded: once the data file
    is loaded, the test returns normally exactly when the five image files
    exist, and raises [AssertionError] otherwise.  If the data file is
    missing, the [FileNotFoundError] of the load leaves the test without
    anything being logged. *)
Theorem test_eda_verdict (w : World) :
  (forall r w1,
     import_data data_path w = (Ret r, w1) ->
     fst (test_eda w)
     = if eda_images_exist (snd (perform_eda r w1)) then Ret tt
       else Raise AssertionError) /\
  (file_exists w data_path = false ->
   test_eda w = (Raise (FileNotFoundError data_path), w)).
Proof.
  split.
  - intros r w1 Himport. unfold test_eda.
    erewrite bind_ret_eq by exact Himport.
    unfold bind at 1, try_except, bind at 1.
    destruct (perform_eda r w1) as [[r' | e] w2]; cbn [Exception snd];
      unfold logging_info, logging_error, logging;
      rewrite assert_image_files_run; reflexivity.
  - intros Hmissing. unfold test_eda.
    erewrite bind_raise_eq by (apply import_data_missing; exact Hmissing).
    reflexivity.
Qed.

Lemma test_eda_verdict_witness :
  fst (test_eda world_heatmap_rejected) = Ret tt /\
  test_eda world_without_data
  = (Raise (FileNotFoundError data_path), world_without_data).
Proof.
  split.
  - destruct (test_eda_verdict world_heatmap_rejected) as [Hverdict _].
    rewrite (Hverdict 0 (snd (import_data data_path world_heatmap_rejected)));
      vm_compute; reflexivity.
  - destruct (test_eda_verdict world_without_data) as [_ Hmissing].
    apply Hmissing. reflexivity.
Defined.

(** ** [encoder_helper]: when it returns and what it raises *)

Lemma getitem_raise (df : DataFrame) (n : string) (ex : exn) :
  getitem df n = Raise ex -> ex = KeyError (Some (Str n)).
Proof.
  induction df as [| [m s] df IH]; simpl; [congruence |].
  destruct (String.eqb n m); [discriminate | exact IH].
Qed.

Lemma kf_getitem_raise (kf : KeyedFrame) (n : string) (ex : exn) :
  kf_getitem kf n = Raise ex -> ex = KeyError (Some (Str n)).
Proof.
  induction kf as [| [m s] kf IH]; simpl; [congruence |].
  destruct (String.eqb n m); [discriminate | exact IH].
Qed.

Lemma loc_raise (s : KeyedSeries) (val : cell) (ex : exn) :
  loc s val = Raise ex -> ex = KeyError val.
Proof.
  destruct val as [v |]; simpl; [| congruence].
  generalize (ks_values s). induction (ks_index s) as [| k ks IH];
    intros [| x xs]; simpl; try congruence.
  destruct (scalar_eqb v k); [discriminate | apply IH].
Qed.

Lemma append_loc_raise (cg : KeyedSeries) (vals : list cell) (ex : exn) :
  forall acc, append_loc cg vals acc = Raise ex -> exists k, ex = KeyError k.
Proof.
  induction vals as [| v vals IH]; simpl; intros acc H; [discriminate |].
  destruct (loc cg v) as [m | e] eqn:E; simpl in H.
  - exact (IH _ H).
  - injection H as <-. apply loc_raise in E. eauto.
Qed.

Lemma append_loc_ret (cg : KeyedSeries) (vals : list cell) :
  forall acc lst, append_loc cg vals acc = Ret lst -> ~ In None vals.
Proof.
  induction vals as [| v vals IH]; simpl; intros acc lst H; [tauto |].
  destruct v as [v |]; [| discriminate].
  destruct (loc cg (Some v)); simpl in H; [| discriminate].
  intros [F | F]; [discriminate | exact (IH _ _ H F)].
Qed.

Lemma encode_column_raise (df : DataFrame) (c : string) (ex : exn) :
  encode_column df c = Raise ex -> exists k, ex = KeyError k.
Proof.
  unfold encode_column, groupby.
  destruct (getitem df c) as [col | e] eqn:Hcol; simpl.
  - destruct (kf_getitem _ "Churn") as [cg | e] eqn:Hcg; simpl.
    + apply append_loc_raise.
    + intros H. injection H as <-. apply kf_getitem_raise in Hcg. eauto.
  - intros H. injection H as <-. apply getitem_raise in Hcol. eauto.
Qed.

Lemma In_getitem_NoDup (df : DataFrame) (n : string) (s : Series) :
  NoDup (columns df) -> In (n, s) df -> getitem df n = Ret s.
Proof.
  induction df as [| [m t] df IH]; simpl; intros Hnd Hin; [destruct Hin |].
  inversion Hnd as [| ? ? Hm Hnd']; subst.
  destruct Hin as [E | Hin].
  - injection E as -> ->. now rewrite String.eqb_refl.
  - destruct (String.eqb n m) eqn:E; [| now apply IH].
    apply String.eqb_eq in E. subst m. exfalso. apply Hm.
    apply in_map_iff. now exists (n, s).
Qed.

Lemma kf_getitem_mean_columns_inv (by_ : string) (keycol : list cell)
    (keys : list scalar) (frame : DataFrame) (n : string) (ks : KeyedSeries) :
  kf_getitem (mean_columns by_ keycol keys frame) n = Ret ks ->
  n <> by_ /\ exists xs, In (n, Numeric xs) frame.
Proof.
  induction frame as [| [m s] frame IH]; simpl; [discriminate |].
  destruct s as [xs | xs]; simpl.
  - destruct (String.eqb m by_) eqn:Eby; simpl.
    + intros H. destruct (IH H) as (Hne & ys & Hin). eauto.
    + destruct (String.eqb n m) eqn:E.
      * intros _. apply String.eqb_eq in E. subst m.
        apply String.eqb_neq in Eby. eauto.
      * intros H. destruct (IH H) as (Hne & ys & Hin). eauto.
  - intros H. destruct (IH H) as (Hne & ys & Hin). eauto.
Qed.

Lemma encode_column_ret (df : DataFrame) (c : string) (lst : list (option Q)) :
  NoDup (columns df) -> encode_column df c = Ret lst -> encodable df c.
Proof.
  intros Hnd. unfold encode_column, groupby.
  destruct (getitem df c) as [col | e] eqn:Hcol; simpl; [| discriminate].
  destruct (kf_getitem _ "Churn") as [cg | e] eqn:Hcg; simpl; [| discriminate].
  intros H. apply kf_getitem_mean_columns_inv in Hcg.
  destruct Hcg as (Hne & xs & Hin). simpl in Hne, Hin. repeat split.
  - congruence.
  - exists xs. now apply In_getitem_NoDup.
  - exists col. split; [exact Hcol | exact (append_loc_ret _ _ _ _ H)].
Qed.

Lemma encodable_encode_column (df : DataFrame) (c : string) :
  encodable df c -> exists lst, encode_column df c = Ret lst.
Proof.
  intros (Hne & (churn & Hchurn) & col & Hcol & Hnn).
  destruct (no_null_keys _ Hnn) as [ks Hks].
  rewrite (encode_column_eq df c col ks churn Hchurn Hne Hcol Hks). eauto.
Qed.

Lemma encode_all_raise (df : DataFrame) (response : option string)
    (cats : list string) (ex : exn) :
  forall e, encode_all df response cats e = Raise ex -> exists k, ex = KeyError k.
Proof.
  induction cats as [| c cats IH]; simpl; intros e H; [discriminate |].
  destruct (encode_column df c) as [lst | e0] eqn:E; simpl in H.
  - exact (IH _ H).
  - injection H as <-. exact (encode_column_raise df c e0 E).
Qed.

(** X8. On a table with distinct column names whose [Churn] column, if it
    has one, is not a column of strings, [encoder_helper] returns exactly
    when the table has a [Churn] column and every category of the list is a
    column other than [Churn] without a null entry.  Otherwise it raises,
    and what it raises is a [KeyError].  (A [Churn] column of strings is
    left out: the library can compute group means of strings that spell
    numbers.) *)
Theorem encoder_helper_returns_iff (w : World) (l : ref) (df : DataFrame)
    (cats : list string) (response : option string) :
  nth_error (heap w) l = Some df ->
  NoDup (columns df) ->
  (forall xs, getitem df "Churn" <> Ret (Object xs)) ->
  ((exists r, fst (encoder_helper l cats response w) = Ret r)
   <-> forall c, In c cats ->
         In "Churn" (columns df) /\
         c <> "Churn" /\
         exists col, getitem df c = Ret col /\ ~ In None (cells col)) /\
  (forall ex, fst (encoder_helper l cats response w) = Raise ex ->
              exists k, ex = KeyError k).
Proof.
  intros Hl Hnd Hnum.
  destruct (encoder_helper_run w l df cats response Hl) as (e' & _ & Hres).
  split; [split |].
  - intros [r Hr] c Hc.
    destruct (encode_all df response cats df) as [e | ex] eqn:He;
      [| congruence].
    destruct (encode_all_written df response cats df e He c Hc) as (lst & E & _).
    destruct (encode_column_ret df c lst Hnd E) as (Hne & [churn Hchurn] & Hcol).
    split; [exact (getitem_In _ _ _ Hchurn) |]. split; assumption.
  - intros Hok.
    destruct (encode_all_returns df response cats) with (e := df) as [e He].
    { intros c Hc. apply encodable_encode_column.
      destruct (Hok c Hc) as (Hin & Hne & Hcol).
      split; [exact Hne |]. split; [| exact Hcol].
      destruct (In_getitem df "Churn" Hin) as [[churn | xs] Hchurn]; [eauto |].
      now destruct (Hnum xs). }
    rewrite He in Hres. destruct Hres as [Hfst _]. eauto.
  - intros ex Hex.
    destruct (encode_all df response cats df) as [e | ex'] eqn:He.
    + destruct Hres as [Hfst _]. congruence.
    + rewrite Hres in Hex. injection Hex as <-.
      exact (encode_all_raise df response cats ex' df He).
Qed.

Lemma encoder_helper_returns_iff_witness :
  ((exists r, fst (encoder_helper 0 ["Gender"; "Segment"] None
                     (sample_world [sample_eda])) = Ret r)
   <-> forall c, In c ["Gender"; "Segment"] ->
         In "Churn" (columns sample_eda) /\
         c <> "Churn" /\
         exists col, getitem sample_eda c = Ret col /\ ~ In None (cells col)) /\
  (forall ex,
     fst (encoder_helper 0 ["Gender"; "Segment"] None (sample_world [sample_eda]))
     = Raise ex ->
     exists k, ex = KeyError k).
Proof.
  apply (encoder_helper_returns_iff (sample_world [sample_eda]) 0 sample_eda).
  - reflexivity.
  - apply distinctb_NoDup. reflexivity.
  - intros xs H. vm_compute in H. discriminate H.
Defined.

(** X9. Besides the copy they allocate, [encoder_helper] and
    [perform_feature_engineering] have no effect: after the call, returned
    or raised, the world is the one before with one more object in the
    store; no file is written, nothing is drawn, nothing is logged. *)
Theorem encoding_stages_only_allocate (w : World) (l : ref) (df : DataFrame)
    (cats : list string) (response : option string) :
  nth_error (heap w) l = Some df ->
  (exists e, snd (encoder_helper l cats response w)
             = set_heap w (heap w ++ [e])) /\
  (exists e, snd (perform_feature_engineering l response w)
             = set_heap w (heap w ++ [e])).
Proof.
  intros Hl. split.
  - destruct (encoder_helper_run w l df cats response Hl) as (e & Hsnd & _).
    eauto.
  - destruct (perform_feature_engineering_run w l df response Hl) as [e He].
    exists e. now rewrite He.
Qed.

Lemma encoding_stages_only_allocate_witness :
  (exists e, snd (encoder_helper 0 cat_columns default_response
                    (sample_world [sample_eda]))
             = set_heap (sample_world [sample_eda]) ([sample_eda] ++ [e])) /\
  (exists e, snd (perform_feature_engineering 0 default_response
                    (sample_world [sample_eda]))
             = set_heap (sample_world [sample_eda]) ([sample_eda] ++ [e])).
Proof.
  apply (encoding_stages_only_allocate (sample_world [sample_eda]) 0 sample_eda).
  reflexivity.
Defined.

(** ** [encoder_helper]: the values it writes *)

(** The column written for a category is the list of the group means of
    the rows, whatever the response. *)
Lemma encoded_column_form (df : DataFrame) (response : option string)
    (cats : list string) (e : DataFrame) (c : string) :
  NoDup (columns df) ->
  encode_all df response cats df = Ret e ->
  In c cats ->
  exists col ks churn,
    getitem df c = Ret col /\ cells col = map Some ks /\
    getitem df "Churn" = Ret (Numeric churn) /\
    getitem e (target response c)
    = Ret (Numeric (map (fun k => mean (group_values (cells col) churn k)) ks)).
Proof.
  intros Hnd He Hc.
  destruct (encode_all_written df response cats df e He c Hc) as (lst & E & Hget).
  destruct (encode_column_ret df c lst Hnd E)
    as (Hne & (churn & Hchurn) & col & Hcol & Hnn).
  destruct (no_null_keys _ Hnn) as [ks Hks].
  exists col, ks, churn. repeat split; try assumption.
  rewrite (encode_column_eq df c col ks churn Hchurn Hne Hcol Hks) in E.
  injection E as <-. exact Hget.
Qed.

Lemma encoder_helper_returned (w : World) (l r : ref) (df : DataFrame)
    (cats : list string) (response : option string) :
  nth_error (heap w) l = Some df ->
  fst (encoder_helper l cats response w) = Ret r ->
  exists e,
    encode_all df response cats df = Ret e /\
    r = length (heap w) /\
    nth_error (heap (snd (encoder_helper l cats response w))) r = Some e.
Proof.
  intros Hl Hr.
  destruct (encoder_helper_run w l df cats response Hl) as (e' & Hsnd & Hres).
  destruct (encode_all df response cats df) as [e | ex]; [| congruence].
  destruct Hres as [Hfst ->]. exists e. split; [reflexivity |].
  assert (r = length (heap w)) by congruence. subst r.
  split; [reflexivity |]. rewrite Hsnd. simpl. apply nth_error_app_last.
Qed.

Lemma group_values_In {A} (keycol : list cell) (k : scalar) :
  forall vals : list A,
    length keycol = length vals ->
    In (Some k) keycol ->
    group_values keycol vals k <> [].
Proof.
  unfold group_values.
  induction keycol as [| c cs IH]; intros [| v vs] Hlen Hin; simpl in *;
    try discriminate; [destruct Hin |].
  destruct (cell_is k c) eqn:E; [discriminate |].
  destruct Hin as [-> | Hin].
  - simpl in E. now rewrite scalar_eqb_refl in E.
  - apply IH; [congruence | exact Hin].
Qed.

Lemma group_values_incl {A} (keycol : list cell) (vals : list A) (k : scalar) :
  incl (group_values keycol vals k) vals.
Proof.
  unfold group_values. intros x Hx. apply in_map_iff in Hx.
  destruct Hx as ([c v] & <- & Hin). apply filter_In in Hin.
  destruct Hin as [Hin _]. now apply in_combine_r in Hin.
Qed.

Lemma Qsum_bounds (ys : list Q) :
  Forall (fun y => 0 <= y /\ y <= 1)%Q ys ->
  (0 <= Qsum ys /\ Qsum ys <= inject_Z (Z.of_nat (length ys)))%Q.
Proof.
  induction 1 as [| y ys [Hy0 Hy1] _ [IH0 IH1]]; simpl.
  - split; apply Qle_refl.
  - split.
    + rewrite <- (Qplus_0_l 0). now apply Qplus_le_compat.
    + rewrite Zpos_P_of_succ_nat. unfold Z.succ. rewrite inject_Z_plus.
      rewrite Qplus_comm. now apply Qplus_le_compat.
Qed.

Lemma mean_in_unit_interval (xs : list (option Q)) :
  xs <> [] -> Forall in_unit_interval xs -> in_unit_interval (mean xs).
Proof.
  intros Hne Hall. unfold mean.
  assert (Hnn : Forall (fun y => 0 <= y /\ y <= 1)%Q (non_null xs)
                /\ length (non_null xs) = length xs).
  { clear Hne. induction Hall as [| x xs (q & -> & Hq) _ [IH1 IH2]]; simpl.
    - split; [constructor | reflexivity].
    - split; [now constructor | now rewrite IH2]. }
  destruct Hnn as [Hbounds Hlen].
  destruct (non_null xs) as [| y ys] eqn:E.
  - destruct xs; [congruence | discriminate].
  - eexists. split; [reflexivity |].
    destruct (Qsum_bounds _ Hbounds) as [H0 H1].
    set (n := inject_Z (Z.of_nat (length (y :: ys)))) in *.
    assert (Hn : (0 < n)%Q).
    { unfold n. change 0%Q with (inject_Z 0). rewrite <- Zlt_Qlt.
      simpl length. lia. }
    rewrite Qred_correct. split.
    + apply Qle_shift_div_l; [exact Hn |]. now rewrite Qmult_0_l.
    + apply Qle_shift_div_r; [exact Hn |]. now rewrite Qmult_1_l.
Qed.

(** X10. When every [Churn] value is present and lies between 0 and 1 (as
    the 0/1 labels [perform_eda] derives do), every value [encoder_helper]
    writes is present and lies between 0 and 1. *)
Theorem encoded_values_in_unit_interval (w : World) (l r : ref)
    (df : DataFrame) (cats : list string) (response : option string)
    (churn : list (option Q)) :
  nth_error (heap w) l = Some df ->
  well_formed df ->
  getitem df "Churn" = Ret (Numeric churn) ->
  Forall in_unit_interval churn ->
  fst (encoder_helper l cats response w) = Ret r ->
  exists e,
    nth_error (heap (snd (encoder_helper l cats response w))) r = Some e /\
    forall c, In c cats ->
      exists new,
        getitem e (target response c) = Ret (Numeric new) /\
        Forall in_unit_interval new.
Proof.
  intros Hl Hwf Hchurn Hunit Hr.
  destruct (encoder_helper_returned w l r df cats response Hl Hr)
    as (e & He & _ & Hheap).
  exists e. split; [exact Hheap |]. intros c Hc.
  destruct (encoded_column_form df response cats e c (proj1 Hwf) He Hc)
    as (col & ks & churn' & Hcol & Hks & Hchurn' & Hget).
  assert (churn' = churn) by congruence. subst churn'.
  eexists. split; [exact Hget |].
  apply Forall_forall. intros v Hv. apply in_map_iff in Hv.
  destruct Hv as (k & <- & Hk).
  assert (Hlen : length (cells col) = length churn).
  { transitivity (nrows df).
    - exact (well_formed_size df c col Hwf Hcol).
    - rewrite <- (well_formed_size df "Churn" _ Hwf Hchurn).
      unfold size. simpl. now rewrite length_map. }
  apply mean_in_unit_interval.
  - apply group_values_In; [exact Hlen |]. rewrite Hks. now apply in_map.
  - apply Forall_forall. intros x Hx. apply group_values_incl in Hx.
    rewrite Forall_forall in Hunit. now apply Hunit.
Qed.

Lemma encoded_values_in_unit_interval_witness :
  exists e,
    nth_error
      (heap (snd (encoder_helper 0 cat_columns (Some "Churn")
                    (sample_world [sample_eda])))) 1 = Some e /\
    forall c, In c cat_columns ->
      exists new,
        getitem e (target (Some "Churn") c) = Ret (Numeric new) /\
        Forall in_unit_interval new.
Proof.
  apply (encoded_values_in_unit_interval (sample_world [sample_eda]) 0 1
           sample_eda cat_columns (Some "Churn")
           [Some 0%Q; Some 1%Q; Some 0%Q; Some 1%Q]).
  - reflexivity.
  - apply well_formedb_sound. reflexivity.
  - reflexivity.
  - repeat constructor; eexists; (split; [reflexivity |]); split; discriminate.
  - vm_compute. reflexivity.
Defined.

(** X11. Rows with the same category value get the same encoded value. *)
Theorem equal_categories_equal_encoding (w : World) (l r : ref)
    (df : DataFrame) (cats : list string) (response : option string)
    (c : string) (col : Series) :
  nth_error (heap w) l = Some df ->
  NoDup (columns df) ->
  fst (encoder_helper l cats response w) = Ret r ->
  In c cats ->
  getitem df c = Ret col ->
  exists e new,
    nth_error (heap (snd (encoder_helper l cats response w))) r = Some e /\
    getitem e (target response c) = Ret (Numeric new) /\
    forall i j a b,
      nth_error (cells col) i = Some a ->
      nth_error (cells col) j = Some b ->
      cell_eqb a b = true ->
      nth_error new i = nth_error new j.
Proof.
  intros Hl Hnd Hr Hc Hcol.
  destruct (encoder_helper_returned w l r df cats response Hl Hr)
    as (e & He & _ & Hheap).
  destruct (encoded_column_form df response cats e c Hnd He Hc)
    as (col' & ks & churn & Hcol' & Hks & _ & Hget).
  assert (col' = col) by congruence. subst col'.
  eexists e, _. split; [exact Hheap |]. split; [exact Hget |].
  intros i j a b Ha Hb Hab. rewrite Hks in Ha, Hb.
  rewrite nth_error_map in Ha, Hb. rewrite !nth_error_map.
  destruct (nth_error ks i) as [ki |]; [| discriminate].
  destruct (nth_error ks j) as [kj |]; [| discriminate].
  simpl in Ha, Hb. injection Ha as <-. injection Hb as <-.
  simpl in Hab. simpl. f_equal. f_equal.
  now apply group_values_eqb.
Qed.

Lemma equal_categories_equal_encoding_witness :
  exists e new,
    nth_error
      (heap (snd (encoder_helper 0 cat_columns None (sample_world [sample_eda]))))
      1 = Some e /\
    getitem e (target None "Gender") = Ret (Numeric new) /\
    forall i j a b,
      nth_error (cells (four "M" "F" "M" "M")) i = Some a ->
      nth_error (cells (four "M" "F" "M" "M")) j = Some b ->
      cell_eqb a b = true ->
      nth_error new i = nth_error new j.
Proof.
  apply (equal_categories_equal_encoding (sample_world [sample_eda]) 0 1
           sample_eda cat_columns None "Gender" (four "M" "F" "M" "M")).
  - reflexivity.
  - apply distinctb_NoDup. reflexivity.
  - vm_compute. reflexivity.
  - simpl. tauto.
  - reflexivity.
Defined.

(** ** [encoder_helper]: order of the categories, encoding again *)

Lemma frame_ext (a : DataFrame) :
  forall b,
    columns a = columns b ->
    NoDup (columns a) ->
    (forall n, In n (columns a) -> getitem a n = getitem b n) ->
    a = b.
Proof.
  induction a as [| [n s] a IH]; intros [| [m t] b] Hcols Hnd Hget;
    simpl in Hcols; try discriminate; [reflexivity |].
  injection Hcols as -> Hcols. inversion Hnd as [| ? ? Hm Hnd']; subst.
  assert (Hs : s = t).
  { specialize (Hget m (or_introl eq_refl)). simpl in Hget.
    rewrite String.eqb_refl in Hget. congruence. }
  subst t. f_equal. apply IH; [exact Hcols | exact Hnd' |].
  intros n Hn. specialize (Hget n (or_intror Hn)). simpl in Hget.
  destruct (String.eqb n m) eqn:E; [| exact Hget].
  apply String.eqb_eq in E. subst n. contradiction.
Qed.

Lemma setitem_getitem (x : DataFrame) (n : string) (s : Series) :
  getitem x n = Ret s -> setitem x n s = x.
Proof.
  induction x as [| [m t] x IH]; simpl; [discriminate |].
  destruct (String.eqb n m) eqn:E; intros H.
  - injection H as ->. reflexivity.
  - now rewrite IH.
Qed.

(** X12. Without a response name the result of [encoder_helper] does not
    depend on the order of the category list nor on repetitions in it: two
    lists with the same members give tables with the same contents (every
    pass reads the input table, never the copy being written). *)
Theorem overwrite_order_irrelevant (w : World) (l r : ref) (df : DataFrame)
    (cats cats' : list string) (response : option string) :
  nth_error (heap w) l = Some df ->
  NoDup (columns df) ->
  truthy response = false ->
  (forall c, In c cats <-> In c cats') ->
  fst (encoder_helper l cats response w) = Ret r ->
  fst (encoder_helper l cats' response w) = Ret r /\
  nth_error (heap (snd (encoder_helper l cats' response w))) r
  = nth_error (heap (snd (encoder_helper l cats response w))) r.
Proof.
  intros Hl Hnd Hresp Hsame Hr.
  destruct (encoder_helper_returned w l r df cats response Hl Hr)
    as (e & He & -> & Hheap).
  assert (Hok : forall c, In c cats' -> encodable df c).
  { intros c Hc. apply Hsame in Hc.
    destruct (encode_all_written df response cats df e He c Hc) as (lst & E & _).
    exact (encode_column_ret df c lst Hnd E). }
  destruct (encode_all_returns df response cats') with (e := df) as [e' He'].
  { intros c Hc. apply encodable_encode_column. now apply Hok. }
  destruct (encoder_helper_run w l df cats' response Hl) as (e2 & Hsnd & Hres).
  rewrite He' in Hres. destruct Hres as [Hfst ->].
  split; [exact Hfst |]. rewrite Hheap, Hsnd. simpl.
  rewrite nth_error_app_last. f_equal.
  assert (Hcols : forall l0 x, encode_all df response l0 df = Ret x ->
            (forall c, In c l0 -> encodable df c) -> columns x = columns df).
  { intros l0 x Hx Hl0.
    apply (encode_all_columns_same df response l0 df x); [| exact Hx].
    intros c Hc. rewrite target_no_response by exact Hresp.
    destruct (Hl0 c Hc) as (_ & _ & col & Hcol & _).
    exact (getitem_In df c col Hcol). }
  assert (Hcols1 : columns e = columns df).
  { apply (Hcols cats); [exact He |]. intros c Hc. apply Hok. now apply Hsame. }
  assert (Hcols2 : columns e' = columns df) by (apply (Hcols cats'); assumption).
  apply frame_ext; [congruence | congruence |].
  intros n _. destruct (in_dec string_dec n cats) as [Hin | Hout].
  - destruct (encode_all_written df response cats df e He n Hin)
      as (lst & E & Hget).
    destruct (encode_all_written df response cats' df e' He' n
                (proj1 (Hsame n) Hin)) as (lst' & E' & Hget').
    rewrite target_no_response in Hget, Hget' by exact Hresp. congruence.
  - rewrite (encode_all_other df response cats' n) with (e := df) (e' := e');
      [| | exact He'].
    + rewrite (encode_all_other df response cats n) with (e := df) (e' := e);
        [reflexivity | | exact He].
      rewrite map_ext with (g := fun c => c), map_id; [exact Hout |].
      intros c. now apply target_no_response.
    + rewrite map_ext with (g := fun c => c), map_id.
      * intros F. apply Hout. now apply Hsame.
      * intros c. now apply target_no_response.
Qed.

Lemma overwrite_order_irrelevant_witness :
  fst (encoder_helper 0 ["Card_Category"; "Gender"; "Card_Category"] None
         (sample_world [sample_eda])) = Ret 1 /\
  nth_error
    (heap (snd (encoder_helper 0 ["Card_Category"; "Gender"; "Card_Category"]
                  None (sample_world [sample_eda])))) 1
  = nth_error
      (heap (snd (encoder_helper 0 ["Gender"; "Card_Category"] None
                    (sample_world [sample_eda])))) 1.
Proof.
  apply (overwrite_order_irrelevant (sample_world [sample_eda]) 0 1 sample_eda
           ["Gender"; "Card_Category"]
           ["Card_Category"; "Gender"; "Card_Category"] None).
  - reflexivity.
  - apply distinctb_NoDup. reflexivity.
  - reflexivity.
  - intros c. simpl. tauto.
  - vm_compute. reflexivity.
Defined.

Lemma encoded_name_not_churn (c resp : string) :
  (c ++ "_" ++ resp)%string <> "Churn".
Proof.
  destruct c as [| a1 [| a2 [| a3 [| a4 [| a5 [| a6 c]]]]]]; simpl;
    intros H; congruence.
Qed.

Lemma encode_all_fixpoint (d : DataFrame) (response : option string)
    (cats : list string) (x : DataFrame) :
  (forall c, In c cats ->
     exists lst, encode_column d c = Ret lst /\
                 getitem x (target response c) = Ret (Numeric lst)) ->
  encode_all d response cats x = Ret x.
Proof.
  induction cats as [| c cats IH]; simpl; intros H; [reflexivity |].
  destruct (H c (or_introl eq_refl)) as (lst & E & Hget).
  rewrite E. simpl. rewrite (setitem_getitem x _ _ Hget).
  apply IH. intros c' Hc'. apply H. now right.
Qed.

(** X13. Encoding with a response name a second time changes nothing:
    when no new column name [<category>_<response>] is itself one of the
    categories, [encoder_helper] applied to the table it returned, with the
    same arguments, returns a table with the same contents. *)
Theorem encoding_twice (w : World) (l r : ref) (df : DataFrame)
    (cats : list string) (resp : string) :
  nth_error (heap w) l = Some df ->
  NoDup (columns df) ->
  resp <> EmptyString ->
  (forall c, In c cats -> ~ In (c ++ "_" ++ resp)%string cats) ->
  fst (encoder_helper l cats (Some resp) w) = Ret r ->
  let w1 := snd (encoder_helper l cats (Some resp) w) in
  exists e,
    nth_error (heap w1) r = Some e /\
    fst (encoder_helper r cats (Some resp) w1) = Ret (length (heap w1)) /\
    nth_error (heap (snd (encoder_helper r cats (Some resp) w1)))
              (length (heap w1)) = Some e.
Proof.
  intros Hl Hnd Hresp Hfresh Hr w1.
  destruct (encoder_helper_returned w l r df cats (Some resp) Hl Hr)
    as (e & He & _ & Hheap).
  fold w1 in Hheap. exists e. split; [exact Hheap |].
  assert (Hfix : encode_all e (Some resp) cats e = Ret e).
  { apply encode_all_fixpoint. intros c Hc.
    destruct (encoded_column_form df (Some resp) cats e c Hnd He Hc)
      as (col & ks & churn & Hcol & Hks & Hchurn & Hget).
    eexists. split; [| exact Hget].
    destruct (encode_all_written df (Some resp) cats df e He c Hc)
      as (lst & E & _).
    destruct (encode_column_ret df c lst Hnd E) as (Hne & _).
    apply encode_column_eq; [| exact Hne | | exact Hks].
    - rewrite (encode_all_other df (Some resp) cats "Churn")
        with (e := df) (e' := e); [exact Hchurn | | exact He].
      intros F. apply in_map_iff in F. destruct F as (c' & Ec' & _).
      rewrite target_response in Ec' by exact Hresp.
      exact (encoded_name_not_churn c' resp Ec').
    - rewrite (encode_all_other df (Some resp) cats c)
        with (e := df) (e' := e); [exact Hcol | | exact He].
      intros F. apply in_map_iff in F. destruct F as (c' & Ec' & Hc').
      rewrite target_response in Ec' by exact Hresp.
      apply (Hfresh c' Hc'). now rewrite Ec'. }
  destruct (encoder_helper_run w1 r e cats (Some resp) Hheap)
    as (e2 & Hsnd & Hres).
  rewrite Hfix in Hres. destruct Hres as [Hfst ->].
  split; [exact Hfst |]. rewrite Hsnd. simpl. apply nth_error_app_last.
Qed.

Lemma encoding_twice_witness :
  exists e,
    nth_error
      (heap (snd (encoder_helper 0 cat_columns (Some "Churn")
                    (sample_world [sample_eda])))) 1 = Some e /\
    fst (encoder_helper 1 cat_columns (Some "Churn")
           (snd (encoder_helper 0 cat_columns (Some "Churn")
                   (sample_world [sample_eda]))))
    = Ret (length (heap (snd (encoder_helper 0 cat_columns (Some "Churn")
                                (sample_world [sample_eda]))))) /\
    nth_error
      (heap (snd (encoder_helper 1 cat_columns (Some "Churn")
                    (snd (encoder_helper 0 cat_columns (Some "Churn")
                            (sample_world [sample_eda]))))))
      (length (heap (snd (encoder_helper 0 cat_columns (Some "Churn")
                            (sample_world [sample_eda]))))) = Some e.
Proof.
  apply (encoding_twice (sample_world [sample_eda]) 0 1 sample_eda cat_columns
           "Churn").
  - reflexivity.
  - apply distinctb_NoDup. reflexivity.
  - discriminate.
  - intros c Hc F. simpl in Hc, F.
    repeat (destruct Hc as [<- | Hc]; [intuition discriminate |]).
    exact Hc.
  - vm_compute. reflexivity.
Defined.

(** ** [perform_feature_engineering]: the rows of the split *)

Lemma getitems_getitem (df : DataFrame) (names : list string) :
  forall sub,
    getitems df names = Ret sub ->
    columns sub = names /\
    (NoDup names -> forall n, In n names -> getitem sub n = getitem df n).
Proof.
  induction names as [| m names IH]; simpl; intros sub H.
  - injection H as <-. split; [reflexivity | intros _ n []].
  - destruct (getitem df m) as [s |] eqn:Em; simpl in H; [| discriminate].
    destruct (getitems df names) as [sub' |]; simpl in H; [| discriminate].
    injection H as <-. destruct (IH sub' eq_refl) as [Hcols Hget].
    split; [simpl; now rewrite Hcols |].
    intros Hnd n Hn. inversion Hnd as [| ? ? Hm Hnd']; subst. simpl.
    destruct (String.eqb n m) eqn:E.
    + apply String.eqb_eq in E. now subst n.
    + destruct Hn as [-> | Hn]; [now rewrite String.eqb_refl in E |].
      now apply Hget.
Qed.

Lemma getitem_frame_take (x : DataFrame) (idx : list nat) (n : string) :
  getitem (Sklearn.frame_take x idx) n
  = obind (getitem x n) (fun s => Ret (Sklearn.series_take s idx)).
Proof.
  induction x as [| [m s] x IH]; simpl; [reflexivity |].
  destruct (String.eqb n m); [reflexivity | exact IH].
Qed.

Lemma select_features_getitem (e x : DataFrame) (y : Series) :
  select_features e = Ret (x, y) ->
  getitem e "Churn" = Ret y /\
  forall n, In n keep_cols -> getitem x n = getitem e n.
Proof.
  assert (Hnd : NoDup keep_cols) by (apply distinctb_NoDup; reflexivity).
  unfold select_features. revert Hnd. generalize keep_cols as kc. intros kc Hnd.
  destruct (getitem e "Churn") as [t |]; cbn [obind]; [| discriminate].
  destruct (getitems e kc) as [sub |] eqn:Hsub; cbn [obind]; [| discriminate].
  intros H. injection H as <- <-. split; [reflexivity |].
  destruct (getitems_getitem e kc sub Hsub) as [Hcols Hget].
  subst kc. rewrite setitems_fresh; [| exact Hnd].
  simpl. now apply Hget.
Qed.

Lemma split_rows_partition (perm : list nat) (n : nat) :
  Permutation perm (seq 0 n) ->
  Permutation (test_rows perm n ++ train_rows perm n) (seq 0 n).
Proof.
  intros Hperm. unfold test_rows, train_rows.
  rewrite (@firstn_all2 _ _ (skipn _ perm)).
  - now rewrite firstn_skipn.
  - rewrite length_skipn, (Permutation_length Hperm), length_seq. lia.
Qed.

Lemma target_encoding_eq (col : list cell) (ks : list scalar)
    (churn : list (option Q)) :
  col = map Some ks ->
  length churn = length col ->
  map (fun k => mean (group_values col churn k)) ks = target_encoding col churn.
Proof.
  intros Hks Hlen. apply nth_error_ext. intros i.
  unfold target_encoding.
  destruct (Nat.lt_ge_cases i (length col)) as [Hi | Hi].
  - rewrite (encoded_rows col ks churn i Hks Hlen Hi).
    rewrite nth_error_map, nth_error_seq.
    destruct (Nat.ltb_spec i (length col)); [reflexivity | lia].
  - rewrite (proj2 (nth_error_None _ _)).
    + symmetry. apply nth_error_None. now rewrite length_map, length_seq.
    + rewrite length_map. rewrite Hks, length_map in Hi. exact Hi.
Qed.

(** The split, row by row, on an EDA-augmented table. *)
Lemma feature_engineering_rows (w : World) (l : ref) (df : DataFrame)
    (churn : list (option Q)) :
  nth_error (heap w) l = Some df ->
  well_formed df ->
  getitem df "Churn" = Ret (Numeric churn) ->
  (forall c, In c cat_columns ->
     exists col, getitem df c = Ret col /\ ~ In None (cells col)) ->
  (forall c, In c numeric_cols -> In c (columns df)) ->
  exists x,
    fst (perform_feature_engineering l default_response w)
    = Sklearn.split_by (permutation w 42%Z (nrows df)) x (Numeric churn) (3 # 10)
    /\ x <> [] /\ nrows x = nrows df /\ size (Numeric churn) = nrows df /\
    (forall c s, In c numeric_cols -> getitem df c = Ret s ->
                 getitem x c = Ret s) /\
    (forall c col, In c cat_columns -> getitem df c = Ret col ->
       getitem x (c ++ "_Churn")
       = Ret (Numeric (target_encoding (cells col) churn))).
Proof.
  intros Hl Hwf Hchurn Hcats Hnum.
  destruct (select_features_returns df churn Hwf Hchurn Hcats Hnum)
    as (e & x & He & Hsel & Hcols & Hnrows & Hsize).
  destruct (select_features_getitem e x _ Hsel) as [_ Hget].
  exists x. split; [| split; [| split; [| split; [| split]]]].
  - destruct (perform_feature_engineering_run w l df default_response Hl)
      as [e2 ->].
    cbn [fst]. unfold feature_engineering. rewrite He. cbn [obind].
    rewrite Hsel. cbn [obind fst snd]. now rewrite Hnrows.
  - intros ->. discriminate Hcols.
  - exact Hnrows.
  - exact Hsize.
  - intros c s Hc Hs. rewrite Hget.
    + rewrite (encode_all_other df default_response cat_columns c)
        with (e := df) (e' := e);
        [exact Hs | now apply numeric_cols_not_encoded | exact He].
    + change keep_cols
        with (numeric_cols ++ map (target default_response) cat_columns).
      apply in_app_iff. now left.
  - intros c col Hc Hcol.
    destruct (encoded_column_form df default_response cat_columns e c
                (proj1 Hwf) He Hc)
      as (col' & ks & churn' & Hcol' & Hks & Hchurn' & Hgete).
    assert (col' = col) by congruence. subst col'.
    assert (churn' = churn) by congruence. subst churn'.
    change (c ++ "_Churn")%string with (target default_response c).
    rewrite Hget.
    + rewrite Hgete. do 2 f_equal. apply target_encoding_eq; [exact Hks |].
      transitivity (nrows df).
      * rewrite <- Hsize. unfold size. simpl. now rewrite length_map.
      * symmetry. exact (well_formed_size df c col Hwf Hcol).
    + change keep_cols
        with (numeric_cols ++ map (target default_response) cat_columns).
      apply in_app_iff. right. now apply in_map.
Qed.

Lemma split_by_rows (perm : list nat) (x : DataFrame) (y : Series) (n : nat) :
  nrows x = n -> size y = n -> 2 <= n ->
  Sklearn.split_by perm x y (3 # 10)
  = Ret (Sklearn.frame_take x (train_rows perm n),
         Sklearn.frame_take x (test_rows perm n),
         Sklearn.series_take y (train_rows perm n),
         Sklearn.series_take y (test_rows perm n)).
Proof.
  intros Hn Hy Hn2. unfold Sklearn.split_by, train_rows, test_rows.
  rewrite Hn, Hy, Nat.eqb_refl. cbn [negb].
  pose proof (n_test_bounds n) as Hb.
  destruct (Nat.eqb (n - Sklearn.n_test_of (3 # 10) n) 0) eqn:E;
    [apply Nat.eqb_eq in E; lia | reflexivity].
Qed.

(** X14. The split is a partition that keeps features and labels aligned:
    the test and train row numbers together are a permutation of the row
    numbers of the table; the label vectors are the [Churn] values of those
    rows, and each raw numeric column of a feature matrix holds the input's
    values of that column on the same rows, in the same order. *)
Theorem split_partitions_rows (w : World) (l : ref) (df : DataFrame)
    (churn : list (option Q)) :
  nth_error (heap w) l = Some df ->
  well_formed df ->
  getitem df "Churn" = Ret (Numeric churn) ->
  (forall c, In c cat_columns ->
     exists col, getitem df c = Ret col /\ ~ In None (cells col)) ->
  (forall c, In c numeric_cols -> In c (columns df)) ->
  2 <= nrows df ->
  Permutation (permutation w 42%Z (nrows df)) (seq 0 (nrows df)) ->
  let train := train_rows (permutation w 42%Z (nrows df)) (nrows df) in
  let test := test_rows (permutation w 42%Z (nrows df)) (nrows df) in
  Permutation (test ++ train) (seq 0 (nrows df)) /\
  exists x_train x_test,
    fst (perform_feature_engineering l default_response w)
    = Ret (x_train, x_test,
           Sklearn.series_take (Numeric churn) train,
           Sklearn.series_take (Numeric churn) test) /\
    forall c s, In c numeric_cols -> getitem df c = Ret s ->
      getitem x_train c = Ret (Sklearn.series_take s train) /\
      getitem x_test c = Ret (Sklearn.series_take s test).
Proof.
  intros Hl Hwf Hchurn Hcats Hnum Hrows Hperm train test.
  split; [now apply split_rows_partition |].
  destruct (feature_engineering_rows w l df churn Hl Hwf Hchurn Hcats Hnum)
    as (x & Hfst & _ & Hnrows & Hsize & Hraw & _).
  rewrite Hfst, (split_by_rows _ x _ (nrows df) Hnrows Hsize Hrows).
  eexists _, _. split; [reflexivity |].
  intros c s Hc Hs. rewrite !getitem_frame_take, (Hraw c s Hc Hs). split; reflexivity.
Qed.

(** X15. The encoded features carry the labels of the test rows: in the
    train matrix (and in the test matrix) the column [<category>_Churn]
    holds, for each of its rows, the mean of [Churn] over all rows of the
    table that share the row's category value, whichever partition those
    rows went to. *)
Theorem encoded_features_use_all_rows (w : World) (l : ref) (df : DataFrame)
    (churn : list (option Q)) :
  nth_error (heap w) l = Some df ->
  well_formed df ->
  getitem df "Churn" = Ret (Numeric churn) ->
  (forall c, In c cat_columns ->
     exists col, getitem df c = Ret col /\ ~ In None (cells col)) ->
  (forall c, In c numeric_cols -> In c (columns df)) ->
  2 <= nrows df ->
  let train := train_rows (permutation w 42%Z (nrows df)) (nrows df) in
  let test := test_rows (permutation w 42%Z (nrows df)) (nrows df) in
  exists x_train x_test y_train y_test,
    fst (perform_feature_engineering l default_response w)
    = Ret (x_train, x_test, y_train, y_test) /\
    forall c col, In c cat_columns -> getitem df c = Ret col ->
      getitem x_train (c ++ "_Churn")
      = Ret (Sklearn.series_take
               (Numeric (target_encoding (cells col) churn)) train) /\
      getitem x_test (c ++ "_Churn")
      = Ret (Sklearn.series_take
               (Numeric (target_encoding (cells col) churn)) test).
Proof.
  intros Hl Hwf Hchurn Hcats Hnum Hrows train test.
  destruct (feature_engineering_rows w l df churn Hl Hwf Hchurn Hcats Hnum)
    as (x & Hfst & _ & Hnrows & Hsize & _ & Henc).
  rewrite Hfst, (split_by_rows _ x _ (nrows df) Hnrows Hsize Hrows).
  eexists _, _, _, _. split; [reflexivity |].
  intros c col Hc Hcol.
  rewrite !getitem_frame_take, (Henc c col Hc Hcol). split; reflexivity.
Qed.

(** X16. A table with fewer than two rows cannot be split: on an
    EDA-augmented table with no row or one row
    [perform_feature_engineering] raises the [ValueError] of an empty train
    set. *)
Theorem too_few_rows_to_split (w : World) (l : ref) (df : DataFrame)
    (churn : list (option Q)) :
  nth_error (heap w) l = Some df ->
  well_formed df ->
  getitem df "Churn" = Ret (Numeric churn) ->
  (forall c, In c cat_columns ->
     exists col, getitem df c = Ret col /\ ~ In None (cells col)) ->
  (forall c, In c numeric_cols -> In c (columns df)) ->
  nrows df < 2 ->
  fst (perform_feature_engineering l default_response w)
  = Raise (ValueError "the resulting train set will be empty").
Proof.
  intros Hl Hwf Hchurn Hcats Hnum Hrows.
  destruct (feature_engineering_rows w l df churn Hl Hwf Hchurn Hcats Hnum)
    as (x & Hfst & _ & Hnrows & Hsize & _).
  rewrite Hfst. unfold Sklearn.split_by. rewrite Hnrows, Hsize, Nat.eqb_refl.
  cbn [negb]. pose proof (n_test_bounds (nrows df)) as Hb.
  destruct (Nat.eqb (nrows df - Sklearn.n_test_of (3 # 10) (nrows df)) 0) eqn:E;
    [reflexivity | apply Nat.eqb_neq in E; lia].
Qed.

Lemma cat_columns_no_null (df : DataFrame) :
  forallb (fun c => match getitem df c with
                    | Ret col => no_nullb col
                    | Raise _ => false
                    end) cat_columns = true ->
  forall c, In c cat_columns ->
    exists col, getitem df c = Ret col /\ ~ In None (cells col).
Proof.
  intros H c Hc. rewrite forallb_forall in H. specialize (H c Hc).
  destruct (getitem df c) as [col |]; [| discriminate].
  exists col. split; [reflexivity | now apply no_nullb_sound].
Qed.

Lemma numeric_cols_present (df : DataFrame) :
  forallb (has_column df) numeric_cols = true ->
  forall c, In c numeric_cols -> In c (columns df).
Proof.
  intros H c Hc. rewrite forallb_forall in H. apply has_column_In. now apply H.
Qed.

Lemma split_partitions_rows_witness :
  Permutation
    (test_rows (permutation (sample_world [sample_eda]) 42%Z (nrows sample_eda))
               (nrows sample_eda)
     ++ train_rows (permutation (sample_world [sample_eda]) 42%Z
                                (nrows sample_eda)) (nrows sample_eda))
    (seq 0 (nrows sample_eda)) /\
  exists x_train x_test,
    fst (perform_feature_engineering 0 default_response
           (sample_world [sample_eda]))
    = Ret (x_train, x_test,
           Sklearn.series_take (Numeric [Some 0%Q; Some 1%Q; Some 0%Q; Some 1%Q])
             (train_rows (permutation (sample_world [sample_eda]) 42%Z
                                      (nrows sample_eda)) (nrows sample_eda)),
           Sklearn.series_take (Numeric [Some 0%Q; Some 1%Q; Some 0%Q; Some 1%Q])
             (test_rows (permutation (sample_world [sample_eda]) 42%Z
                                     (nrows sample_eda)) (nrows sample_eda))) /\
    forall c s, In c numeric_cols -> getitem sample_eda c = Ret s ->
      getitem x_train c
      = Ret (Sklearn.series_take s
               (train_rows (permutation (sample_world [sample_eda]) 42%Z
                                        (nrows sample_eda)) (nrows sample_eda))) /\
      getitem x_test c
      = Ret (Sklearn.series_take s
               (test_rows (permutation (sample_world [sample_eda]) 42%Z
                                       (nrows sample_eda)) (nrows sample_eda))).
Proof.
  apply (split_partitions_rows (sample_world [sample_eda]) 0 sample_eda
           [Some 0%Q; Some 1%Q; Some 0%Q; Some 1%Q]).
  - reflexivity.
  - apply well_formedb_sound. reflexivity.
  - reflexivity.
  - apply cat_columns_no_null. reflexivity.
  - apply numeric_cols_present. reflexivity.
  - vm_compute. lia.
  - apply Permutation_refl.
Defined.

Lemma encoded_features_use_all_rows_witness :
  exists x_train x_test y_train y_test,
    fst (perform_feature_engineering 0 default_response
           (sample_world [sample_eda]))
    = Ret (x_train, x_test, y_train, y_test) /\
    forall c col, In c cat_columns -> getitem sample_eda c = Ret col ->
      getitem x_train (c ++ "_Churn")
      = Ret (Sklearn.series_take
               (Numeric (target_encoding (cells col)
                           [Some 0%Q; Some 1%Q; Some 0%Q; Some 1%Q]))
               (train_rows (permutation (sample_world [sample_eda]) 42%Z
                                        (nrows sample_eda)) (nrows sample_eda))) /\
      getitem x_test (c ++ "_Churn")
      = Ret (Sklearn.series_take
               (Numeric (target_encoding (cells col)
                           [Some 0%Q; Some 1%Q; Some 0%Q; Some 1%Q]))
               (test_rows (permutation (sample_world [sample_eda]) 42%Z
                                       (nrows sample_eda)) (nrows sample_eda))).
Proof.
  apply (encoded_features_use_all_rows (sample_world [sample_eda]) 0 sample_eda
           [Some 0%Q; Some 1%Q; Some 0%Q; Some 1%Q]).
  - reflexivity.
  - apply well_formedb_sound. reflexivity.
  - reflexivity.
  - apply cat_columns_no_null. reflexivity.
  - apply numeric_cols_present. reflexivity.
  - vm_compute. lia.
Defined.

Lemma too_few_rows_to_split_witness :
  fst (perform_feature_engineering 0 default_response
         (sample_world [single_customer]))
  = Raise (ValueError "the resulting train set will be empty").
Proof.
  apply (too_few_rows_to_split (sample_world [single_customer]) 0
           single_customer [Some 0%Q]).
  - reflexivity.
  - apply well_formedb_sound. reflexivity.
  - reflexivity.
  - apply cat_columns_no_null. reflexivity.
  - apply numeric_cols_present. reflexivity.
  - vm_compute. lia.
Defined.

(** ** From the data file to the split *)

Lemma nrows_with_churn (df : DataFrame) (flag : Series) :
  well_formed df ->
  getitem df "Attrition_Flag" = Ret flag ->
  nrows (with_churn df flag) = nrows df.
Proof.
  intros Hwf Hflag.
  pose proof (well_formed_size df _ _ Hwf Hflag) as Hsize.
  unfold with_churn. destruct df as [| [m s] df]; [discriminate |].
  cbn [setitem]. destruct (String.eqb "Churn" m); [| reflexivity].
  cbn [nrows] in *. now rewrite size_apply.
Qed.

Lemma Forall_setitem (P : string * Series -> Prop) (df : DataFrame)
    (n : string) (s : Series) :
  Forall P df -> (forall m, P (m, s)) -> Forall P (setitem df n s).
Proof.
  intros Hall Hs. induction Hall as [| [m t] df Hhd Htl IH]; simpl.
  - now repeat constructor.
  - destruct (String.eqb n m); constructor; auto.
Qed.

Lemma well_formed_with_churn (df : DataFrame) (flag : Series) :
  well_formed df ->
  getitem df "Attrition_Flag" = Ret flag ->
  well_formed (with_churn df flag).
Proof.
  intros Hwf Hflag. split.
  - rewrite columns_with_churn. destruct (has_column df "Churn") eqn:E.
    + apply Hwf.
    + apply NoDup_app; repeat split; try apply Hwf.
      * repeat constructor. intros [].
      * intros n Hn [<- | []]. apply has_column_In in Hn. congruence.
  - rewrite (nrows_with_churn df flag Hwf Hflag).
    pose proof (well_formed_size df _ _ Hwf Hflag) as Hsize.
    unfold with_churn. apply Forall_setitem; [apply Hwf |].
    intros m. cbn [snd]. now rewrite size_apply.
Qed.

Lemma eda_world_heap (eda : DataFrame) (w : World) :
  heap (eda_world eda w) = heap w.
Proof. reflexivity. Qed.

Lemma eda_world_permutation (eda : DataFrame) (w : World) :
  permutation (eda_world eda w) = permutation w.
Proof. reflexivity. Qed.

(** X17. The stages fit together: on a well-formed data file with an
    [Attrition_Flag] column, the five categorical columns without nulls,
    the fourteen numeric columns and at least two rows, when plotting
    succeeds, loading, [perform_eda] and [perform_feature_engineering] run
    through, and the labels of the two partitions are the 0/1 values
    derived from the flags of their rows. *)
Theorem main_until_split_returns (w : World) (df : DataFrame) (flag : Series) :
  lookup data_path (csv_files w) = Some df ->
  well_formed df ->
  getitem df "Attrition_Flag" = Ret flag ->
  (forall c, In c cat_columns ->
     exists col, getitem df c = Ret col /\ ~ In None (cells col)) ->
  (forall c, In c numeric_cols -> In c (columns df)) ->
  2 <= nrows df ->
  plotting_succeeds w ->
  let train := train_rows (permutation w 42%Z (nrows df)) (nrows df) in
  let test := test_rows (permutation w 42%Z (nrows df)) (nrows df) in
  exists x_train x_test,
    fst (main_until_split w)
    = Ret (x_train, x_test,
           Sklearn.series_take (apply churn_of flag) train,
           Sklearn.series_take (apply churn_of flag) test).
Proof.
  intros Hcsv Hwf Hflag Hcats Hnum Hrows Hplot train test.
  set (eda := with_churn df flag).
  set (w1 := set_heap w (heap w ++ [df])).
  set (w2 := eda_world eda (set_heap w1 (heap w1 ++ [eda]))).
  assert (Hrun : main_until_split w
                 = perform_feature_engineering (length (heap w1))
                     (Some "Churn") w2).
  { unfold main_until_split.
    erewrite bind_ret_eq by (apply import_data_found; exact Hcsv).
    erewrite bind_ret_eq; [reflexivity |].
    apply (perform_eda_success w1 (length (heap w)) df flag);
      [apply nth_error_app_last | exact Hflag | | exact Hplot].
    intros c [<- | [<- | [<- | []]]].
    - apply Hnum. simpl. tauto.
    - destruct (Hcats "Marital_Status") as (col & Hcol & _); [simpl; tauto |].
      exact (getitem_In _ _ _ Hcol).
    - apply Hnum. simpl. tauto. }
  rewrite Hrun.
  assert (Hl2 : nth_error (heap w2) (length (heap w1)) = Some eda).
  { unfold w2. rewrite eda_world_heap. simpl. apply nth_error_app_last. }
  assert (Hother : forall c, c <> "Churn" -> getitem eda c = getitem df c).
  { intros c Hc. unfold eda, with_churn. apply getitem_setitem_other. congruence. }
  destruct (feature_engineering_rows w2 (length (heap w1)) eda
              (map (fun val => Some (churn_of val)) (cells flag)) Hl2)
    as (x & Hfst & _ & Hnrows & Hsize & _).
  - now apply well_formed_with_churn.
  - apply with_churn_column.
    pose proof (well_formed_size df _ _ Hwf Hflag) as Hsize.
    unfold size in *. lia.
  - intros c Hc. rewrite Hother by now apply cat_columns_not_churn.
    now apply Hcats.
  - intros c Hc. destruct (In_getitem df c (Hnum c Hc)) as [s Hs].
    apply (getitem_In eda c s). rewrite Hother; [exact Hs |].
    intros ->. simpl in Hc. intuition discriminate.
  - change (Some "Churn") with default_response. rewrite Hfst.
    assert (Hn : nrows eda = nrows df) by now apply nrows_with_churn.
    rewrite Hn in *.
    rewrite (split_by_rows _ x _ (nrows df) Hnrows Hsize Hrows).
    unfold w2. rewrite eda_world_permutation.
    rewrite apply_rows
      by (pose proof (well_formed_size df _ _ Hwf Hflag); unfold size in *; lia).
    eexists _, _. reflexivity.
Qed.

Lemma main_until_split_returns_witness :
  exists x_train x_test,
    fst (main_until_split (sample_world []))
    = Ret (x_train, x_test,
           Sklearn.series_take
             (apply churn_of (four "Existing Customer" "Attrited Customer"
                                   "Existing Customer" "Attrited Customer"))
             (train_rows (permutation (sample_world []) 42%Z (nrows sample_raw))
                         (nrows sample_raw)),
           Sklearn.series_take
             (apply churn_of (four "Existing Customer" "Attrited Customer"
                                   "Existing Customer" "Attrited Customer"))
             (test_rows (permutation (sample_world []) 42%Z (nrows sample_raw))
                        (nrows sample_raw))).
Proof.
  apply (main_until_split_returns (sample_world []) sample_raw
           (four "Existing Customer" "Attrited Customer" "Existing Customer"
                 "Attrited Customer")).
  - reflexivity.
  - apply well_formedb_sound. reflexivity.
  - reflexivity.
  - apply cat_columns_no_null. reflexivity.
  - apply numeric_cols_present. reflexivity.
  - vm_compute. lia.
  - apply sample_plotting_succeeds.
Defined.

(** ** [feature_importance_plot]: the ways it fails *)

Lemma map_outcome_column_at_raises (features : DataFrame) (indices : list nat) :
  (exists i, In i indices /\ length (columns features) <= i) ->
  map_outcome (column_at features) indices = Raise IndexError.
Proof.
  induction indices as [| i indices IH]; intros (j & Hin & Hj); [destruct Hin |].
  simpl. unfold column_at at 1.
  destruct (nth_error (columns features) i) as [n |] eqn:E; [| reflexivity].
  simpl. rewrite IH; [reflexivity |].
  exists j. split; [| exact Hj].
  destruct Hin as [-> | Hin]; [| exact Hin].
  assert (nth_error (columns features) j <> None) by congruence.
  apply nth_error_Some in H. lia.
Qed.

(** X18. A model with more importances than the feature table has columns
    makes [feature_importance_plot] raise [IndexError] while the names are
    looked up, before a figure is opened: nothing is drawn or written. *)
Theorem feature_importance_plot_too_many_importances (w : World)
    (model : GridSearchCV) (features : DataFrame) (output_pth : string) :
  length (columns features)
  < length (feature_importances_ (best_estimator_ model)) ->
  feature_importance_plot model features output_pth w = (Raise IndexError, w).
Proof.
  intros Hlen. unfold feature_importance_plot.
  apply bind_raise_eq. unfold lift.
  rewrite map_outcome_column_at_raises; [reflexivity |].
  exists (length (columns features)). split; [| lia].
  apply in_rev. rewrite rev_involutive.
  apply (Permutation_in _ (Permutation_sym (argsort_Permutation _))).
  apply in_seq. lia.
Qed.

Lemma feature_importance_plot_too_many_importances_witness :
  feature_importance_plot sample_model [("Customer_Age", one_to_four)]
    "./images/results/" (sample_world [])
  = (Raise IndexError, sample_world []).
Proof.
  apply feature_importance_plot_too_many_importances. vm_compute. lia.
Defined.

(** X19. With one importance per feature column and a plotting library that
    accepts the drawings, an output directory that does not exist makes
    [feature_importance_plot] raise [FileNotFoundError] for the image path:
    the figure is drawn but no file is written. *)
Theorem feature_importance_plot_missing_directory (w : World)
    (model : GridSearchCV) (features : DataFrame) (output_pth : string) :
  length (feature_importances_ (best_estimator_ model))
  = length (columns features) ->
  (forall a, draw_error w a = None) ->
  existsb (String.eqb (dir_of (output_pth ++ "feature_importances.png")))
          (dirs w) = false ->
  fst (feature_importance_plot model features output_pth w)
  = Raise (FileNotFoundError (output_pth ++ "feature_importances.png")) /\
  images (snd (feature_importance_plot model features output_pth w))
  = images w.
Proof.
  intros Hlen Hdraw Hdir.
  set (importances := feature_importances_ (best_estimator_ model)) in *.
  assert (Hperm : Permutation (rev (argsort importances))
                              (seq 0 (length importances))).
  { rewrite <- Permutation_rev. apply argsort_Permutation. }
  unfold feature_importance_plot. fold importances.
  destruct (map_outcome_column_at_returns features (rev (argsort importances)))
    as [names Hnames].
  { intros i Hi. rewrite <- Hlen.
    apply (Permutation_in _ Hperm) in Hi. apply in_seq in Hi. lia. }
  erewrite bind_ret_eq by (unfold lift; rewrite Hnames; reflexivity).
  erewrite bind_ret_eq by apply plt_figure_eq.
  erewrite bind_ret_eq by (apply draw_eq; apply Hdraw).
  erewrite bind_ret_eq by (apply draw_eq; apply Hdraw).
  erewrite bind_ret_eq.
  2:{ unfold plt_bar, shape, fancy. cbn [snd].
      rewrite length_seq, length_map, (Permutation_length Hperm), length_seq.
      unfold columns in Hlen. rewrite length_map in Hlen.
      rewrite <- Hlen, Nat.eqb_refl.
      apply draw_eq. apply Hdraw. }
  erewrite bind_ret_eq by (apply draw_eq; apply Hdraw).
  unfold plt_savefig. cbn [dirs set_figure]. rewrite Hdir. split; reflexivity.
Qed.

Lemma feature_importance_plot_missing_directory_witness :
  fst (feature_importance_plot sample_model sample_features "./plots/"
         (sample_world []))
  = Raise (FileNotFoundError "./plots/feature_importances.png") /\
  images (snd (feature_importance_plot sample_model sample_features "./plots/"
                 (sample_world [])))
  = images (sample_world []).
Proof.
  apply feature_importance_plot_missing_directory;
    [reflexivity | intros a; reflexivity | vm_compute; reflexivity].
Defined.

(** ** [test_perform_feature_engineering] on a file as loaded *)

Lemma encode_column_without_churn (df : DataFrame) (c : string) :
  ~ In "Churn" (columns df) -> exists ex, encode_column df c = Raise ex.
Proof.
  intros Hno. destruct (encode_column df c) as [lst | ex] eqn:E; [| eauto].
  exfalso. apply Hno. revert E. unfold encode_column, groupby.
  destruct (getitem df c) as [col | e] eqn:Hcol; simpl; [| discriminate].
  destruct (kf_getitem _ "Churn") as [cg | e] eqn:Hcg; simpl; [| discriminate].
  intros _. apply kf_getitem_mean_columns_inv in Hcg.
  destruct Hcg as (_ & xs & Hin). simpl in Hin.
  apply in_map_iff. now exists ("Churn", Numeric xs).
Qed.

(** X20. The harness runs [perform_feature_engineering] on the table as it
    was loaded.  Whenever the data file has no [Churn] column, the call
    raises a [KeyError]; the test catches it, writes the failure record
    naming that class, writes no success record, and returns. *)
Theorem test_perform_feature_engineering_without_churn (w : World)
    (df : DataFrame) :
  lookup data_path (csv_files w) = Some df ->
  ~ In "Churn" (columns df) ->
  fst (test_perform_feature_engineering w) = Ret tt /\
  log (snd (test_perform_feature_engineering w))
  = log w ++ [{| level := ERROR;
                 message :=
                   "Testing perform_feature_engineering failed - Error type: %s";
                 args := [ArgType "KeyError"] |}].
Proof.
  intros Hcsv Hno.
  set (w1 := set_heap w (heap w ++ [df])).
  destruct (perform_feature_engineering_run w1 (length (heap w)) df
              default_response) as [e' Hrun].
  { apply nth_error_app_last. }
  destruct (encode_all_raises df default_response cat_columns "Gender")
    with (e := df) as [ex Hex].
  { simpl. tauto. }
  { now apply encode_column_without_churn. }
  destruct (encode_all_raise _ _ _ _ _ Hex) as [k ->].
  unfold feature_engineering in Hrun. rewrite Hex in Hrun. simpl obind in Hrun.
  set (w2 := set_heap w1 (heap w1 ++ [e'])) in Hrun.
  assert (Htest : test_perform_feature_engineering w
                  = (Ret tt,
                     set_log w2
                       (log w2 ++ [feature_engineering_failure (KeyError k)]))).
  { unfold test_perform_feature_engineering.
    erewrite bind_ret_eq; [reflexivity |].
    erewrite try_except_raise; [reflexivity | | reflexivity].
    erewrite bind_ret_eq by (apply import_data_found; exact Hcsv).
    erewrite bind_raise_eq by exact Hrun. reflexivity. }
  rewrite Htest. split; reflexivity.
Qed.

Lemma test_perform_feature_engineering_without_churn_witness :
  fst (test_perform_feature_engineering (sample_world [])) = Ret tt /\
  log (snd (test_perform_feature_engineering (sample_world [])))
  = log (sample_world [])
    ++ [{| level := ERROR;
           message :=
             "Testing perform_feature_engineering failed - Error type: %s";
           args := [ArgType "KeyError"] |}].
Proof.
  apply (test_perform_feature_engineering_without_churn (sample_world [])
           sample_raw).
  - reflexivity.
  - apply has_column_false. reflexivity.
Defined.

(** ** [test_encoder_helper] on any data file *)

Lemma encoder_helper_ret (w : World) (l : ref) (d e : DataFrame)
    (cats : list string) (response : option string) :
  nth_error (heap w) l = Some d ->
  encode_all d response cats d = Ret e ->
  encoder_helper l cats response w
  = (Ret (length (heap w)), set_heap w (heap w ++ [e])).
Proof.
  intros Hl He.
  destruct (encoder_helper_run w l d cats response Hl) as (e' & Hsnd & Hres).
  rewrite He in Hres. destruct Hres as [Hfst ->].
  now rewrite (surjective_pairing (encoder_helper _ _ _ _)), Hfst, Hsnd.
Qed.

(** A [try] block of [test_encoder_helper] when the encoder returns and the
    checks made on its result hold. *)
Lemma encoder_test_block (w : World) (l : ref) (d e : DataFrame)
    (cats : list string) (response : option string)
    (checks : DataFrame -> DataFrame -> M unit) (msg : string)
    (handler : exn -> M unit) :
  nth_error (heap w) l = Some d ->
  encode_all d response cats d = Ret e ->
  (forall w', checks e d w'
              = logging_info msg [] w') ->
  try_except
    (encoded_df <- encoder_helper l cats response ;;
     e <- deref encoded_df ;;
     d <- deref l ;;
     checks e d)
    is_AssertionError handler w
  = (Ret tt,
     set_log (set_heap w (heap w ++ [e]))
             (log w ++ [{| level := INFO; message := msg; args := [] |}])).
Proof.
  intros Hl He Hchecks.
  erewrite try_except_ret; [reflexivity |].
  erewrite bind_ret_eq by (apply (encoder_helper_ret w l d e); assumption).
  erewrite bind_ret_eq by (apply deref_eq; simpl; apply nth_error_app_last).
  erewrite bind_ret_eq
    by (apply deref_eq; simpl; apply nth_error_app_old; exact Hl).
  rewrite Hchecks. reflexivity.
Qed.

Lemma assert_true (b : bool) (k : M unit) (w : World) :
  b = true -> (assert b ;; k) w = k w.
Proof. intros ->. reflexivity. Qed.

(** X21. [test_encoder_helper] passes on every data file that has at least
    one row, an [Attrition_Flag] column and the five categorical columns as
    columns of strings without nulls, and no column already named after an
    encoded one: the three calls of [encoder_helper] return, every check
    holds, and the three SUCCESS records are logged.  (On a file with a
    header and no row the derived [Churn] is not numeric and the second
    call raises a [KeyError], which the test does not catch.) *)
Theorem test_encoder_helper_passes_on (w : World) (df : DataFrame)
    (flag : Series) :
  lookup data_path (csv_files w) = Some df ->
  getitem df "Attrition_Flag" = Ret flag ->
  0 < size flag ->
  (forall c, In c cat_columns ->
     exists xs, getitem df c = Ret (Object xs) /\ ~ In None xs) ->
  (forall c, In c cat_columns -> ~ In (c ++ "_Churn")%string (columns df)) ->
  let info msg := {| level := INFO; message := msg; args := [] |} in
  fst (test_encoder_helper w) = Ret tt /\
  log (snd (test_encoder_helper w))
  = log w
    ++ [info "Testing encoder_helper(data_frame, category_lst=[]): SUCCESS";
        info "Testing encoder_helper: SUCCESS";
        info "Testing encoder_helper with response='Churn': SUCCESS"].
Proof.
  intros Hcsv Hflag Hrows Hcats Hfresh info.
  set (d := with_churn df flag).
  set (l := length (heap w)).
  (* the table the encoder is called on *)
  assert (Hother : forall c, c <> "Churn" -> getitem d c = getitem df c).
  { intros c Hc. unfold d, with_churn. apply getitem_setitem_other. congruence. }
  assert (Henc : forall c, In c cat_columns -> encodable d c).
  { intros c Hc. pose proof (cat_columns_not_churn c Hc) as Hne.
    destruct (Hcats c Hc) as (xs & Hcol & Hnn).
    split; [exact Hne |]. split.
    - eexists. apply with_churn_column. exact Hrows.
    - exists (Object xs). rewrite Hother by exact Hne. split; [exact Hcol |].
      simpl. rewrite in_map_iff. intros (x & Hx & Hin). destruct x; [discriminate |].
      contradiction. }
  destruct (encode_all_returns d None cat_columns) with (e := d) as [e2 He2].
  { intros c Hc. apply encodable_encode_column. now apply Henc. }
  destruct (encode_all_returns d (Some "Churn") cat_columns) with (e := d)
    as [e3 He3].
  { intros c Hc. apply encodable_encode_column. now apply Henc. }
  (* the second call: same names, other data *)
  assert (Hcols2 : columns e2 = columns d).
  { apply (encode_all_columns_same d None cat_columns d e2); [| exact He2].
    intros c Hc. destruct (Henc c Hc) as (_ & _ & col & Hcol & _).
    exact (getitem_In _ _ _ Hcol). }
  assert (Hdiff2 : frame_equals e2 d = false).
  { destruct (frame_equals e2 d) eqn:E; [| reflexivity].
    destruct (encode_all_written d None cat_columns d e2 He2 "Gender")
      as (lst & _ & Hg); [simpl; tauto |].
    destruct (frame_equals_getitem _ _ _ _ E Hg) as (t & Ht & Heq).
    destruct (Hcats "Gender") as (xs & Hcol & _); [simpl; tauto |].
    rewrite Hother in Ht by discriminate.
    change (target None "Gender") with "Gender" in Ht.
    rewrite Hcol in Ht. injection Ht as <-. discriminate Heq. }
  (* the third call: five more columns *)
  assert (Hcols3 : columns e3
                   = columns d ++ map (target (Some "Churn")) cat_columns).
  { apply (encode_all_columns_new d (Some "Churn") cat_columns); [| | exact He3].
    - apply distinctb_NoDup. reflexivity.
    - intros c Hc. rewrite target_response by discriminate.
      unfold d. rewrite columns_with_churn.
      destruct (has_column df "Churn"); [now apply Hfresh |].
      rewrite in_app_iff. intros [F | [F | []]].
      + now apply (Hfresh c Hc).
      + symmetry in F. now apply encoded_name_not_churn in F. }
  assert (Hlen3 : length (columns e3) = length (columns d) + length cat_columns).
  { rewrite Hcols3, length_app, length_map. reflexivity. }
  assert (Hmore : length (columns e3) <> length (columns d))
    by (rewrite Hlen3; simpl; lia).
  (* running the test *)
  assert (Hrun : exists w',
             test_encoder_helper w = (Ret tt, w') /\
             log w'
             = ((log w
                 ++ [info "Testing encoder_helper(data_frame, category_lst=[]): SUCCESS"])
                 ++ [info "Testing encoder_helper: SUCCESS"])
                 ++ [info "Testing encoder_helper with response='Churn': SUCCESS"]).
  { unfold test_encoder_helper.
    erewrite bind_ret_eq by (apply import_data_found; exact Hcsv).
    erewrite bind_ret_eq.
    2:{ rewrite (df_getitem_eq _ _ df) by (simpl; apply nth_error_app_last).
        rewrite Hflag. reflexivity. }
    erewrite bind_ret_eq.
    2:{ apply (df_setitem_eq _ _ df). simpl. apply nth_error_app_last. }
    cbn [heap set_heap]. rewrite update_app_last. fold d. fold l.
    erewrite bind_ret_eq.
    2:{ apply (encoder_test_block _ l d d [] None);
          [simpl; apply nth_error_app_last | reflexivity |].
        intros w'. apply assert_true. now rewrite frame_equals_refl. }
    erewrite bind_ret_eq.
    2:{ apply (encoder_test_block _ l d e2 cat_columns None);
          [simpl; apply nth_error_app_old, nth_error_app_last | exact He2 |].
        intros w'. rewrite assert_true; [apply assert_true |].
        - now rewrite Hdiff2.
        - unfold columns_equals. rewrite Hcols2.
          now rewrite list_eqb_refl by apply String.eqb_refl. }
    eexists. split.
    - apply (encoder_test_block _ l d e3 cat_columns (Some "Churn"));
        [simpl; do 2 apply nth_error_app_old; apply nth_error_app_last
        | exact He3 |].
      intros w'. rewrite !assert_true; [reflexivity | | |].
      + rewrite Hlen3. apply Nat.eqb_refl.
      + rewrite frame_equals_length by exact Hmore. reflexivity.
      + rewrite columns_equals_length by exact Hmore. reflexivity.
    - reflexivity. }
  destruct Hrun as (w' & Hrun & Hlog). rewrite Hrun. split; [reflexivity |].
  simpl. rewrite Hlog, <- !app_assoc. reflexivity.
Qed.

Lemma test_encoder_helper_passes_on_witness :
  fst (test_encoder_helper (sample_world [])) = Ret tt /\
  log (snd (test_encoder_helper (sample_world [])))
  = log (sample_world [])
    ++ [{| level := INFO;
           message := "Testing encoder_helper(data_frame, category_lst=[]): SUCCESS";
           args := [] |};
        {| level := INFO; message := "Testing encoder_helper: SUCCESS";
           args := [] |};
        {| level := INFO;
           message := "Testing encoder_helper with response='Churn': SUCCESS";
           args := [] |}].
Proof.
  apply (test_encoder_helper_passes_on (sample_world []) sample_raw
           (four "Existing Customer" "Attrited Customer" "Existing Customer"
                 "Attrited Customer")).
  - reflexivity.
  - reflexivity.
  - vm_compute. lia.
  - intros c [<- | [<- | [<- | [<- | [<- | []]]]]];
      (eexists; split; [reflexivity |]);
      intros [F | [F | [F | [F | []]]]]; discriminate F.
  - intros c [<- | [<- | [<- | [<- | [<- | []]]]]];
      apply has_column_false; reflexivity.
Defined.

(** On a data file with a header line and no row, the [Churn] column the
    test derives is empty and of object dtype, so the group means have no
    [Churn] column: the first check passes, the second call of
    [encoder_helper] raises [KeyError('Churn')], and the test, which
    catches [AssertionError] only, lets it through. *)
Example test_encoder_helper_header_only :
  fst (test_encoder_helper world_header_only)
  = Raise (KeyError (Some (Str "Churn"))) /\
  map message (log (snd (test_encoder_helper world_header_only)))
  = ["Testing encoder_helper(data_frame, category_lst=[]): SUCCESS"].
Proof. split; vm_compute; reflexivity. Qed.
